(** * VAAPI video filters ([modules/hw/vaapi/filters.c])

    A shallow embedding of the filter session, the per-frame pipeline, the
    Adjust / Basic sigma controls and the Deinterlace history window, followed
    by the properties proved about them.

    Conventions of the embedding.
    - [unsigned int] and the VA identifiers are [N]; every arithmetic
      operation of the source on them is written with its wrap-around
      modulo [2^32] ([u32], [u32_sub]).
    - C arrays are lists read and written through [tab_get] / [tab_set],
      which fault on an index outside the array; [NULL]-able pointers to
      blocks are [option]s read through [deref].
    - [float] is embedded as the rationals [Q]: the arithmetic of the source
      is kept operation for operation, rounding is not modelled, and numeric
      results are compared with [==].  The embedding identifies the
      expression the code evaluates; the order of its results (bounds,
      monotonicity, round trips) is that of the rational expression and is
      stated only of exact arithmetic.
    - Calls into libva, the picture pool and the allocator are answered by an
      oracle record (one field per call site) and logged as [event]s, in
      program order. *)

From Stdlib Require Import ZArith NArith QArith Qfield Lqa String List Bool Lia.
From stdpp Require Import base list.
Import ListNotations.

Local Open Scope N_scope.

(* ================================================================== *)
(** * Part I: the embedding                                            *)
(* ================================================================== *)

(** ** Faults and the result monad *)

(** Behaviour the C source leaves undefined. *)
Inductive fault : Type :=
| OutOfBounds (idx : N)   (* array access outside its bounds *)
| BadCast                 (* [void *] reinterpreted at the wrong struct type *)
| NullDeref.              (* access through a [NULL] pointer *)

Inductive res (A : Type) : Type :=
| Ret (a : A)
| Fault (f : fault).
Arguments Ret {A} a.
Arguments Fault {A} f.

Definition bind {A B : Type} (m : res A) (k : A -> res B) : res B :=
  match m with
  | Ret a => k a
  | Fault f => Fault f
  end.

Notation "x <- m ;; k" := (bind m (fun x => k))
  (at level 100, m at next level, right associativity).

(** Control flow of a loop body: fall through to the next iteration, or leave
    the loop ([break], or [return r] from the enclosing function). *)
Inductive flow (S R : Type) : Type :=
| Next (s : S)
| Leave (r : R).
Arguments Next {S R} s.
Arguments Leave {S R} r.

(** [for (unsigned int i = from; <n more iterations>; ++i) body]. *)
Fixpoint for_range {S R : Type} (from : N) (n : nat)
    (body : N -> S -> res (flow S R)) (s : S) : res (flow S R) :=
  match n with
  | O => Ret (Next s)
  | Datatypes.S n' =>
      match body from s with
      | Ret (Next s') => for_range (N.succ from) n' body s'
      | other => other
      end
  end.

(** ** Machine integers, arrays, pointers *)

Definition u32 (n : N) : N := n mod 2 ^ 32.
Definition u32_sub (a b : N) : N := (a + 2 ^ 32 - b mod 2 ^ 32) mod 2 ^ 32.

Definition tab_get {A : Type} (t : list A) (i : N) : res A :=
  match t !! N.to_nat i with
  | Some x => Ret x
  | None => Fault (OutOfBounds i)
  end.

Definition tab_set {A : Type} (t : list A) (i : N) (x : A) : res (list A) :=
  if (N.to_nat i <? length t)%nat then Ret (<[N.to_nat i := x]> t)
  else Fault (OutOfBounds i).

Definition deref {A : Type} (p : option A) : res A :=
  match p with
  | Some x => Ret x
  | None => Fault NullDeref
  end.

(** [memmove(t + dst, t + src, n * sizeof *t)]. *)
Definition memmove {A : Type} (t : list A) (dst src n : N) : res (list A) :=
  if ((N.to_nat src + N.to_nat n <=? length t)
      && (N.to_nat dst + N.to_nat n <=? length t))%nat
  then Ret (take (N.to_nat dst) t
            ++ take (N.to_nat n) (drop (N.to_nat src) t)
            ++ drop (N.to_nat dst + N.to_nat n)%nat t)
  else Fault (OutOfBounds (N.max src dst + n)).

(** ** VLC and libva constants used by the file *)

(** Return codes, with the values [vlc_common.h] gives them; the file only
    returns them and tests return values against zero. *)
Definition VLC_SUCCESS : Z := 0%Z.
Definition VLC_EGENERIC : Z := (-1)%Z.
Definition VLC_ENOMEM : Z := (-2)%Z.

Definition VAGenericID : Type := N.
Definition VABufferID : Type := VAGenericID.
Definition VAConfigID : Type := VAGenericID.
Definition VAContextID : Type := VAGenericID.
Definition VASurfaceID : Type := VAGenericID.
Definition VA_INVALID_ID : VAGenericID := 0xffffffff.

(** Flag bits of libva's [va_vpp.h]. *)
Definition VA_PROC_PIPELINE_FAST : N := 0x2.
Definition VA_DEINTERLACING_BOTTOM_FIELD_FIRST : N := 0x1.

Definition DEST_PICS_POOL_SZ : N := 3.

(** libva's [VAProcFilterType], up to the last value the file names. *)
Inductive VAProcFilterType : Type :=
| VAProcFilterNone
| VAProcFilterNoiseReduction
| VAProcFilterDeinterlacing
| VAProcFilterSharpening
| VAProcFilterColorBalance.

(** libva's [VAProcColorBalanceType]; [VAProcColorBalanceCount] closes the
    enumeration and sizes the capability array of the color-balance query. *)
Inductive VAProcColorBalanceType : Type :=
| VAProcColorBalanceNone
| VAProcColorBalanceHue
| VAProcColorBalanceSaturation
| VAProcColorBalanceBrightness
| VAProcColorBalanceContrast
| VAProcColorBalanceAutoSaturation
| VAProcColorBalanceAutoBrightness
| VAProcColorBalanceAutoContrast.

Definition VAProcColorBalanceCount : N := 8.

#[global] Instance VAProcColorBalanceType_eq_dec : EqDecision VAProcColorBalanceType.
Proof. solve_decision. Defined.

(** ** Ranges and the affine mapping *)

(** [struct range]. *)
Record range : Type := mk_range {
  range_min_value : Q;
  range_max_value : Q
}.

(** libva's [VAProcFilterValueRange]. *)
Record VAProcFilterValueRange : Type := mk_va_range {
  va_min_value : Q;
  va_max_value : Q;
  va_default_value : Q;
  va_step : Q
}.

(** The macro [GET_DRV_SIGMA] takes any struct with [min_value] and
    [max_value] members. *)
Class Ranged (R : Type) : Type := {
  min_value : R -> Q;
  max_value : R -> Q
}.

#[global] Instance range_Ranged : Ranged range :=
  {| min_value := range_min_value; max_value := range_max_value |}.
#[global] Instance va_range_Ranged : Ranged VAProcFilterValueRange :=
  {| min_value := va_min_value; max_value := va_max_value |}.

Definition GET_DRV_SIGMA {A B : Type} `{Ranged A} `{Ranged B}
    (vlc_sigma : Q) (vlc_range : A) (drv_range : B) : Q :=
  ((vlc_sigma - min_value vlc_range) *
   (max_value drv_range - min_value drv_range) /
   (max_value vlc_range - min_value vlc_range) + min_value drv_range)%Q.

(** Modelled from the spec: the macro [VLC_CLIP] of [vlc_common.h], which is
    not among the sources.  "Inputs are always clamped to [in.min, in.max]
    before mapping": the value is raised to the lower bound, then lowered to
    the upper bound. *)
Definition VLC_CLIP (v lo hi : Q) : Q :=
  let m := if Qle_bool v lo then lo else v in
  if Qle_bool hi m then hi else m.

(** ** Adjust: tables and state *)

Definition ADJUST_CONT : N := 0.
Definition ADJUST_LUM : N := 1.
Definition ADJUST_HUE : N := 2.
Definition ADJUST_SAT : N := 3.
Definition NUM_ADJUST_MODES : N := 4.

Definition va_adjust_modes : list VAProcColorBalanceType :=
  [ VAProcColorBalanceContrast;
    VAProcColorBalanceBrightness;
    VAProcColorBalanceHue;
    VAProcColorBalanceSaturation ].

Definition adjust_params_names : list string :=
  [ "contrast"; "brightness"; "hue"; "saturation" ]%string.

Definition vlc_adjust_sigma_ranges : list range :=
  [ mk_range 0 2; mk_range 0 2; mk_range (-180) 180; mk_range 0 3 ]%Q.

(** One element of [adjust_params.sigma]. *)
Record adjust_sigma : Type := mk_adjust_sigma {
  drv_value : Q;
  drv_range : VAProcFilterValueRange;
  is_available : bool
}.

(** [struct adjust_data], with [params.sigma] inlined. *)
Record adjust_data : Type := mk_adjust_data {
  sigma : list adjust_sigma;
  num_available_modes : N
}.

(** Adaptation of VAAPI adjust filter so it looks more like the CPU one. *)
Definition adapt_adjust_sigma (psz_var : string) (sigma : Q) (p_range : range) : Q :=
  if String.eqb psz_var "contrast" then
    let adapt_range := mk_range 0 (35 # 100) in
    GET_DRV_SIGMA sigma p_range adapt_range
  else if String.eqb psz_var "saturation" then
    let adapt_range := mk_range 0 1 in
    GET_DRV_SIGMA sigma p_range adapt_range
  else sigma.

(** ** Basic filters: state *)

Definition vlc_denoise_sigma_range : range := mk_range 0 2.
Definition vlc_sharpen_sigma_range : range := mk_range 0 2.

(** [basic_filter_data.sigma]. *)
Record basic_sigma : Type := mk_basic_sigma {
  basic_drv_value : Q;
  basic_drv_range : VAProcFilterValueRange;
  p_vlc_range : option range;
  psz_name : string
}.

Record basic_filter_data : Type := mk_basic_filter_data {
  basic_sigma_of : basic_sigma;
  filter_type : VAProcFilterType
}.

(** ** The variable callback *)

(** What the [void * p_data] of the callback points to. *)
Inductive cb_data : Type :=
| AdjustData (d : adjust_data)
| BasicData (b : basic_filter_data).

(** The place [p_drv_value] points to. *)
Inductive drv_value_ptr : Type :=
| PtrAdjustSigma (i : N)
| PtrBasicSigma.

(** Locals of [FilterCallback]; the three pointers are set together. *)
Record cb_locals : Type := mk_cb_locals {
  loc_p_vlc_range : option range;
  loc_p_drv_range : option VAProcFilterValueRange;
  loc_p_drv_value : option drv_value_ptr;
  b_found : bool;
  b_adjust : bool
}.

Definition cb_locals_init : cb_locals :=
  mk_cb_locals None None None false false.

(** Body of the loop over the adjust names. *)
Definition FilterCallback_adjust_step (psz_var : string) (p_data : cb_data)
    (i : N) (loc : cb_locals) : res (flow cb_locals Z) :=
  name <- tab_get adjust_params_names i ;;
  if String.eqb psz_var name then
    match p_data with
    | AdjustData p_adjust_data =>
        s <- tab_get (sigma p_adjust_data) i ;;
        if negb (is_available s) then Ret (Leave VLC_EGENERIC)
        else
          r <- tab_get vlc_adjust_sigma_ranges i ;;
          Ret (Next (mk_cb_locals (Some r) (Some (drv_range s))
                                  (Some (PtrAdjustSigma i)) true true))
    | BasicData _ => Fault BadCast
    end
  else Ret (Next loc).

(** The basic-filter branch taken when no adjust name matched. *)
Definition FilterCallback_basic_step (psz_var : string) (p_data : cb_data)
    (loc : cb_locals) : res cb_locals :=
  if negb (b_found loc) then
    if String.eqb psz_var "denoise-sigma" || String.eqb psz_var "sharpen-sigma" then
      match p_data with
      | BasicData p_basic_filter_data =>
          let s := basic_sigma_of p_basic_filter_data in
          Ret (mk_cb_locals (p_vlc_range s) (Some (basic_drv_range s))
                            (Some PtrBasicSigma) true (b_adjust loc))
      | AdjustData _ => Fault BadCast
      end
    else Ret loc
  else Ret loc.

(** [vlc_atomic_store_float(p_drv_value, v)]: one indivisible store. *)
Definition vlc_atomic_store_float (p : drv_value_ptr) (v : Q) (p_data : cb_data)
    : res cb_data :=
  match p, p_data with
  | PtrAdjustSigma i, AdjustData d =>
      s <- tab_get (sigma d) i ;;
      t <- tab_set (sigma d) i
             (mk_adjust_sigma v (drv_range s) (is_available s)) ;;
      Ret (AdjustData (mk_adjust_data t (num_available_modes d)))
  | PtrBasicSigma, BasicData b =>
      let s := basic_sigma_of b in
      Ret (BasicData
             (mk_basic_filter_data
                (mk_basic_sigma v (basic_drv_range s) (p_vlc_range s) (psz_name s))
                (filter_type b)))
  | _, _ => Fault BadCast
  end.

Definition FilterCallback (psz_var : string) (newval : Q) (p_data : cb_data)
    : res (Z * cb_data) :=
  scan <- for_range 0 (N.to_nat NUM_ADJUST_MODES)
            (FilterCallback_adjust_step psz_var p_data) cb_locals_init ;;
  match scan with
  | Leave code => Ret (code, p_data)
  | Next loc =>
      loc <- FilterCallback_basic_step psz_var p_data loc ;;
      if negb (b_found loc) then Ret (VLC_EGENERIC, p_data)
      else
        p_vlc_range <- deref (loc_p_vlc_range loc) ;;
        p_drv_range <- deref (loc_p_drv_range loc) ;;
        p_drv_value <- deref (loc_p_drv_value loc) ;;
        let vlc_sigma := VLC_CLIP newval (min_value p_vlc_range)
                                         (max_value p_vlc_range) in
        let vlc_sigma := if b_adjust loc
                         then adapt_adjust_sigma psz_var vlc_sigma p_vlc_range
                         else vlc_sigma in
        let drv_sigma := GET_DRV_SIGMA vlc_sigma p_vlc_range p_drv_range in
        p_data' <- vlc_atomic_store_float p_drv_value drv_sigma p_data ;;
        Ret (VLC_SUCCESS, p_data')
  end.

(** ** Events: the calls that leave the module, in program order *)

(** [picture_t], reduced to the members the file reads or writes. *)
Record picture_t : Type := mk_picture {
  pic_surface : VASurfaceID;      (* what [vlc_vaapi_PicGetSurface] returns *)
  date : Z;
  b_force : bool;
  b_progressive : bool;
  i_nb_fields : N;
  b_top_field_first : bool
}.

Definition vlc_vaapi_PicGetSurface (pic : picture_t) : VASurfaceID :=
  pic_surface pic.

(** libva's [VAProcPipelineParameterBuffer], reduced to the members the file
    writes.  A pointer to a surface array is embedded as the part of the
    block visible from it. *)
Record VAProcPipelineParameterBuffer : Type := mk_pipeline_params {
  pp_surface : VASurfaceID;
  pp_filters : list VABufferID;
  pp_num_filters : N;
  pp_pipeline_flags : N;
  pp_filter_flags : N;
  pp_forward_references : list VASurfaceID;
  pp_num_forward_references : N;
  pp_backward_references : list VASurfaceID;
  pp_num_backward_references : N
}.

(** libva's [VAProcPipelineCaps], reduced to the members the file reads. *)
Record VAProcPipelineCaps : Type := mk_pipeline_caps {
  caps_pipeline_flags : N;
  caps_num_forward_references : N;
  caps_num_backward_references : N
}.

Definition vlc_vaapi_instance : Type := N.
Definition picture_pool_t : Type := N.

(** Heap blocks the file allocates and frees itself. *)
Inductive block : Type :=
| Blk_filter_sys
| Blk_va_params
| Blk_history_pics
| Blk_ref_surfaces.

Inductive event : Type :=
| E_calloc (b : block) (ok : bool)
| E_malloc (b : block) (ok : bool)
| E_free (b : block)
| E_vlc_vaapi_FilterHoldInstance (ret : option vlc_vaapi_instance)
| E_vlc_vaapi_ReleaseInstance (inst : vlc_vaapi_instance)
| E_vlc_vaapi_PoolNew (ret : option picture_pool_t)
| E_picture_pool_Release (pool : picture_pool_t)
| E_vlc_vaapi_CreateConfigChecked (ret : VAConfigID)
| E_vlc_vaapi_DestroyConfig (conf : VAConfigID)
| E_vlc_vaapi_CreateContext (conf : VAConfigID) (ret : VAContextID)
| E_vlc_vaapi_DestroyContext (ctx : VAContextID)
| E_vlc_vaapi_IsVideoProcFilterAvailable (ctx : VAContextID)
    (type : VAProcFilterType) (ret : Z)
| E_vlc_vaapi_QueryVideoProcFilterCaps (ret : Z)
| E_vlc_vaapi_QueryVideoProcPipelineCaps (buf : VABufferID) (ret : Z)
| E_vlc_vaapi_CreateBuffer (ctx : VAContextID) (ret : VABufferID)
| E_vlc_vaapi_DestroyBuffer (buf : VABufferID)
| E_vlc_vaapi_MapBuffer (buf : VABufferID) (ret : Z)
| E_vlc_vaapi_UnmapBuffer (buf : VABufferID) (ret : Z)
| E_vlc_vaapi_BeginPicture (ctx : VAContextID) (target : VASurfaceID) (ret : Z)
| E_vlc_vaapi_RenderPicture (ctx : VAContextID) (buf : VABufferID)
    (params : VAProcPipelineParameterBuffer) (ret : Z)
| E_vlc_vaapi_EndPicture (ctx : VAContextID) (ret : Z)
| E_picture_pool_Wait (pool : option picture_pool_t) (ret : option picture_t)
| E_vlc_vaapi_PicAttachContext (pic : picture_t)
| E_picture_Release (pic : picture_t).

(** ** Adjust: opening and updating the parameter buffer *)

(** libva's [VAProcFilterCapColorBalance]. *)
Record VAProcFilterCapColorBalance : Type := mk_cap {
  cap_type : VAProcColorBalanceType;
  cap_range : VAProcFilterValueRange
}.

(** libva's [VAProcFilterParameterBufferColorBalance]. *)
Record VAProcFilterParameterBufferColorBalance : Type := mk_cb_param {
  cb_type : VAProcFilterType;
  cb_attrib : VAProcColorBalanceType;
  cb_value : Q
}.

Definition cb_param_zero : VAProcFilterParameterBufferColorBalance :=
  mk_cb_param VAProcFilterNone VAProcColorBalanceNone 0.

Definition va_range_zero : VAProcFilterValueRange := mk_va_range 0 0 0 0.

(** [calloc(1, sizeof(struct adjust_data))], as [OpenAdjust] obtains it. *)
Definition adjust_data_calloc : adjust_data :=
  mk_adjust_data
    (replicate (N.to_nat NUM_ADJUST_MODES) (mk_adjust_sigma 0 va_range_zero false))
    0.

(** What the environment answers during [OpenAdjust_InitFilterParams]:
    the inherited variables, the capability query (its return code and the
    [num_caps] entries it wrote into [caps]) and the allocator. *)
Record adjust_open_env : Type := mk_adjust_open_env {
  var_InheritFloat : string -> Q;
  query_ret : Z;
  query_caps : list VAProcFilterCapColorBalance;
  calloc_va_params_ok : bool
}.

(** Body of the inner loop: [caps[j].type == va_adjust_modes[i]], then the
    initialisation of [sigma[i]] and [break]. *)
Definition OpenAdjust_scan_caps_step (inherit : string -> Q)
    (caps : list VAProcFilterCapColorBalance) (i j : N) (d : adjust_data)
    : res (flow adjust_data adjust_data) :=
  c <- tab_get caps j ;;
  mode <- tab_get va_adjust_modes i ;;
  if bool_decide (cap_type c = mode) then
    name <- tab_get adjust_params_names i ;;
    r <- tab_get vlc_adjust_sigma_ranges i ;;
    let vlc_sigma := VLC_CLIP (inherit name) (min_value r) (max_value r) in
    let vlc_sigma := adapt_adjust_sigma name vlc_sigma r in
    let drv_sigma := GET_DRV_SIGMA vlc_sigma r (cap_range c) in
    t <- tab_set (sigma d) i (mk_adjust_sigma drv_sigma (cap_range c) true) ;;
    Ret (Leave (mk_adjust_data t (u32 (num_available_modes d + 1))))
  else Ret (Next d).

(** Body of the outer loop, over [i < num_caps]. *)
Definition OpenAdjust_scan_modes_step (inherit : string -> Q)
    (caps : list VAProcFilterCapColorBalance) (i : N) (d : adjust_data)
    : res (flow adjust_data Empty_set) :=
  inner <- for_range 0 (length caps) (OpenAdjust_scan_caps_step inherit caps i) d ;;
  match inner with
  | Next d' => Ret (Next d')
  | Leave d' => Ret (Next d')
  end.

(** Body of the loop that fills [p_va_params]; the state is the buffer and
    the write index [i]. *)
Definition OpenAdjust_fill_step (d : adjust_data) (j : N)
    (st : list VAProcFilterParameterBufferColorBalance * N)
    : res (flow (list VAProcFilterParameterBufferColorBalance * N) Empty_set) :=
  let '(p_va_params, i) := st in
  s <- tab_get (sigma d) j ;;
  if is_available s then
    e <- tab_get p_va_params i ;;
    mode <- tab_get va_adjust_modes j ;;
    t <- tab_set p_va_params i
           (mk_cb_param VAProcFilterColorBalance mode (cb_value e)) ;;
    Ret (Next (t, u32 (i + 1)))
  else Ret (Next st).

(** Result of a parameter-initialisation callback: the return code, the
    updated [p_data], the blob stored in [*pp_va_params] on success with the
    count stored in [*p_num_va_params], and the calls made. *)
Definition init_result (D P : Type) : Type :=
  (Z * D * option P * N * list event)%type.

Definition OpenAdjust_InitFilterParams (env : adjust_open_env)
    (p_adjust_data : adjust_data)
    : res (init_result adjust_data (list VAProcFilterParameterBufferColorBalance)) :=
  let ev := [E_vlc_vaapi_QueryVideoProcFilterCaps (query_ret env)] in
  if negb (query_ret env =? 0)%Z then
    Ret (VLC_EGENERIC, p_adjust_data, None, 0, ev)
  else
    let caps := query_caps env in
    let num_caps := length caps in
    scan <- for_range 0 num_caps
              (OpenAdjust_scan_modes_step (var_InheritFloat env) caps)
              p_adjust_data ;;
    match scan with
    | Leave e => match e with end
    | Next d =>
        let num_va_params := num_available_modes d in
        let ev := ev ++ [E_calloc Blk_va_params (calloc_va_params_ok env)] in
        if negb (calloc_va_params_ok env) then
          Ret (VLC_ENOMEM, d, None, num_va_params, ev)
        else
          let p_va_params := replicate (N.to_nat num_va_params) cb_param_zero in
          fill <- for_range 0 (N.to_nat NUM_ADJUST_MODES)
                    (OpenAdjust_fill_step d) (p_va_params, 0) ;;
          match fill with
          | Leave e => match e with end
          | Next (p_va_params, _) =>
              Ret (VLC_SUCCESS, d, Some p_va_params, num_va_params, ev)
          end
    end.

(** Body of the loop of [Adjust_UpdateVAFilterParams]. *)
Definition Adjust_update_step (d : adjust_data) (j : N)
    (st : list VAProcFilterParameterBufferColorBalance * N)
    : res (flow (list VAProcFilterParameterBufferColorBalance * N) Empty_set) :=
  let '(p_va_params, i) := st in
  s <- tab_get (sigma d) j ;;
  if is_available s then
    e <- tab_get p_va_params i ;;
    t <- tab_set p_va_params i
           (mk_cb_param (cb_type e) (cb_attrib e) (drv_value s)) ;;
    Ret (Next (t, u32 (i + 1)))
  else Ret (Next st).

(** Returns the buffer after the update together with the final value of the
    write index [i], that is the number of entries written. *)
Definition Adjust_UpdateVAFilterParams (p_adjust_data : adjust_data)
    (va_params : list VAProcFilterParameterBufferColorBalance)
    : res (list VAProcFilterParameterBufferColorBalance * N) :=
  loop <- for_range 0 (N.to_nat NUM_ADJUST_MODES)
            (Adjust_update_step p_adjust_data) (va_params, 0) ;;
  match loop with
  | Leave e => match e with end
  | Next st => Ret st
  end.

(** ** The session: [struct va_filter_desc], [filter_sys_t] *)

Record va_filter_desc : Type := mk_va_filter_desc {
  inst : option vlc_vaapi_instance;
  dpy : N;
  conf : VAConfigID;
  ctx : VAContextID;
  buf : VABufferID;
  surface_ids : option (list VASurfaceID)
}.

Record filter_sys_t (D : Type) : Type := mk_filter_sys {
  va : va_filter_desc;
  dest_pics : option picture_pool_t;
  b_pipeline_fast : bool;
  p_data : D
}.
Arguments mk_filter_sys {D} _ _ _ _.
Arguments va {D} _.
Arguments dest_pics {D} _.
Arguments b_pipeline_fast {D} _.
Arguments p_data {D} _.

Definition set_p_data {D : Type} (s : filter_sys_t D) (d : D) : filter_sys_t D :=
  mk_filter_sys (va s) (dest_pics s) (b_pipeline_fast s) d.
Definition set_va {D : Type} (s : filter_sys_t D) (v : va_filter_desc) : filter_sys_t D :=
  mk_filter_sys v (dest_pics s) (b_pipeline_fast s) (p_data s).

(** Modelled from the spec: [picture_CopyProperties] of [vlc_picture.h], which
    is not among the sources.  "copy metadata (timing, flags) from source to
    destination": the date and the flag members of the destination are
    overwritten, its surface is kept. *)
Definition picture_CopyProperties (p_dst p_src : picture_t) : picture_t :=
  mk_picture (pic_surface p_dst) (date p_src) (b_force p_src)
             (b_progressive p_src) (i_nb_fields p_src) (b_top_field_first p_src).

(** ** The per-frame pipeline: [Filter] *)

(** What the environment answers during one call of [Filter], one member per
    call site.  [o_pipeline_buf_uninit] is the indeterminate content of the
    local [pipeline_buf] on the three [goto error] that jump over its
    initialisation. *)
Record filter_oracle : Type := mk_filter_oracle {
  o_picture_pool_Wait : option picture_t;
  o_MapBuffer_params : Z;
  o_UnmapBuffer_params : Z;
  o_BeginPicture : Z;
  o_CreateBuffer_pipeline : VABufferID;
  o_MapBuffer_pipeline : Z;
  o_UnmapBuffer_pipeline : Z;
  o_RenderPicture : Z;
  o_EndPicture : Z;
  o_pipeline_buf_uninit : VABufferID
}.

(** The [error:] label of [Filter]. *)
Definition Filter_error (pipeline_buf : VABufferID) (dest : option picture_t)
    : list event :=
  (if negb (pipeline_buf =? VA_INVALID_ID)
   then [E_vlc_vaapi_DestroyBuffer pipeline_buf] else [])
  ++ match dest with
     | Some d => [E_picture_Release d]
     | None => []
     end.

(** The pipeline description [Filter] writes into the mapped pipeline buffer
    before the filter-specific callback: the zeroed struct, then [surface],
    [filters], [num_filters] and, on a fast pipeline, [pipeline_flags]. *)
Definition Filter_pipeline_params {D : Type} (filter_sys : filter_sys_t D)
    (src : picture_t) : VAProcPipelineParameterBuffer :=
  mk_pipeline_params (vlc_vaapi_PicGetSurface src) [buf (va filter_sys)] 1
    (if b_pipeline_fast filter_sys then VA_PROC_PIPELINE_FAST else 0)
    0 [] 0 [] 0.

Definition call_opt {A : Type} (pf : option (A -> res A)) (a : A) : res A :=
  match pf with
  | Some f => f a
  | None => Ret a
  end.

(** [src] is a pointer and may be [NULL]; it is first read through by
    [picture_CopyProperties].  The result is the returned picture ([None] for
    [NULL]), the session with the [p_data] the callbacks left, the content of
    the filter parameter buffer, and the calls made. *)
Definition Filter {D P : Type} (o : filter_oracle)
    (filter_sys : filter_sys_t D) (va_buf_mem : P) (src : option picture_t)
    (pf_update_va_filter_params : option (D -> P -> res P))
    (pf_prepare_render_surface : option (D -> res D))
    (pf_update_pipeline_params :
       option (D -> VAProcPipelineParameterBuffer
               -> res VAProcPipelineParameterBuffer))
    : res (option picture_t * filter_sys_t D * P * list event) :=
  let v := va filter_sys in
  let ev := [E_picture_pool_Wait (dest_pics filter_sys) (o_picture_pool_Wait o)] in
  match o_picture_pool_Wait o with
  | None => Ret (None, filter_sys, va_buf_mem, ev)
  | Some dest =>
    let ev := ev ++ [E_vlc_vaapi_PicAttachContext dest] in
    src <- deref src ;;
    let dest := picture_CopyProperties dest src in
    let ev := ev ++ [E_vlc_vaapi_MapBuffer (buf v) (o_MapBuffer_params o)] in
    if negb (o_MapBuffer_params o =? 0)%Z then
      Ret (None, filter_sys, va_buf_mem,
           ev ++ Filter_error (o_pipeline_buf_uninit o) (Some dest))
    else
    va_buf_mem <- call_opt (option_map (fun f => f (p_data filter_sys))
                                       pf_update_va_filter_params) va_buf_mem ;;
    let ev := ev ++ [E_vlc_vaapi_UnmapBuffer (buf v) (o_UnmapBuffer_params o)] in
    if negb (o_UnmapBuffer_params o =? 0)%Z then
      Ret (None, filter_sys, va_buf_mem,
           ev ++ Filter_error (o_pipeline_buf_uninit o) (Some dest))
    else
    let ev := ev ++ [E_vlc_vaapi_BeginPicture (ctx v)
                       (vlc_vaapi_PicGetSurface dest) (o_BeginPicture o)] in
    if negb (o_BeginPicture o =? 0)%Z then
      Ret (None, filter_sys, va_buf_mem,
           ev ++ Filter_error (o_pipeline_buf_uninit o) (Some dest))
    else
    d <- call_opt pf_prepare_render_surface (p_data filter_sys) ;;
    let filter_sys := set_p_data filter_sys d in
    let pipeline_buf := o_CreateBuffer_pipeline o in
    let ev := ev ++ [E_vlc_vaapi_CreateBuffer (ctx v) pipeline_buf] in
    if pipeline_buf =? VA_INVALID_ID then
      Ret (None, filter_sys, va_buf_mem,
           ev ++ Filter_error pipeline_buf (Some dest))
    else
    let ev := ev ++ [E_vlc_vaapi_MapBuffer pipeline_buf (o_MapBuffer_pipeline o)] in
    if negb (o_MapBuffer_pipeline o =? 0)%Z then
      Ret (None, filter_sys, va_buf_mem,
           ev ++ Filter_error pipeline_buf (Some dest))
    else
    let pipeline_params := Filter_pipeline_params filter_sys src in
    pipeline_params <- call_opt (option_map (fun f => f d)
                                            pf_update_pipeline_params)
                                pipeline_params ;;
    let ev := ev ++ [E_vlc_vaapi_UnmapBuffer pipeline_buf (o_UnmapBuffer_pipeline o)] in
    if negb (o_UnmapBuffer_pipeline o =? 0)%Z then
      Ret (None, filter_sys, va_buf_mem,
           ev ++ Filter_error pipeline_buf (Some dest))
    else
    let ev := ev ++ [E_vlc_vaapi_RenderPicture (ctx v) pipeline_buf
                       pipeline_params (o_RenderPicture o)] in
    if negb (o_RenderPicture o =? 0)%Z then
      Ret (None, filter_sys, va_buf_mem,
           ev ++ Filter_error pipeline_buf (Some dest))
    else
    let ev := ev ++ [E_vlc_vaapi_EndPicture (ctx v) (o_EndPicture o)] in
    if negb (o_EndPicture o =? 0)%Z then
      Ret (None, filter_sys, va_buf_mem,
           ev ++ Filter_error pipeline_buf (Some dest))
    else
    Ret (Some dest, filter_sys, va_buf_mem, ev)
  end.

(** [Adjust]: the filter entry point of the adjust submodule. *)
Definition Adjust (o : filter_oracle) (filter_sys : filter_sys_t adjust_data)
    (va_buf_mem : list VAProcFilterParameterBufferColorBalance) (src : picture_t)
    : res (option picture_t * filter_sys_t adjust_data
           * list VAProcFilterParameterBufferColorBalance * list event) :=
  r <- Filter o filter_sys va_buf_mem (Some src)
         (Some (fun d m => x <- Adjust_UpdateVAFilterParams d m ;; Ret (fst x)))
         None None ;;
  let '(dest, filter_sys, va_buf_mem, ev) := r in
  Ret (dest, filter_sys, va_buf_mem, ev ++ [E_picture_Release src]).

(** ** Opening a session: [Open] *)

(** [video_format_t], reduced to chroma and geometry. *)
Record video_format_t : Type := mk_video_format {
  i_chroma : N;
  i_width : N;
  i_height : N
}.

(** [VLC_FOURCC('V','A','O','P')]. *)
Definition VLC_CODEC_VAAPI_420 : N := 0x504f4156.

(** Modelled from the spec: [video_format_IsSimilar] of the core, which is not
    among the sources.  "format-compatible (same geometry/chroma layout)". *)
Definition video_format_IsSimilar (a b : video_format_t) : bool :=
  (i_chroma a =? i_chroma b) && (i_width a =? i_width b)
  && (i_height a =? i_height b).

(** What the environment answers during one call of [Open]. *)
Record open_oracle : Type := mk_open_oracle {
  o_calloc_filter_sys : bool;
  o_FilterHoldInstance : option (vlc_vaapi_instance * N);
  o_PoolNew : option (picture_pool_t * list VASurfaceID);
  o_CreateConfigChecked : VAConfigID;
  o_CreateContext : VAContextID;
  o_IsVideoProcFilterAvailable : Z;
  o_CreateBuffer_params : VABufferID;
  o_QueryVideoProcPipelineCaps : Z;
  o_pipeline_caps : VAProcPipelineCaps
}.

(** The [error:] label of [Open]. *)
Definition Open_error {D : Type} (filter_sys : filter_sys_t D) : list event :=
  let v := va filter_sys in
  (if negb (buf v =? VA_INVALID_ID) then [E_vlc_vaapi_DestroyBuffer (buf v)] else [])
  ++ (if negb (ctx v =? VA_INVALID_ID) then [E_vlc_vaapi_DestroyContext (ctx v)] else [])
  ++ (if negb (conf v =? VA_INVALID_ID) then [E_vlc_vaapi_DestroyConfig (conf v)] else [])
  ++ match inst v with
     | Some i => [E_vlc_vaapi_ReleaseInstance i]
     | None => []
     end
  ++ [E_free Blk_filter_sys].

(** The result is the return code, [filter->p_sys], [p_data] as the
    callbacks left it, the content the parameter buffer was created with,
    and the calls made.  [filter->p_sys] is [None] as long as [Open] has not
    assigned it (the filter object is created zeroed).  Once
    [filter->p_sys = filter_sys] is executed no exit resets the field: after
    a failure it still holds the pointer to the block the [error:] label
    freed, which the result gives as [Some] of the last content of that
    block, the trace ending with [E_free Blk_filter_sys]. *)
Definition Open {D P : Type} (o : open_oracle)
    (fmt_in fmt_out : video_format_t) (filter_type : VAProcFilterType)
    (p_data : D)
    (pf_init_filter_params : D -> res (init_result D P))
    (pf_use_pipeline_caps :
       option (D -> VAProcPipelineCaps -> res (Z * D * list event)))
    : res (Z * option (filter_sys_t D) * D * option P * list event) :=
  if negb (i_chroma fmt_out =? VLC_CODEC_VAAPI_420)
     || negb (video_format_IsSimilar fmt_out fmt_in)
  then Ret (VLC_EGENERIC, None, p_data, None, [])
  else
  let ev := [E_calloc Blk_filter_sys (o_calloc_filter_sys o)] in
  if negb (o_calloc_filter_sys o) then Ret (VLC_ENOMEM, None, p_data, None, ev)
  else
  let ev := ev ++ [E_vlc_vaapi_FilterHoldInstance
                     (option_map fst (o_FilterHoldInstance o))] in
  let v := mk_va_filter_desc (option_map fst (o_FilterHoldInstance o))
             (from_option snd 0 (o_FilterHoldInstance o))
             VA_INVALID_ID VA_INVALID_ID VA_INVALID_ID None in
  let filter_sys := mk_filter_sys v None false p_data in
  if negb (bool_decide (is_Some (inst v))) then
    Ret (VLC_EGENERIC, Some filter_sys, p_data, None,
         ev ++ Open_error filter_sys)
  else
  let ev := ev ++ [E_vlc_vaapi_PoolNew (option_map fst (o_PoolNew o))] in
  let v := mk_va_filter_desc (inst v) (dpy v) (conf v) (ctx v) (buf v)
             (option_map snd (o_PoolNew o)) in
  let filter_sys := mk_filter_sys v (option_map fst (o_PoolNew o)) false p_data in
  if negb (bool_decide (is_Some (dest_pics filter_sys))) then
    Ret (VLC_EGENERIC, Some filter_sys, p_data, None,
         ev ++ Open_error filter_sys)
  else
  let ev := ev ++ [E_vlc_vaapi_CreateConfigChecked (o_CreateConfigChecked o)] in
  let v := mk_va_filter_desc (inst v) (dpy v) (o_CreateConfigChecked o)
             (ctx v) (buf v) (surface_ids v) in
  let filter_sys := set_va filter_sys v in
  if conf v =? VA_INVALID_ID then
    Ret (VLC_EGENERIC, Some filter_sys, p_data, None,
         ev ++ Open_error filter_sys)
  else
  let ev := ev ++ [E_vlc_vaapi_CreateContext (conf v) (o_CreateContext o)] in
  let v := mk_va_filter_desc (inst v) (dpy v) (conf v) (o_CreateContext o)
             (buf v) (surface_ids v) in
  let filter_sys := set_va filter_sys v in
  if ctx v =? VA_INVALID_ID then
    Ret (VLC_EGENERIC, Some filter_sys, p_data, None,
         ev ++ Open_error filter_sys)
  else
  let ev := ev ++ [E_vlc_vaapi_IsVideoProcFilterAvailable (ctx v) filter_type
                     (o_IsVideoProcFilterAvailable o)] in
  if negb (o_IsVideoProcFilterAvailable o =? 0)%Z then
    Ret (VLC_EGENERIC, Some filter_sys, p_data, None,
         ev ++ Open_error filter_sys)
  else
  r <- pf_init_filter_params p_data ;;
  let '(ret, p_data, p_va_params, i_num_params, ev_init) := r in
  let filter_sys := set_p_data filter_sys p_data in
  let ev := ev ++ ev_init in
  if negb (ret =? 0)%Z then
    Ret (VLC_EGENERIC, Some filter_sys, p_data, None,
         ev ++ Open_error filter_sys)
  else
  let ev := ev ++ [E_vlc_vaapi_CreateBuffer (ctx v) (o_CreateBuffer_params o);
                   E_free Blk_va_params] in
  let v := mk_va_filter_desc (inst v) (dpy v) (conf v) (ctx v)
             (o_CreateBuffer_params o) (surface_ids v) in
  let filter_sys := set_va filter_sys v in
  if buf v =? VA_INVALID_ID then
    Ret (VLC_EGENERIC, Some filter_sys, p_data, None,
         ev ++ Open_error filter_sys)
  else
  let ev := ev ++ [E_vlc_vaapi_QueryVideoProcPipelineCaps (buf v)
                     (o_QueryVideoProcPipelineCaps o)] in
  if negb (o_QueryVideoProcPipelineCaps o =? 0)%Z then
    Ret (VLC_EGENERIC, Some filter_sys, p_data, None,
         ev ++ Open_error filter_sys)
  else
  let p_pipeline_caps := o_pipeline_caps o in
  let filter_sys :=
    mk_filter_sys v (dest_pics filter_sys)
      (negb (N.land (caps_pipeline_flags p_pipeline_caps) VA_PROC_PIPELINE_FAST =? 0))
      p_data in
  match pf_use_pipeline_caps with
  | None => Ret (VLC_SUCCESS, Some filter_sys, p_data, p_va_params, ev)
  | Some use_caps =>
      u <- use_caps p_data p_pipeline_caps ;;
      let '(ret, p_data, ev_use) := u in
      let filter_sys := set_p_data filter_sys p_data in
      let ev := ev ++ ev_use in
      if negb (ret =? 0)%Z then
        Ret (VLC_EGENERIC, Some filter_sys, p_data, None,
             ev ++ Open_error filter_sys)
      else Ret (VLC_SUCCESS, Some filter_sys, p_data, p_va_params, ev)
  end.

(** ** Deinterlace: history window and reference frames *)

(** [deint_data.history].  [pp_cur_pic] is kept as its offset from
    [pp_pics]. *)
Record history_t : Type := mk_history {
  pp_pics : option (list (option picture_t));
  pp_cur_pic : N;
  num_pics : N;
  history_sz : N
}.

(** [deint_data.backward_refs] and [deint_data.forward_refs]: [surfaces] is
    kept as its offset into the one block allocated for both. *)
Record refs_t : Type := mk_refs {
  refs_surfaces : N;
  refs_sz : N
}.

(** [struct deint_data]; [ref_block] is the block [forward_refs.surfaces]
    points to ([None] while that pointer is [NULL]). *)
Record deint_data : Type := mk_deint_data {
  history : history_t;
  ref_block : option (list VASurfaceID);
  backward_refs : refs_t;
  forward_refs : refs_t
}.

(** [calloc(1, sizeof(struct deint_data))], as [OpenDeinterlace] obtains it. *)
Definition deint_data_calloc : deint_data :=
  mk_deint_data (mk_history None 0 0 0) None (mk_refs 0 0) (mk_refs 0 0).

(** What the allocator answers during [OpenDeinterlace_InitHistory]: whether
    [calloc] succeeds, and the uninitialised content of the block [malloc]
    returns ([None] when it fails). *)
Record deint_open_env : Type := mk_deint_open_env {
  calloc_pp_pics_ok : bool;
  malloc_surfaces : option (nat -> VASurfaceID)
}.

Definition OpenDeinterlace_InitHistory (env : deint_open_env)
    (p_deint_data : deint_data) (pipeline_caps : VAProcPipelineCaps)
    : res (Z * deint_data * list event) :=
  let sz_backward_refs := caps_num_backward_references pipeline_caps in
  let sz_forward_refs := caps_num_forward_references pipeline_caps in
  let history_sz := u32 (u32 (sz_backward_refs + 1) + sz_forward_refs) in
  let ev := [E_calloc Blk_history_pics (calloc_pp_pics_ok env)] in
  if negb (calloc_pp_pics_ok env) then Ret (VLC_ENOMEM, p_deint_data, ev)
  else
  let h := mk_history (Some (replicate (N.to_nat history_sz) None))
                      sz_forward_refs 0 history_sz in
  let d := mk_deint_data h (ref_block p_deint_data)
             (backward_refs p_deint_data) (forward_refs p_deint_data) in
  let finish (d : deint_data) (ev : list event) :=
    Ret (VLC_SUCCESS,
         mk_deint_data (history d) (ref_block d)
           (mk_refs (refs_surfaces (forward_refs d) + sz_forward_refs)
                    sz_backward_refs)
           (mk_refs (refs_surfaces (forward_refs d)) sz_forward_refs),
         ev) in
  if negb (u32_sub history_sz 1 =? 0) then
    let ev := ev ++ [E_malloc Blk_ref_surfaces
                       (bool_decide (is_Some (malloc_surfaces env)))] in
    match malloc_surfaces env with
    | None => Ret (VLC_ENOMEM, d, ev)
    | Some junk =>
        let blk := map junk (seq 0 (N.to_nat (u32_sub history_sz 1))) in
        finish (mk_deint_data h (Some blk) (backward_refs d)
                  (mk_refs 0 (refs_sz (forward_refs d)))) ev
    end
  else finish d ev.

Definition Deinterlace_UpdateHistory (p_deint_data : deint_data) (src : picture_t)
    : res (option picture_t * deint_data * list event) :=
  let h := history p_deint_data in
  pics <- deref (pp_pics h) ;;
  st <- (if num_pics h =? history_sz h then
           oldest <- tab_get pics 0 ;;
           oldest <- deref oldest ;;
           let n := u32_sub (num_pics h) 1 in
           moved <- memmove pics 0 1 n ;;
           Ret (moved, n, [E_picture_Release oldest])
         else Ret (pics, num_pics h, [])) ;;
  let '(pics, n, ev) := st in
  pics <- tab_set pics n (Some src) ;;
  let n := u32 (n + 1) in
  cur <- tab_get pics (pp_cur_pic h) ;;
  Ret (cur,
       mk_deint_data (mk_history (Some pics) (pp_cur_pic h) n (history_sz h))
         (ref_block p_deint_data) (backward_refs p_deint_data)
         (forward_refs p_deint_data),
       ev).

(** Body of the loop over the backward references; the state is the block
    [forward_refs.surfaces] points to. *)
Definition Deinterlace_backward_step (d : deint_data) (i : N)
    (blk : option (list VASurfaceID))
    : res (flow (option (list VASurfaceID)) Empty_set) :=
  let idx := u32 (u32 (refs_sz (forward_refs d) + 1) + i) in
  pics <- deref (pp_pics (history d)) ;;
  pic <- tab_get pics idx ;;
  pic <- deref pic ;;
  b <- deref blk ;;
  t <- tab_set b (refs_surfaces (backward_refs d) + i)
         (vlc_vaapi_PicGetSurface pic) ;;
  Ret (Next (Some t)).

(** Body of the loop over the forward references. *)
Definition Deinterlace_forward_step (d : deint_data) (i : N)
    (blk : option (list VASurfaceID))
    : res (flow (option (list VASurfaceID)) Empty_set) :=
  let idx := u32_sub (u32_sub (refs_sz (forward_refs d)) 1) i in
  pics <- deref (pp_pics (history d)) ;;
  pic <- tab_get pics idx ;;
  pic <- deref pic ;;
  b <- deref blk ;;
  t <- tab_set b (refs_surfaces (forward_refs d) + i)
         (vlc_vaapi_PicGetSurface pic) ;;
  Ret (Next (Some t)).

(** One of the two guarded loops of [Deinterlace_UpdateReferenceFrames]. *)
Definition Deinterlace_fill_refs (sz : N)
    (step : N -> option (list VASurfaceID)
            -> res (flow (option (list VASurfaceID)) Empty_set))
    (blk : option (list VASurfaceID)) : res (option (list VASurfaceID)) :=
  if negb (sz =? 0) then
    loop <- for_range 0 (N.to_nat sz) step blk ;;
    match loop with
    | Leave e => match e with end
    | Next blk' => Ret blk'
    end
  else Ret blk.

Definition Deinterlace_UpdateReferenceFrames (p_deint_data : deint_data)
    : res deint_data :=
  let d := p_deint_data in
  blk <- Deinterlace_fill_refs (refs_sz (backward_refs d))
           (Deinterlace_backward_step d) (ref_block d) ;;
  blk <- Deinterlace_fill_refs (refs_sz (forward_refs d))
           (Deinterlace_forward_step d) blk ;;
  Ret (mk_deint_data (history d) blk (backward_refs d) (forward_refs d)).

(** The part of the block visible from a pointer at offset [off]. *)
Definition ptr_view {A : Type} (blk : option (list A)) (off : N) : list A :=
  match blk with
  | Some b => drop (N.to_nat off) b
  | None => []
  end.

Definition Deinterlace_UpdatePipelineParams (p_deint_data : deint_data)
    (pipeline_param : VAProcPipelineParameterBuffer)
    : res VAProcPipelineParameterBuffer :=
  let d := p_deint_data in
  pics <- deref (pp_pics (history d)) ;;
  cur <- tab_get pics (pp_cur_pic (history d)) ;;
  cur <- deref cur ;;
  Ret (mk_pipeline_params
         (pp_surface pipeline_param) (pp_filters pipeline_param)
         (pp_num_filters pipeline_param) (pp_pipeline_flags pipeline_param)
         (if b_top_field_first cur then 0 else VA_DEINTERLACING_BOTTOM_FIELD_FIRST)
         (ptr_view (ref_block d) (refs_surfaces (forward_refs d)))
         (refs_sz (forward_refs d))
         (ptr_view (ref_block d) (refs_surfaces (backward_refs d)))
         (refs_sz (backward_refs d))).

(** [dest->b_progressive = true]. *)
Definition set_b_progressive (p : picture_t) : picture_t :=
  mk_picture (pic_surface p) (date p) (b_force p) true (i_nb_fields p)
             (b_top_field_first p).

Definition Deinterlace {P : Type} (o : filter_oracle)
    (filter_sys : filter_sys_t deint_data) (va_buf_mem : P) (src : picture_t)
    : res (option picture_t * filter_sys_t deint_data * P * list event) :=
  u <- Deinterlace_UpdateHistory (p_data filter_sys) src ;;
  let '(cur, d, ev_history) := u in
  let filter_sys := set_p_data filter_sys d in
  if num_pics (history d) <? history_sz (history d) then
    Ret (None, filter_sys, va_buf_mem, ev_history)
  else
    r <- Filter o filter_sys va_buf_mem cur None
           (Some Deinterlace_UpdateReferenceFrames)
           (Some Deinterlace_UpdatePipelineParams) ;;
    let '(dest, filter_sys, va_buf_mem, ev) := r in
    Ret (option_map set_b_progressive dest, filter_sys, va_buf_mem,
         ev_history ++ ev).

(** The reference array the driver reads: [num] entries from the pointer. *)
Definition ref_array (ptr : list VASurfaceID) (num : N) : list VASurfaceID :=
  take (N.to_nat num) ptr.

(** Successive calls of the filter entry point on the submitted frames, each
    with the answers of the environment for that call; the result lists what
    every call returned and the calls it made. *)
Fixpoint Deinterlace_run {P : Type} (subs : list (filter_oracle * picture_t))
    (filter_sys : filter_sys_t deint_data) (va_buf_mem : P)
    : res (list (option picture_t * list event) * filter_sys_t deint_data * P) :=
  match subs with
  | [] => Ret ([], filter_sys, va_buf_mem)
  | (o, src) :: rest =>
      r <- Deinterlace o filter_sys va_buf_mem src ;;
      let '(dest, filter_sys, va_buf_mem, ev) := r in
      t <- Deinterlace_run rest filter_sys va_buf_mem ;;
      let '(outs, filter_sys, va_buf_mem) := t in
      Ret ((dest, ev) :: outs, filter_sys, va_buf_mem)
  end.

(** ** Vocabulary of the statements *)

(** The two sigma variables of the basic filters. *)
Definition is_basic_sigma_name (s : string) : Prop :=
  s = "denoise-sigma"%string \/ s = "sharpen-sigma"%string.

(** The callback is attached with a [p_data] of the kind its variable belongs
    to: the [void *] casts of [FilterCallback] are then the intended ones and
    the range pointer it reads is set. *)
Definition cb_well_typed (psz_var : string) (p_data : cb_data) : Prop :=
  match p_data with
  | AdjustData d =>
      length (sigma d) = N.to_nat NUM_ADJUST_MODES /\ ~ is_basic_sigma_name psz_var
  | BasicData b =>
      ~ In psz_var adjust_params_names
      /\ (is_basic_sigma_name psz_var -> is_Some (p_vlc_range (basic_sigma_of b)))
  end.

(** The channels flagged available, each with its color-balance type, in the
    order of the tables: contrast, brightness, hue, saturation. *)
Definition available_channels (d : adjust_data)
    : list (VAProcColorBalanceType * adjust_sigma) :=
  List.filter (fun p => is_available (snd p)) (combine va_adjust_modes (sigma d)).

(** The states an Adjust session goes through: [p_data] together with the
    content of the driver parameter buffer.  A session starts with a
    successful [OpenAdjust_InitFilterParams] on the zeroed [p_data]; then
    variable callbacks and per-frame parameter updates follow in any order. *)
Inductive adjust_reachable
    : adjust_data -> list VAProcFilterParameterBufferColorBalance -> Prop :=
| adjust_reach_open env d p_va_params num ev :
    OpenAdjust_InitFilterParams env adjust_data_calloc
      = Ret (VLC_SUCCESS, d, Some p_va_params, num, ev) ->
    adjust_reachable d p_va_params
| adjust_reach_control d m psz_var newval d' :
    adjust_reachable d m ->
    FilterCallback psz_var newval (AdjustData d) = Ret (VLC_SUCCESS, AdjustData d') ->
    adjust_reachable d' m
| adjust_reach_frame d m m' n :
    adjust_reachable d m ->
    Adjust_UpdateVAFilterParams d m = Ret (m', n) ->
    adjust_reachable d m'.

(** What holds of every such state. *)
Definition adjust_inv (d : adjust_data)
    (m : list VAProcFilterParameterBufferColorBalance) : Prop :=
  length (sigma d) = N.to_nat NUM_ADJUST_MODES
  /\ num_available_modes d = N.of_nat (length (available_channels d))
  /\ map cb_type m = replicate (length (available_channels d)) VAProcFilterColorBalance
  /\ map cb_attrib m = map fst (available_channels d).

(** Invariant of the outer loop of [OpenAdjust_InitFilterParams] before
    iteration [k]: the count matches the flags, and the channels not visited
    yet are still unflagged. *)
Definition scan_inv (k : N) (d : adjust_data) : Prop :=
  length (sigma d) = 4%nat
  /\ num_available_modes d = N.of_nat (length (available_channels d))
  /\ map is_available (drop (N.to_nat k) (sigma d))
     = replicate (4 - N.to_nat k) false.

(** ** Example capability reports *)

Definition example_range_0_100 : VAProcFilterValueRange := mk_va_range 0 100 50 1.
Definition example_range_hue : VAProcFilterValueRange := mk_va_range (-180) 180 0 1.

(** The driver reports two entries: contrast and hue. *)
Definition example_env_contrast_hue : adjust_open_env :=
  mk_adjust_open_env (fun _ => 1%Q) 0
    [ mk_cap VAProcColorBalanceContrast example_range_0_100;
      mk_cap VAProcColorBalanceHue example_range_hue ]
    true.

(** The driver reports three entries: contrast, hue and automatic contrast. *)
Definition example_env_three_caps : adjust_open_env :=
  mk_adjust_open_env (fun _ => 1%Q) 0
    [ mk_cap VAProcColorBalanceContrast example_range_0_100;
      mk_cap VAProcColorBalanceHue example_range_hue;
      mk_cap VAProcColorBalanceAutoContrast example_range_0_100 ]
    true.

(** The driver reports five entries, within the [VAProcColorBalanceCount]
    entries of the array it is given. *)
Definition example_env_five_caps : adjust_open_env :=
  mk_adjust_open_env (fun _ => 1%Q) 0
    [ mk_cap VAProcColorBalanceHue example_range_hue;
      mk_cap VAProcColorBalanceSaturation example_range_0_100;
      mk_cap VAProcColorBalanceBrightness example_range_0_100;
      mk_cap VAProcColorBalanceContrast example_range_0_100;
      mk_cap VAProcColorBalanceAutoContrast example_range_0_100 ]
    true.

(** ** Answers of the driver *)

(** Every driver step of one [Filter] call succeeds. *)
Definition filter_oracle_ok (o : filter_oracle) : Prop :=
  o_MapBuffer_params o = 0%Z
  /\ o_UnmapBuffer_params o = 0%Z
  /\ o_BeginPicture o = 0%Z
  /\ o_CreateBuffer_pipeline o <> VA_INVALID_ID
  /\ o_MapBuffer_pipeline o = 0%Z
  /\ o_UnmapBuffer_pipeline o = 0%Z
  /\ o_RenderPicture o = 0%Z
  /\ o_EndPicture o = 0%Z.

(** ** Example frames, sessions and driver answers *)

Definition example_frame (surface : VASurfaceID) (top_field_first : bool)
    : picture_t :=
  mk_picture surface (Z.of_N surface) false false 2 top_field_first.

Definition example_va : va_filter_desc :=
  mk_va_filter_desc (Some 1%N) 2 3 4 5 (Some [10; 11; 12]%N).

(** A [Filter] call in which every step succeeds; the pool hands out the
    picture on surface 10 and the pipeline buffer gets the identifier 77. *)
Definition example_oracle_ok : filter_oracle :=
  mk_filter_oracle (Some (example_frame 10 true)) 0 0 0 77 0 0 0 0 12345.

(** A [Filter] call that finds no free picture in the pool. *)
Definition example_oracle_pool_empty : filter_oracle :=
  mk_filter_oracle None 0 0 0 77 0 0 0 0 12345.

(** A [Filter] call in which the pipeline buffer is created and
    [vlc_vaapi_RenderPicture] then fails. *)
Definition example_oracle_render_fails : filter_oracle :=
  mk_filter_oracle (Some (example_frame 10 true)) 0 0 0 77 0 0 (-1) 0 12345.

(** An [Open] in which the instance and the output pool are obtained and
    [vlc_vaapi_CreateConfigChecked] then fails. *)
Definition example_open_config_fails : open_oracle :=
  mk_open_oracle true (Some (1%N, 2%N)) (Some (6%N, [10; 11; 12]%N))
    VA_INVALID_ID 4 0 5 0 (mk_pipeline_caps 0 1 1).

Definition example_format : video_format_t :=
  mk_video_format VLC_CODEC_VAAPI_420 1920 1080.

(** ** Deinterlace sessions *)

(** The states a Deinterlace session goes through, with the frames submitted
    so far: it starts in the state [OpenDeinterlace_InitHistory] left, and
    every call of the filter entry point that returns moves it on. *)
Inductive deint_reachable (d0 : deint_data)
    : list picture_t -> deint_data -> Prop :=
| deint_reach_init : deint_reachable d0 [] d0
| deint_reach_step (P : Type) frames d o (sys : filter_sys_t deint_data)
    (mem : P) src out sys' mem' ev :
    deint_reachable d0 frames d ->
    p_data sys = d ->
    Deinterlace o sys mem src = Ret (out, sys', mem', ev) ->
    deint_reachable d0 (frames ++ [src]) (p_data sys').

(** The history window after the frames [frames] were submitted, for a
    capacity of [sz]: the last [sz] of them, oldest first, then empty slots. *)
Definition window_of (sz : nat) (frames : list picture_t)
    : list (option picture_t) :=
  map Some (drop (length frames - sz) frames)
  ++ replicate (sz - length frames) None.

(** What holds of every state of a session opened with [b] backward and [f]
    forward references. *)
Definition deint_inv (b f : N) (frames : list picture_t) (d : deint_data) : Prop :=
  let sz := N.to_nat (b + 1 + f) in
  history d
  = mk_history (Some (window_of sz frames)) f
               (N.of_nat (min (length frames) sz)) (b + 1 + f)
  /\ forward_refs d = mk_refs 0 f
  /\ backward_refs d = mk_refs f b
  /\ match ref_block d with
     | Some blk => length blk = N.to_nat (b + f)
     | None => (b + f = 0)%N
     end.

(** The surface of the frame in slot [i] of a window of frames. *)
Definition slot_surface (w : list picture_t) (i : nat) : VASurfaceID :=
  from_option vlc_vaapi_PicGetSurface 0%N (w !! i).

(** A Deinterlace session with one backward and one forward reference. *)
Definition example_deint_env : deint_open_env :=
  mk_deint_open_env true (Some (fun _ => 0%N)).

Definition example_caps_1_1 : VAProcPipelineCaps := mk_pipeline_caps 0 1 1.

Definition example_deint_d0 : deint_data :=
  mk_deint_data (mk_history (Some [None; None; None]) 1 0 3)
                (Some [0; 0]%N) (mk_refs 1 1) (mk_refs 0 1).

Definition example_deint_sys : filter_sys_t deint_data :=
  mk_filter_sys example_va (Some 6%N) false example_deint_d0.

(** ** Closing a session: [Close] *)

(** [picture_pool_Release] and [vlc_vaapi_ReleaseInstance] read through the
    pointer they are given. *)
Definition Close {D : Type} (filter_sys : filter_sys_t D) : res (list event) :=
  let v := va filter_sys in
  pool <- deref (dest_pics filter_sys) ;;
  i <- deref (inst v) ;;
  Ret [ E_picture_pool_Release pool;
        E_vlc_vaapi_DestroyBuffer (buf v);
        E_vlc_vaapi_DestroyContext (ctx v);
        E_vlc_vaapi_DestroyConfig (conf v);
        E_vlc_vaapi_ReleaseInstance i;
        E_free Blk_filter_sys ].

(** ** The submodule entry points *)

(** Calls made by the entry points of the submodules: those of the shared
    code, and the calls on [p_data], on the variable name and on the
    variables of the filter object. *)
Inductive module_event : Type :=
| Ev (e : event)
| E_calloc_p_data (ok : bool)
| E_free_p_data
| E_calloc_psz_name (ok : bool)
| E_free_psz_name
| E_var_Create (name : string)
| E_var_Destroy (name : option string)
| E_var_AddCallback (name : string)
| E_var_DelCallback (name : string).

(** [for (i = 0; i < NUM_ADJUST_MODES; ++i) call(adjust_params_names[i])]. *)
Definition for_adjust_names (call : string -> list module_event)
    : res (list module_event) :=
  loop <- for_range (R := Empty_set) 0 (N.to_nat NUM_ADJUST_MODES)
            (fun i ev =>
               name <- tab_get adjust_params_names i ;;
               Ret (Next (ev ++ call name)))
            [] ;;
  match loop with
  | Leave e => match e with end
  | Next ev => Ret ev
  end.

(** The result is the return code, [filter->p_sys] as [Open] left it (the
    entry point never writes the field: after a failure of [Open] past its
    assignment it still points to the block [Open] freed), the content the
    parameter buffer was created with, and the calls made. *)
Definition OpenAdjust (calloc_p_data_ok : bool) (o : open_oracle)
    (env : adjust_open_env) (fmt_in fmt_out : video_format_t)
    : res (Z * option (filter_sys_t adjust_data)
           * option (list VAProcFilterParameterBufferColorBalance)
           * list module_event) :=
  let ev := [E_calloc_p_data calloc_p_data_ok] in
  if negb calloc_p_data_ok then Ret (VLC_ENOMEM, None, None, ev)
  else
  let p_data := adjust_data_calloc in
  created <- for_adjust_names (fun name => [E_var_Create name]) ;;
  let ev := ev ++ created in
  r <- Open o fmt_in fmt_out VAProcFilterColorBalance p_data
         (OpenAdjust_InitFilterParams env) None ;;
  let '(ret, p_sys, p_data, va_buf_mem, ev_open) := r in
  let ev := ev ++ map Ev ev_open in
  if negb (ret =? 0)%Z then
    destroyed <- for_adjust_names (fun name => [E_var_Destroy (Some name)]) ;;
    Ret (VLC_EGENERIC, p_sys, None, ev ++ destroyed ++ [E_free_p_data])
  else
    added <- for_adjust_names (fun name => [E_var_AddCallback name]) ;;
    Ret (VLC_SUCCESS, p_sys, va_buf_mem, ev ++ added).

Definition CloseAdjust (filter_sys : filter_sys_t adjust_data)
    : res (list module_event) :=
  removed <- for_adjust_names
               (fun name => [E_var_DelCallback name; E_var_Destroy (Some name)]) ;;
  ev_close <- Close filter_sys ;;
  Ret (removed ++ [E_free_p_data] ++ map Ev ev_close).

(** ** Basic filters: denoise and sharpen *)

(** libva's [VAProcFilterParameterBuffer]. *)
Record VAProcFilterParameterBuffer : Type := mk_filter_param {
  fp_type : VAProcFilterType;
  fp_value : Q
}.

Definition BasicFilter_UpdateVAFilterParams (p_basic_filter_data : basic_filter_data)
    (p_va_param : VAProcFilterParameterBuffer) : res VAProcFilterParameterBuffer :=
  Ret (mk_filter_param (fp_type p_va_param)
         (basic_drv_value (basic_sigma_of p_basic_filter_data))).

Definition BasicFilter (o : filter_oracle)
    (filter_sys : filter_sys_t basic_filter_data)
    (va_buf_mem : VAProcFilterParameterBuffer) (src : picture_t)
    : res (option picture_t * filter_sys_t basic_filter_data
           * VAProcFilterParameterBuffer * list event) :=
  r <- Filter o filter_sys va_buf_mem (Some src)
         (Some BasicFilter_UpdateVAFilterParams) None None ;;
  let '(dest, filter_sys, va_buf_mem, ev) := r in
  Ret (dest, filter_sys, va_buf_mem, ev ++ [E_picture_Release src]).

(** What the environment answers during [OpenBasicFilter_InitFilterParams]:
    the inherited variable, the capability query (its return code, the
    [num_caps] it stored and the range it wrote into [caps]) and the
    allocator. *)
Record basic_open_env : Type := mk_basic_open_env {
  basic_var_InheritFloat : string -> Q;
  basic_query_ret : Z;
  basic_query_num_caps : N;
  basic_query_range : VAProcFilterValueRange;
  basic_calloc_va_param_ok : bool
}.

Definition OpenBasicFilter_InitFilterParams (env : basic_open_env)
    (p_basic_filter_data : basic_filter_data)
    : res (init_result basic_filter_data VAProcFilterParameterBuffer) :=
  let d := p_basic_filter_data in
  let ev := [E_vlc_vaapi_QueryVideoProcFilterCaps (basic_query_ret env)] in
  if negb (basic_query_ret env =? 0)%Z || (basic_query_num_caps env =? 0) then
    Ret (VLC_EGENERIC, d, None, 0, ev)
  else
    let s := basic_sigma_of d in
    p_vlc_range <- deref (p_vlc_range s) ;;
    let vlc_sigma :=
      VLC_CLIP (basic_var_InheritFloat env (psz_name s))
               (min_value p_vlc_range) (max_value p_vlc_range) in
    let drv_range := basic_query_range env in
    let drv_sigma := GET_DRV_SIGMA vlc_sigma p_vlc_range drv_range in
    let d :=
      mk_basic_filter_data
        (mk_basic_sigma drv_sigma drv_range (Some p_vlc_range) (psz_name s))
        (filter_type d) in
    let ev := ev ++ [E_calloc Blk_va_params (basic_calloc_va_param_ok env)] in
    if negb (basic_calloc_va_param_ok env) then Ret (VLC_ENOMEM, d, None, 1, ev)
    else Ret (VLC_SUCCESS, d, Some (mk_filter_param (filter_type d) 0), 1, ev).

(** [filter->psz_name] is the shortcut the module was loaded under.  The
    result is as for [OpenAdjust]. *)
Definition OpenBasicFilter (calloc_p_data_ok calloc_psz_name_ok : bool)
    (o : open_oracle) (env : basic_open_env)
    (filter_psz_name : string) (fmt_in fmt_out : video_format_t)
    : res (Z * option (filter_sys_t basic_filter_data)
           * option VAProcFilterParameterBuffer * list module_event) :=
  let ev := [E_calloc_p_data calloc_p_data_ok] in
  if negb calloc_p_data_ok then Ret (VLC_ENOMEM, None, None, ev)
  else
  let ev := ev ++ [E_calloc_psz_name calloc_psz_name_ok] in
  if negb calloc_psz_name_ok then
    Ret (VLC_EGENERIC, None, None, ev ++ [E_var_Destroy None; E_free_p_data])
  else
  let psz_name := String.append filter_psz_name "-sigma" in
  let '(filter_type, p_vlc_range) :=
    if String.eqb filter_psz_name "denoise" then
      (VAProcFilterNoiseReduction, Some vlc_denoise_sigma_range)
    else if String.eqb filter_psz_name "sharpen" then
      (VAProcFilterSharpening, Some vlc_sharpen_sigma_range)
    else (VAProcFilterNone, None) in
  let p_data :=
    mk_basic_filter_data (mk_basic_sigma 0 va_range_zero p_vlc_range psz_name)
                         filter_type in
  let ev := ev ++ [E_var_Create psz_name] in
  r <- Open o fmt_in fmt_out filter_type p_data
         (OpenBasicFilter_InitFilterParams env) None ;;
  let '(ret, p_sys, p_data, va_buf_mem, ev_open) := r in
  let ev := ev ++ map Ev ev_open in
  if negb (ret =? 0)%Z then
    Ret (VLC_EGENERIC, p_sys, None,
         ev ++ [E_var_Destroy (Some psz_name); E_free_psz_name; E_free_p_data])
  else
    Ret (VLC_SUCCESS, p_sys, va_buf_mem, ev ++ [E_var_AddCallback psz_name]).

Definition CloseBasicFilter (filter_sys : filter_sys_t basic_filter_data)
    : res (list module_event) :=
  let name := psz_name (basic_sigma_of (p_data filter_sys)) in
  ev_close <- Close filter_sys ;;
  Ret ([E_var_DelCallback name; E_var_Destroy (Some name);
        E_free_psz_name; E_free_p_data] ++ map Ev ev_close).

(** ** Deinterlace: choosing the algorithm *)

(** libva's [VAProcDeinterlacingType]; [VAProcDeinterlacingCount] closes the
    enumeration. *)
Inductive VAProcDeinterlacingType : Type :=
| VAProcDeinterlacingNone
| VAProcDeinterlacingBob
| VAProcDeinterlacingWeave
| VAProcDeinterlacingMotionAdaptive
| VAProcDeinterlacingMotionCompensated.

Definition VAProcDeinterlacingCount : N := 5.

#[global] Instance VAProcDeinterlacingType_eq_dec : EqDecision VAProcDeinterlacingType.
Proof. solve_decision. Defined.

(** [struct deint_mode]. *)
Record deint_mode : Type := mk_deint_mode {
  deint_name : string;
  deint_type : VAProcDeinterlacingType
}.

Definition deint_modes : list deint_mode :=
  [ mk_deint_mode "x" VAProcDeinterlacingMotionAdaptive;
    mk_deint_mode "x" VAProcDeinterlacingMotionCompensated;
    mk_deint_mode "bob" VAProcDeinterlacingBob;
    mk_deint_mode "mean" VAProcDeinterlacingWeave ]%string.

(** The diagnostics of [OpenDeinterlace_GetMode]. *)
Inductive deint_msg : Type :=
| Msg_Dbg_using (name : string)
| Msg_Info_fallback (requested : option string) (name : string)
| Msg_Err_no_algorithm.

Definition OpenDeinterlace_IsValidType (caps : list VAProcDeinterlacingType)
    (num_caps : N) (deint_mode : deint_mode) : res bool :=
  loop <- for_range 0 (N.to_nat num_caps)
            (fun j (_ : unit) =>
               c <- tab_get caps j ;;
               if bool_decide (c = deint_type deint_mode)
               then Ret (Leave true) else Ret (Next tt))
            tt ;;
  match loop with
  | Leave b => Ret b
  | Next _ => Ret false
  end.

(** Body of the first loop of [OpenDeinterlace_GetMode], over the entries
    with the requested name. *)
Definition OpenDeinterlace_GetMode_named_step (deint_mode : string)
    (caps : list VAProcDeinterlacingType) (num_caps : N) (i : N) (_ : unit)
    : res (flow unit (Z * option VAProcDeinterlacingType * list deint_msg)) :=
  m <- tab_get deint_modes i ;;
  if String.eqb deint_mode (deint_name m) then
    valid <- OpenDeinterlace_IsValidType caps num_caps m ;;
    if valid then
      Ret (Leave (VLC_SUCCESS, Some (deint_type m), [Msg_Dbg_using (deint_name m)]))
    else Ret (Next tt)
  else Ret (Next tt).

(** Body of the second loop, over all entries in table order. *)
Definition OpenDeinterlace_GetMode_any_step (deint_mode : option string)
    (fallback : bool) (caps : list VAProcDeinterlacingType) (num_caps : N)
    (i : N) (_ : unit)
    : res (flow unit (Z * option VAProcDeinterlacingType * list deint_msg)) :=
  m <- tab_get deint_modes i ;;
  valid <- OpenDeinterlace_IsValidType caps num_caps m ;;
  if valid then
    Ret (Leave (VLC_SUCCESS, Some (deint_type m),
                [if fallback then Msg_Info_fallback deint_mode (deint_name m)
                 else Msg_Dbg_using (deint_name m)]))
  else Ret (Next tt).

(** The result is the return code, the type stored in [*p_deint_mode] and
    the diagnostics printed. *)
Definition OpenDeinterlace_GetMode (deint_mode : option string)
    (caps : list VAProcDeinterlacingType) (num_caps : N)
    : res (Z * option VAProcDeinterlacingType * list deint_msg) :=
  named <-
    match deint_mode with
    | Some name =>
        if negb (String.eqb name "auto") then
          loop <- for_range 0 (length deint_modes)
                    (OpenDeinterlace_GetMode_named_step name caps num_caps) tt ;;
          match loop with
          | Leave r => Ret (Leave r)
          | Next _ => Ret (Next true)
          end
        else Ret (Next false)
    | None => Ret (Next false)
    end ;;
  match named with
  | Leave r => Ret r
  | Next fallback =>
      loop <- for_range 0 (length deint_modes)
                (OpenDeinterlace_GetMode_any_step deint_mode fallback caps
                   num_caps) tt ;;
      match loop with
      | Leave r => Ret r
      | Next _ => Ret (VLC_EGENERIC, None, [Msg_Err_no_algorithm])
      end
  end.

(** libva's [VAProcFilterParameterBufferDeinterlacing], without its flags. *)
Record VAProcFilterParameterBufferDeinterlacing : Type := mk_deint_param {
  dp_type : VAProcFilterType;
  dp_algorithm : option VAProcDeinterlacingType
}.

(** What the environment answers during [OpenDeinterlace_InitFilterParams]:
    the capability query (its status, the content of the array [caps] of
    [VAProcDeinterlacingCount] entries after the call and the value left in
    [num_caps]), the inherited [deinterlace-mode] ([None] when
    [var_InheritString] returns [NULL]) and the allocator. *)
Record deint_params_env : Type := mk_deint_params_env {
  deint_query_ret : Z;
  deint_query_caps : list VAProcDeinterlacingType;
  deint_query_num_caps : N;
  deint_var_InheritString : option string;
  deint_calloc_va_param_ok : bool
}.

(** The diagnostics are returned beside the result of the callback. *)
Definition OpenDeinterlace_InitFilterParams (env : deint_params_env)
    (p_data : deint_data)
    : res (init_result deint_data VAProcFilterParameterBufferDeinterlacing
           * list deint_msg) :=
  let ev := [E_vlc_vaapi_QueryVideoProcFilterCaps (deint_query_ret env)] in
  if negb (deint_query_ret env =? 0)%Z then
    Ret ((VLC_EGENERIC, p_data, None, 0, ev), [])
  else
    r <- OpenDeinterlace_GetMode (deint_var_InheritString env)
           (deint_query_caps env) (deint_query_num_caps env) ;;
    let '(ret, va_mode, msgs) := r in
    if negb (ret =? 0)%Z then Ret ((VLC_EGENERIC, p_data, None, 0, ev), msgs)
    else
      let ev := ev ++ [E_calloc Blk_va_params (deint_calloc_va_param_ok env)] in
      if negb (deint_calloc_va_param_ok env) then
        Ret ((VLC_ENOMEM, p_data, None, 1, ev), msgs)
      else
        Ret ((VLC_SUCCESS, p_data,
              Some (mk_deint_param VAProcFilterDeinterlacing va_mode), 1, ev),
             msgs).

(** The [error:] label of [OpenDeinterlace]: the blocks
    [OpenDeinterlace_InitHistory] allocated, then [p_data]. *)
Definition OpenDeinterlace_error (p_data : deint_data) : list module_event :=
  (if bool_decide (is_Some (ref_block p_data))
   then [Ev (E_free Blk_ref_surfaces)] else [])
  ++ (if bool_decide (is_Some (pp_pics (history p_data)))
      then [Ev (E_free Blk_history_pics)] else [])
  ++ [E_free_p_data].

Definition OpenDeinterlace (calloc_p_data_ok : bool) (o : open_oracle)
    (env : deint_params_env) (env_history : deint_open_env)
    (fmt_in fmt_out : video_format_t)
    : res (Z * option (filter_sys_t deint_data)
           * option VAProcFilterParameterBufferDeinterlacing
           * list module_event) :=
  let ev := [E_calloc_p_data calloc_p_data_ok] in
  if negb calloc_p_data_ok then Ret (VLC_ENOMEM, None, None, ev)
  else
  r <- Open o fmt_in fmt_out VAProcFilterDeinterlacing deint_data_calloc
         (fun d => x <- OpenDeinterlace_InitFilterParams env d ;; Ret (fst x))
         (Some (OpenDeinterlace_InitHistory env_history)) ;;
  let '(ret, p_sys, p_data, va_buf_mem, ev_open) := r in
  let ev := ev ++ map Ev ev_open in
  if negb (ret =? 0)%Z then
    Ret (VLC_EGENERIC, p_sys, None, ev ++ OpenDeinterlace_error p_data)
  else Ret (VLC_SUCCESS, p_sys, va_buf_mem, ev).

(** The loop [while (num_pics) picture_Release(pp_pics[--num_pics])]; [fuel]
    bounds the number of iterations. *)
Fixpoint CloseDeinterlace_release (fuel : nat) (pics : list (option picture_t))
    (num_pics : N) : res (list event) :=
  match fuel with
  | O => Ret []
  | Datatypes.S fuel' =>
      if num_pics =? 0 then Ret []
      else
        let n := u32_sub num_pics 1 in
        pic <- tab_get pics n ;;
        pic <- deref pic ;;
        rest <- CloseDeinterlace_release fuel' pics n ;;
        Ret (E_picture_Release pic :: rest)
  end.

Definition CloseDeinterlace (filter_sys : filter_sys_t deint_data)
    : res (list module_event) :=
  let d := p_data filter_sys in
  let ev := if bool_decide (is_Some (ref_block d))
            then [Ev (E_free Blk_ref_surfaces)] else [] in
  released <-
    match pp_pics (history d) with
    | Some pics =>
        r <- CloseDeinterlace_release (N.to_nat (num_pics (history d))) pics
               (num_pics (history d)) ;;
        Ret (map Ev r ++ [Ev (E_free Blk_history_pics)])
    | None => Ret []
    end ;;
  ev_close <- Close filter_sys ;;
  Ret (ev ++ released ++ [E_free_p_data] ++ map Ev ev_close).

(** ** Vocabulary of the further statements *)

(** The deinterlacing types the driver reported: the first [num_caps] entries
    of the array [caps]. *)
Definition reported (caps : list VAProcDeinterlacingType) (num_caps : N)
    : list VAProcDeinterlacingType :=
  take (N.to_nat num_caps) caps.

(** Whether the driver reported the type of the table entry [m]. *)
Definition is_reported (caps : list VAProcDeinterlacingType) (num_caps : N)
    (m : deint_mode) : bool :=
  bool_decide (deint_type m ∈ reported caps num_caps).

(** [m] at index [i] is the first entry of [deint_modes] that satisfies [P]
    and whose type the driver reported. *)
Definition first_reported (caps : list VAProcDeinterlacingType) (num_caps : N)
    (P : deint_mode -> Prop) (i : nat) (m : deint_mode) : Prop :=
  deint_modes !! i = Some m
  /\ P m
  /\ deint_type m ∈ reported caps num_caps
  /\ forall j m', (j < i)%nat -> deint_modes !! j = Some m' -> P m' ->
       deint_type m' ∉ reported caps num_caps.

(** A [deinterlace-mode] that names an algorithm: set, and not ["auto"]. *)
Definition names_algorithm (deint_mode : option string) : bool :=
  match deint_mode with
  | Some name => negb (String.eqb name "auto")
  | None => false
  end.

(** A driver that reports bob, weave and motion-compensated deinterlacing,
    in an array of [VAProcDeinterlacingCount] entries. *)
Definition example_deint_caps : list VAProcDeinterlacingType :=
  [ VAProcDeinterlacingBob; VAProcDeinterlacingWeave;
    VAProcDeinterlacingMotionCompensated;
    VAProcDeinterlacingNone; VAProcDeinterlacingNone ].

(** ** Resources of a session *)

(** What [Open] acquires and [Open]'s error path or [Close] gives back. *)
Inductive resource : Type :=
| R_filter_sys
| R_instance (inst : vlc_vaapi_instance)
| R_pool (pool : picture_pool_t)
| R_config (conf : VAConfigID)
| R_context (ctx : VAContextID)
| R_buffer (buf : VABufferID).

(** The resource a call hands out, when it succeeds. *)
Definition acquires (e : event) : option resource :=
  match e with
  | E_calloc Blk_filter_sys true => Some R_filter_sys
  | E_vlc_vaapi_FilterHoldInstance (Some i) => Some (R_instance i)
  | E_vlc_vaapi_PoolNew (Some p) => Some (R_pool p)
  | E_vlc_vaapi_CreateConfigChecked c =>
      if c =? VA_INVALID_ID then None else Some (R_config c)
  | E_vlc_vaapi_CreateContext _ c =>
      if c =? VA_INVALID_ID then None else Some (R_context c)
  | E_vlc_vaapi_CreateBuffer _ b =>
      if b =? VA_INVALID_ID then None else Some (R_buffer b)
  | _ => None
  end.

(** The resource a call gives back. *)
Definition releases (e : event) : option resource :=
  match e with
  | E_free Blk_filter_sys => Some R_filter_sys
  | E_vlc_vaapi_ReleaseInstance i => Some (R_instance i)
  | E_picture_pool_Release p => Some (R_pool p)
  | E_vlc_vaapi_DestroyConfig c => Some (R_config c)
  | E_vlc_vaapi_DestroyContext c => Some (R_context c)
  | E_vlc_vaapi_DestroyBuffer b => Some (R_buffer b)
  | _ => None
  end.

Definition acquired (ev : list event) : list resource := omap acquires ev.
Definition released (ev : list event) : list resource := omap releases ev.

Definition is_pool (r : resource) : bool :=
  match r with R_pool _ => true | _ => false end.

(** The calls of a callback of [Open] touch no resource of the session. *)
Definition session_neutral (ev : list event) : Prop :=
  acquired ev = [] /\ released ev = [].

(** [pf_init_filter_params] and [pf_use_pipeline_caps] touch no resource of
    the session, whatever [p_data] they are given. *)
Definition callbacks_neutral {D P : Type}
    (pf_init_filter_params : D -> res (init_result D P))
    (pf_use_pipeline_caps :
       option (D -> VAProcPipelineCaps -> res (Z * D * list event))) : Prop :=
  (forall d ret d' p n ev,
     pf_init_filter_params d = Ret (ret, d', p, n, ev) -> session_neutral ev)
  /\ (forall use_caps d caps ret d' ev,
        pf_use_pipeline_caps = Some use_caps ->
        use_caps d caps = Ret (ret, d', ev) -> session_neutral ev).

(** An [Open] in which every call succeeds. *)
Definition example_open_ok : open_oracle :=
  mk_open_oracle true (Some (1%N, 2%N)) (Some (6%N, [10; 11; 12]%N))
    3 4 0 5 0 (mk_pipeline_caps 0 1 1).

(** ** The capability scan of the adjust filter, channel by channel *)

(** The first entry of the report with the type [mode]. *)
Definition first_cap (caps : list VAProcFilterCapColorBalance)
    (mode : VAProcColorBalanceType) : option VAProcFilterCapColorBalance :=
  List.find (fun c => bool_decide (cap_type c = mode)) caps.

(** What the scan leaves in [sigma[i]] when it starts from the zeroed
    [p_data]: the outer loop visits the channel only if [i] is below the
    number of reported entries. *)
Definition scanned_sigma (inherit : string -> Q)
    (caps : list VAProcFilterCapColorBalance) (i : nat) : adjust_sigma :=
  match va_adjust_modes !! i, adjust_params_names !! i,
        vlc_adjust_sigma_ranges !! i with
  | Some mode, Some name, Some r =>
      match (if (i <? length caps)%nat then first_cap caps mode else None) with
      | Some c =>
          mk_adjust_sigma
            (GET_DRV_SIGMA
               (adapt_adjust_sigma name
                  (VLC_CLIP (inherit name) (min_value r) (max_value r)) r)
               r (cap_range c))
            (cap_range c) true
      | None => mk_adjust_sigma 0 va_range_zero false
      end
  | _, _, _ => mk_adjust_sigma 0 va_range_zero false
  end.

(** ** Heap blocks, variables and callbacks of a submodule *)

(** The heap block a successful allocation hands out. *)
Definition allocates (e : event) : option block :=
  match e with
  | E_calloc b true => Some b
  | E_malloc b true => Some b
  | _ => None
  end.

(** The heap block a call frees. *)
Definition frees (e : event) : option block :=
  match e with
  | E_free b => Some b
  | _ => None
  end.

(** What an entry point of a submodule sets up besides the session of
    [Open]: heap blocks, variables of the filter object and callbacks on
    them. *)
Inductive module_resource : Type :=
| MR_block (b : block)
| MR_p_data
| MR_psz_name
| MR_var (name : string)
| MR_callback (name : string).

Definition m_acquires (e : module_event) : option module_resource :=
  match e with
  | Ev e => option_map MR_block (allocates e)
  | E_calloc_p_data true => Some MR_p_data
  | E_calloc_psz_name true => Some MR_psz_name
  | E_var_Create name => Some (MR_var name)
  | E_var_AddCallback name => Some (MR_callback name)
  | _ => None
  end.

Definition m_releases (e : module_event) : option module_resource :=
  match e with
  | Ev e => option_map MR_block (frees e)
  | E_free_p_data => Some MR_p_data
  | E_free_psz_name => Some MR_psz_name
  | E_var_Destroy (Some name) => Some (MR_var name)
  | E_var_DelCallback name => Some (MR_callback name)
  | _ => None
  end.

Definition m_acquired (ev : list module_event) : list module_resource :=
  omap m_acquires ev.
Definition m_released (ev : list module_event) : list module_resource :=
  omap m_releases ev.

(** [pf_init_filter_params] frees nothing and allocates the parameter block
    exactly when it succeeds. *)
Definition init_allocates_params {D P : Type}
    (pf_init_filter_params : D -> res (init_result D P)) : Prop :=
  forall d ret d' p n ev,
    pf_init_filter_params d = Ret (ret, d', p, n, ev) ->
    omap frees ev = []
    /\ omap allocates ev = if (ret =? 0)%Z then [Blk_va_params] else [].

(** A driver that reports one capability with the range [0, 64] for a basic
    filter. *)
Definition example_basic_env : basic_open_env :=
  mk_basic_open_env (fun _ => 1%Q) 0 1 (mk_va_range 0 64 32 1) true.

(** A driver that reports the example deinterlacing types; no
    [deinterlace-mode] is set. *)
Definition example_deint_params_env : deint_params_env :=
  mk_deint_params_env 0 example_deint_caps 3 None true.

(** The variables a trace attaches [FilterCallback] to, in order. *)
Definition callbacks_added (ev : list module_event) : list string :=
  omap (fun e => match e with
                 | E_var_AddCallback name => Some name
                 | _ => None
                 end) ev.

(** A [Filter] call in which mapping the filter parameter buffer fails; the
    variable [pipeline_buf], not yet initialised, holds 12345. *)
Definition example_oracle_map_fails : filter_oracle :=
  mk_filter_oracle (Some (example_frame 10 true)) (-1) 0 0 77 0 0 0 0 12345.

(* ================================================================== *)
(** * Part II: properties                                              *)
(* ================================================================== *)

Local Open Scope Q_scope.
Local Open Scope string_scope.

(** ** Loops *)

Lemma for_range_partial {S R : Type} (I : N -> S -> Prop)
    (body : N -> S -> res (flow S R)) (n : nat) :
  forall (from : N) (s r : S),
    I from s ->
    (forall k s s', I k s -> body k s = Ret (Next s') -> I (N.succ k) s') ->
    for_range from n body s = Ret (Next r) ->
    I (from + N.of_nat n)%N r.
Proof.
  induction n as [| n IH]; intros from s r H0 Hstep Hrun; cbn [for_range] in Hrun.
  - injection Hrun as <-. replace (from + N.of_nat 0)%N with from by lia. exact H0.
  - destruct (body from s) as [[s' | l] | f] eqn:E; try discriminate Hrun.
    replace (from + N.of_nat (Datatypes.S n))%N with (N.succ from + N.of_nat n)%N by lia.
    eapply IH; [eapply Hstep; eassumption | exact Hstep | exact Hrun].
Qed.

Lemma for_range_total {S R : Type} (I : N -> S -> Prop)
    (body : N -> S -> res (flow S R)) (n : nat) :
  forall (from : N) (s : S),
    I from s ->
    (forall k s, (from <= k < from + N.of_nat n)%N -> I k s ->
                 exists s', body k s = Ret (Next s') /\ I (N.succ k) s') ->
    exists r, for_range from n body s = Ret (Next r) /\ I (from + N.of_nat n)%N r.
Proof.
  induction n as [| n IH]; intros from s H0 Hstep; cbn [for_range].
  - exists s. split; [reflexivity |].
    replace (from + N.of_nat 0)%N with from by lia. exact H0.
  - destruct (Hstep from s) as (s' & E & H1); [lia | exact H0 |].
    rewrite E.
    replace (from + N.of_nat (Datatypes.S n))%N with (N.succ from + N.of_nat n)%N by lia.
    apply IH; [exact H1 |].
    intros k t Hk. apply Hstep. lia.
Qed.

(** ** The affine mapping *)

Lemma affine_gain_pos {A B : Type} `{Ranged A} `{Ranged B} (vr : A) (dr : B) :
  min_value vr < max_value vr -> min_value dr < max_value dr ->
  0 < (max_value dr - min_value dr) / (max_value vr - min_value vr).
Proof.
  intros Hv Hd. apply Qlt_shift_div_l; lra.
Qed.

Lemma GET_DRV_SIGMA_slope {A B : Type} `{Ranged A} `{Ranged B}
    (vr : A) (dr : B) (x : Q) :
  GET_DRV_SIGMA x vr dr ==
  (x - min_value vr)
  * ((max_value dr - min_value dr) / (max_value vr - min_value vr))
  + min_value dr.
Proof. unfold GET_DRV_SIGMA, Qdiv. ring. Qed.

(** C8.  For ranges with [min < max] on both sides, the affine mapping
    [GET_DRV_SIGMA] is strictly increasing (hence monotone) in its input, and
    mapping the result back through the same formula with the two ranges
    exchanged recovers the input exactly over the rationals. *)
Theorem GET_DRV_SIGMA_monotone_inverse {A B : Type} `{Ranged A} `{Ranged B}
    (vlc_range : A) (drv_range : B) (x y : Q) :
  min_value vlc_range < max_value vlc_range ->
  min_value drv_range < max_value drv_range ->
  (x < y ->
   GET_DRV_SIGMA x vlc_range drv_range < GET_DRV_SIGMA y vlc_range drv_range)
  /\ (x <= y ->
      GET_DRV_SIGMA x vlc_range drv_range <= GET_DRV_SIGMA y vlc_range drv_range)
  /\ GET_DRV_SIGMA (GET_DRV_SIGMA x vlc_range drv_range) drv_range vlc_range == x.
Proof.
  intros Hv Hd.
  pose proof (affine_gain_pos vlc_range drv_range Hv Hd) as Hk.
  repeat split.
  - intros Hxy. rewrite !GET_DRV_SIGMA_slope.
    apply Qplus_lt_l. apply Qmult_lt_compat_r; [exact Hk | lra].
  - intros Hxy. rewrite !GET_DRV_SIGMA_slope.
    apply Qplus_le_l. apply Qmult_le_compat_r; [lra | apply Qlt_le_weak, Hk].
  - unfold GET_DRV_SIGMA. field. split; lra.
Qed.

(** The contrast range of VLC against a driver range [0, 100], at the inputs
    1/2 and 1. *)
Lemma GET_DRV_SIGMA_monotone_inverse_witness :
  GET_DRV_SIGMA (1 # 2) (mk_range 0 2) (mk_va_range 0 100 50 1)
  < GET_DRV_SIGMA 1 (mk_range 0 2) (mk_va_range 0 100 50 1)
  /\ GET_DRV_SIGMA (GET_DRV_SIGMA (1 # 2) (mk_range 0 2) (mk_va_range 0 100 50 1))
       (mk_va_range 0 100 50 1) (mk_range 0 2) == 1 # 2.
Proof.
  assert (Hv : min_value (mk_range 0 2) < max_value (mk_range 0 2))
    by reflexivity.
  assert (Hd : min_value (mk_va_range 0 100 50 1)
               < max_value (mk_va_range 0 100 50 1)) by reflexivity.
  destruct (GET_DRV_SIGMA_monotone_inverse (mk_range 0 2)
              (mk_va_range 0 100 50 1) (1 # 2) 1 Hv Hd) as (Hlt & _ & Hinv).
  split; [apply Hlt; reflexivity | exact Hinv].
Defined.

(** ** The variable callback *)

Lemma VLC_CLIP_bounds (v lo hi : Q) : lo <= hi -> lo <= VLC_CLIP v lo hi <= hi.
Proof.
  intros Hle. unfold VLC_CLIP.
  destruct (Qle_bool v lo) eqn:E1.
  - destruct (Qle_bool hi lo) eqn:E2.
    + apply Qle_bool_iff in E2. lra.
    + lra.
  - assert (lo < v).
    { apply Qnot_le_lt. intros C. apply Qle_bool_iff in C. congruence. }
    destruct (Qle_bool hi v) eqn:E2.
    + lra.
    + assert (v < hi).
      { apply Qnot_le_lt. intros C. apply Qle_bool_iff in C. congruence. }
      lra.
Qed.

Ltac name_cases psz_var :=
  destruct (String.eqb_spec psz_var "contrast") as [-> | ?];
  [ | destruct (String.eqb_spec psz_var "brightness") as [-> | ?];
      [ | destruct (String.eqb_spec psz_var "hue") as [-> | ?];
          [ | destruct (String.eqb_spec psz_var "saturation") as [-> | ?] ] ] ].

Lemma adjust_name_index (i : nat) (name : string) :
  adjust_params_names !! i = Some name ->
  (i = 0%nat /\ name = "contrast") \/ (i = 1%nat /\ name = "brightness")
  \/ (i = 2%nat /\ name = "hue") \/ (i = 3%nat /\ name = "saturation").
Proof.
  destruct i as [| [| [| [| i]]]]; cbn; intros E; try discriminate E;
    injection E as <-; tauto.
Qed.

Lemma FilterCallback_adjust_step_other (psz_var : string) (p_data : cb_data)
    (i : N) (loc : cb_locals) :
  (i < NUM_ADJUST_MODES)%N -> ~ In psz_var adjust_params_names ->
  FilterCallback_adjust_step psz_var p_data i loc = Ret (Next loc).
Proof.
  intros Hi Hn. unfold FilterCallback_adjust_step, tab_get.
  destruct (adjust_params_names !! N.to_nat i) as [name |] eqn:E.
  - cbn [bind]. destruct (String.eqb_spec psz_var name) as [-> | _]; [| reflexivity].
    exfalso. apply Hn. apply list_elem_of_In. eapply list_elem_of_lookup_2. exact E.
  - apply lookup_ge_None in E. cbn in E. unfold NUM_ADJUST_MODES in Hi. lia.
Qed.

Lemma FilterCallback_scan_other (psz_var : string) (p_data : cb_data) :
  ~ In psz_var adjust_params_names ->
  for_range 0 (N.to_nat NUM_ADJUST_MODES)
    (FilterCallback_adjust_step psz_var p_data) cb_locals_init
  = Ret (Next cb_locals_init).
Proof.
  intros Hn. change (N.to_nat NUM_ADJUST_MODES) with 4%nat. cbn [for_range].
  rewrite !FilterCallback_adjust_step_other by (assumption || (unfold NUM_ADJUST_MODES; lia)).
  reflexivity.
Qed.

Ltac refute_failure_cause :=
  let Hn := fresh in let d := fresh in let i := fresh in let s := fresh in
  let Hd := fresh in let Hi := fresh in let Hs := fresh in let Ha := fresh in
  intros [[Hn _] | (d & i & s & Hd & Hi & Hs & Ha)];
  [ exfalso; apply Hn; cbn; tauto
  | try discriminate Hd; injection Hd as <-;
    apply adjust_name_index in Hi;
    destruct Hi as [[-> ?] | [[-> ?] | [[-> ?] | [-> ?]]]]; try discriminate;
    cbn in Hs; injection Hs as <-; discriminate Ha ].

(** C7.  Called with a [p_data] of the kind its variable belongs to, the
    callback returns [VLC_EGENERIC] exactly when the name is neither an adjust
    name nor a basic sigma name, or names an adjust channel whose
    [is_available] flag is clear; it then leaves [p_data] as it was.
    Otherwise it returns [VLC_SUCCESS] and the only change is the stored
    driver value of the named control, overwritten by one store with: the new
    value clamped to the control's VLC range [[lo, hi]], compressed to
    [[0, 0.35]] for contrast and to [[0, 1]] for saturation (not for
    brightness, hue or the basic sigmas), then mapped into the stored driver
    range [[dlo, dhi]], each map being
    [(x - lo) * (dhi - dlo) / (hi - lo) + dlo]. *)
Theorem FilterCallback_spec (psz_var : string) (newval : Q) (p_data : cb_data) :
  cb_well_typed psz_var p_data ->
  let clamp := fun v lo hi : Q =>
    let m := if Qle_bool v lo then lo else v in
    if Qle_bool hi m then hi else m in
  let affine := fun x lo hi dlo dhi : Q =>
    (x - lo) * (dhi - dlo) / (hi - lo) + dlo in
  exists code p_data',
    FilterCallback psz_var newval p_data = Ret (code, p_data')
    /\ (code = VLC_EGENERIC \/ code = VLC_SUCCESS)
    /\ (code = VLC_EGENERIC <->
          (~ In psz_var adjust_params_names /\ ~ is_basic_sigma_name psz_var)
          \/ (exists d i s, p_data = AdjustData d
                /\ adjust_params_names !! i = Some psz_var
                /\ sigma d !! i = Some s /\ is_available s = false))
    /\ (code = VLC_EGENERIC -> p_data' = p_data)
    /\ (code = VLC_SUCCESS ->
          match p_data with
          | AdjustData d =>
              exists i s r,
                adjust_params_names !! i = Some psz_var
                /\ sigma d !! i = Some s
                /\ vlc_adjust_sigma_ranges !! i = Some r
                /\ let lo := range_min_value r in
                   let hi := range_max_value r in
                   let clipped := clamp newval lo hi in
                   let compressed :=
                     match i with
                     | 0%nat => affine clipped lo hi 0 (35 # 100)
                     | 3%nat => affine clipped lo hi 0 1
                     | _ => clipped
                     end in
                   lo <= clipped <= hi
                   /\ p_data' =
                      AdjustData
                        (mk_adjust_data
                           (<[i := mk_adjust_sigma
                                     (affine compressed lo hi
                                        (va_min_value (drv_range s))
                                        (va_max_value (drv_range s)))
                                     (drv_range s) (is_available s)]> (sigma d))
                           (num_available_modes d))
          | BasicData b =>
              let s := basic_sigma_of b in
              exists r,
                p_vlc_range s = Some r
                /\ p_data' =
                   BasicData
                     (mk_basic_filter_data
                        (mk_basic_sigma
                           (affine
                              (clamp newval (range_min_value r) (range_max_value r))
                              (range_min_value r) (range_max_value r)
                              (va_min_value (basic_drv_range s))
                              (va_max_value (basic_drv_range s)))
                           (basic_drv_range s) (p_vlc_range s) (psz_name s))
                        (filter_type b))
          end).
Proof.
  intros Hwt clamp affine. destruct p_data as [d | b].
  - destruct Hwt as [Hlen Hnb].
    destruct d as [sg n]. cbn in Hlen.
    destruct sg as [| s0 [| s1 [| s2 [| s3 [| ? ?]]]]]; try discriminate Hlen.
    clear Hlen.
    name_cases psz_var.
    5: {
      assert (Hn : ~ In psz_var adjust_params_names).
      { cbn. intros [C | [C | [C | [C | []]]]]; congruence. }
      exists VLC_EGENERIC, (AdjustData (mk_adjust_data [s0; s1; s2; s3] n)).
      split.
      { unfold FilterCallback. rewrite FilterCallback_scan_other by exact Hn.
        cbn [bind]. unfold FilterCallback_basic_step. cbn [negb b_found cb_locals_init].
        destruct (String.eqb_spec psz_var "denoise-sigma") as [C | _];
          [exfalso; apply Hnb; left; exact C |].
        destruct (String.eqb_spec psz_var "sharpen-sigma") as [C | _];
          [exfalso; apply Hnb; right; exact C |].
        reflexivity. }
      split; [left; reflexivity |].
      split; [split; [intros _; left; split; assumption | reflexivity] |].
      split; [reflexivity | discriminate]. }
    + destruct s0 as [v0 r0 [|]]; eexists _, _; (split; [reflexivity |]).
      * split; [right; reflexivity |].
        split; [split; [discriminate | refute_failure_cause] |].
        split; [discriminate |]. intros _.
        exists 0%nat, (mk_adjust_sigma v0 r0 true), (mk_range 0 2).
        repeat split; try reflexivity; apply (VLC_CLIP_bounds newval); cbn; lra.
      * split; [left; reflexivity |].
        split; [split; [intros _; right; eexists _, 0%nat, _; repeat split; reflexivity
                       | reflexivity] |].
        split; [reflexivity | discriminate].
    + destruct s1 as [v1 r1 [|]]; eexists _, _; (split; [reflexivity |]).
      * split; [right; reflexivity |].
        split; [split; [discriminate | refute_failure_cause] |].
        split; [discriminate |]. intros _.
        exists 1%nat, (mk_adjust_sigma v1 r1 true), (mk_range 0 2).
        repeat split; try reflexivity; apply (VLC_CLIP_bounds newval); cbn; lra.
      * split; [left; reflexivity |].
        split; [split; [intros _; right; eexists _, 1%nat, _; repeat split; reflexivity
                       | reflexivity] |].
        split; [reflexivity | discriminate].
    + destruct s2 as [v2 r2 [|]]; eexists _, _; (split; [reflexivity |]).
      * split; [right; reflexivity |].
        split; [split; [discriminate | refute_failure_cause] |].
        split; [discriminate |]. intros _.
        exists 2%nat, (mk_adjust_sigma v2 r2 true), (mk_range (-180) 180).
        repeat split; try reflexivity; apply (VLC_CLIP_bounds newval); cbn; lra.
      * split; [left; reflexivity |].
        split; [split; [intros _; right; eexists _, 2%nat, _; repeat split; reflexivity
                       | reflexivity] |].
        split; [reflexivity | discriminate].
    + destruct s3 as [v3 r3 [|]]; eexists _, _; (split; [reflexivity |]).
      * split; [right; reflexivity |].
        split; [split; [discriminate | refute_failure_cause] |].
        split; [discriminate |]. intros _.
        exists 3%nat, (mk_adjust_sigma v3 r3 true), (mk_range 0 3).
        repeat split; try reflexivity; apply (VLC_CLIP_bounds newval); cbn; lra.
      * split; [left; reflexivity |].
        split; [split; [intros _; right; eexists _, 3%nat, _; repeat split; reflexivity
                       | reflexivity] |].
        split; [reflexivity | discriminate].
  - destruct Hwt as [Hn Hr]. destruct b as [[v dr pr nm] ft]. cbn in Hr.
    unfold FilterCallback. rewrite FilterCallback_scan_other by exact Hn.
    cbn [bind]. unfold FilterCallback_basic_step. cbn [negb b_found cb_locals_init].
    destruct ((psz_var =? "denoise-sigma") || (psz_var =? "sharpen-sigma"))%bool eqn:Eb.
    + assert (Hb : is_basic_sigma_name psz_var).
      { apply orb_true_iff in Eb. destruct Eb as [E | E]; apply String.eqb_eq in E;
          [left | right]; exact E. }
      destruct (Hr Hb) as [r ->].
      eexists _, _; split; [reflexivity |].
      split; [right; reflexivity |].
      split; [split; [discriminate |] |].
      { intros [[_ Hnb] | (d & i & s & Hd & _)]; [contradiction | discriminate Hd]. }
      split; [discriminate |]. intros _. exists r. split; reflexivity.
    + assert (Hnb : ~ is_basic_sigma_name psz_var).
      { apply orb_false_iff in Eb. destruct Eb as [E1 E2].
        apply String.eqb_neq in E1, E2. intros [C | C]; contradiction. }
      eexists _, _; split; [reflexivity |].
      split; [left; reflexivity |].
      split; [split; [intros _; left; split; assumption | reflexivity] |].
      split; [reflexivity | discriminate].
Qed.

(** A contrast update on a state where contrast is available with the
    driver range [0, 100]: the value 1 is stored as 8.75. *)
Lemma FilterCallback_spec_witness :
  exists d' s0',
    FilterCallback "contrast" 1
      (AdjustData
         (mk_adjust_data
            [ mk_adjust_sigma 0 (mk_va_range 0 100 50 1) true;
              mk_adjust_sigma 0 va_range_zero false;
              mk_adjust_sigma 0 (mk_va_range 0 360 0 1) true;
              mk_adjust_sigma 0 va_range_zero false ] 2))
    = Ret (VLC_SUCCESS, AdjustData d')
    /\ sigma d' !! 0%nat = Some s0'
    /\ drv_value s0' == 35 # 4
    /\ FilterCallback "brightness" 1 (AdjustData d')
       = Ret (VLC_EGENERIC, AdjustData d').
Proof.
  pose (d := mk_adjust_data
               [ mk_adjust_sigma 0 (mk_va_range 0 100 50 1) true;
                 mk_adjust_sigma 0 va_range_zero false;
                 mk_adjust_sigma 0 (mk_va_range 0 360 0 1) true;
                 mk_adjust_sigma 0 va_range_zero false ] 2).
  assert (Hwt : cb_well_typed "contrast" (AdjustData d)).
  { split; [reflexivity |]. intros [C | C]; discriminate C. }
  destruct (FilterCallback_spec "contrast" 1 _ Hwt)
    as (code & p_data' & Hrun & Hcode & Hiff & _ & Hsucc).
  destruct Hcode as [-> | ->].
  { exfalso. destruct Hiff as [Hcause _]. specialize (Hcause eq_refl).
    revert Hcause. refute_failure_cause. }
  destruct (Hsucc eq_refl) as (i & s & r & Hi & Hs & Hr & _ & Hp).
  apply adjust_name_index in Hi.
  destruct Hi as [[-> _] | [[-> C] | [[-> C] | [-> C]]]]; try discriminate C.
  cbn in Hs, Hr. injection Hs as <-. injection Hr as <-.
  cbn in Hp. subst p_data'.
  match type of Hrun with
  | _ = Ret (_, ?p) => assert (Hwt' : cb_well_typed "brightness" p)
  end.
  { split; [reflexivity |]. intros [C | C]; discriminate C. }
  destruct (FilterCallback_spec "brightness" 1 _ Hwt')
    as (code & p_data'' & Hrun2 & _ & Hiff2 & Hsame & _).
  assert (code = VLC_EGENERIC) as ->.
  { apply Hiff2. right. eexists _, 1%nat, _.
    split; [reflexivity |]. split; [reflexivity |]. split; reflexivity. }
  rewrite (Hsame eq_refl) in Hrun2.
  eexists _, _. split; [exact Hrun |]. split; [reflexivity |].
  split; [vm_compute; reflexivity | exact Hrun2].
Defined.

Ltac four_sigmas d :=
  let sg := fresh "sg" in let n := fresh "n" in
  destruct d as [sg n];
  destruct sg as [| [? ? ?] [| [? ? ?] [| [? ? ?] [| [? ? ?] [| ? ?]]]]];
  try discriminate.

Ltac flags :=
  repeat match goal with b : bool |- _ => destruct b end.

Ltac whnf_run H :=
  match type of H with
  | ?L = _ =>
      let E := fresh in
      first [ eassert (E : L = Ret (_, _)) by reflexivity
            | eassert (E : L = Fault _) by reflexivity ];
      rewrite E in H; clear E
  end.

Lemma FilterCallback_adjust_flags (psz_var : string) (newval : Q)
    (d d' : adjust_data) :
  length (sigma d) = N.to_nat NUM_ADJUST_MODES ->
  FilterCallback psz_var newval (AdjustData d) = Ret (VLC_SUCCESS, AdjustData d') ->
  num_available_modes d' = num_available_modes d
  /\ map is_available (sigma d') = map is_available (sigma d).
Proof.
  intros Hlen Hrun. four_sigmas d. clear Hlen.
  name_cases psz_var.
  5: {
    exfalso. revert Hrun.
    assert (Hn : ~ In psz_var adjust_params_names).
    { cbn. intros [C | [C | [C | [C | []]]]]; congruence. }
    unfold FilterCallback. rewrite FilterCallback_scan_other by exact Hn.
    cbn [bind]. unfold FilterCallback_basic_step. cbn [negb b_found cb_locals_init].
    destruct ((psz_var =? "denoise-sigma") || (psz_var =? "sharpen-sigma"))%bool;
      cbn; discriminate. }
  all: flags; whnf_run Hrun; simplify_eq; split; reflexivity.
Qed.


(** ** Adjust: the capability scan *)

Section CapabilityScan.

Variable inherit : string -> Q.
Variable caps : list VAProcFilterCapColorBalance.

Lemma OpenAdjust_scan_caps_shape (i : N) (n : nat) :
  forall (from : N) (d : adjust_data) r,
    for_range from n (OpenAdjust_scan_caps_step inherit caps i) d = Ret r ->
    r = Next d
    \/ ((i < NUM_ADJUST_MODES)%N
        /\ (N.to_nat i < length (sigma d))%nat
        /\ exists v rg,
             r = Leave (mk_adjust_data
                          (<[N.to_nat i := mk_adjust_sigma v rg true]> (sigma d))
                          (u32 (num_available_modes d + 1)))).
Proof.
  induction n as [| n IH]; intros from d r Hrun; cbn [for_range] in Hrun.
  - injection Hrun as <-. left. reflexivity.
  - unfold OpenAdjust_scan_caps_step at 1 in Hrun.
    destruct (tab_get caps from) as [c |]; [| discriminate Hrun].
    cbn [bind] in Hrun. unfold tab_get at 1 in Hrun.
    destruct (va_adjust_modes !! N.to_nat i) as [mode |] eqn:Emode;
      [| discriminate Hrun].
    assert (Hi : (i < NUM_ADJUST_MODES)%N).
    { apply lookup_lt_Some in Emode. cbn in Emode. unfold NUM_ADJUST_MODES. lia. }
    cbn [bind] in Hrun.
    destruct (bool_decide (cap_type c = mode)).
    + destruct (tab_get adjust_params_names i) as [name |]; [| discriminate Hrun].
      cbn [bind] in Hrun.
      destruct (tab_get vlc_adjust_sigma_ranges i) as [rg |]; [| discriminate Hrun].
      cbn [bind] in Hrun. unfold tab_set in Hrun.
      destruct (N.to_nat i <? length (sigma d))%nat eqn:Elt; [| discriminate Hrun].
      cbn [bind] in Hrun. injection Hrun as <-.
      right. split; [exact Hi |]. split; [apply Nat.ltb_lt; exact Elt |].
      eexists _, _. reflexivity.
    + apply IH in Hrun. exact Hrun.
Qed.

Lemma OpenAdjust_scan_modes_shape (i : N) (d d' : adjust_data) :
  OpenAdjust_scan_modes_step inherit caps i d = Ret (Next d') ->
  d' = d
  \/ ((i < NUM_ADJUST_MODES)%N
      /\ (N.to_nat i < length (sigma d))%nat
      /\ exists v rg,
           d' = mk_adjust_data
                  (<[N.to_nat i := mk_adjust_sigma v rg true]> (sigma d))
                  (u32 (num_available_modes d + 1))).
Proof.
  unfold OpenAdjust_scan_modes_step. intros Hrun.
  destruct (for_range 0 (length caps) (OpenAdjust_scan_caps_step inherit caps i) d)
    as [r | f] eqn:E; [| discriminate Hrun].
  apply OpenAdjust_scan_caps_shape in E. cbn [bind] in Hrun.
  destruct E as [-> | (Hi & Hlt & v & rg & ->)].
  - injection Hrun as <-. left. reflexivity.
  - injection Hrun as <-. right. split; [exact Hi |]. split; [exact Hlt |].
    eexists _, _. reflexivity.
Qed.

Lemma scan_inv_step (k : N) (d d' : adjust_data) :
  scan_inv k d ->
  OpenAdjust_scan_modes_step inherit caps k d = Ret (Next d') ->
  scan_inv (N.succ k) d'.
Proof.
  intros (Hlen & Hnum & Hrest) Hrun.
  apply OpenAdjust_scan_modes_shape in Hrun.
  unfold scan_inv. rewrite N2Nat.inj_succ.
  destruct Hrun as [-> | (Hk & _ & v & rg & ->)].
  - split; [exact Hlen |]. split; [exact Hnum |].
    four_sigmas d.
    destruct (N.to_nat k) as [| [| [| [| m]]]]; cbn in Hrest |- *;
      congruence.
  - unfold NUM_ADJUST_MODES in Hk.
    four_sigmas d. cbn [sigma num_available_modes] in *.
    unfold available_channels, va_adjust_modes in *.
    destruct (N.to_nat k) as [| [| [| [| m]]]] eqn:Ek; [ | | | | lia];
      cbn in Hrest; simplify_eq; cbn in Hnum |- *;
      repeat match goal with b : bool |- _ => destruct b end;
      cbn in Hnum |- *; subst; repeat split; reflexivity.
Qed.

Lemma adjust_data_calloc_scan_inv : scan_inv 0 adjust_data_calloc.
Proof. repeat split; reflexivity. Qed.

Lemma OpenAdjust_scan_result (d : adjust_data) :
  for_range 0 (length caps) (OpenAdjust_scan_modes_step inherit caps)
    adjust_data_calloc = Ret (Next d) ->
  length (sigma d) = 4%nat
  /\ num_available_modes d = N.of_nat (length (available_channels d)).
Proof.
  intros Hrun.
  apply (for_range_partial scan_inv) in Hrun.
  - destruct Hrun as (Hlen & Hnum & _). split; assumption.
  - exact adjust_data_calloc_scan_inv.
  - intros k s s'. apply scan_inv_step.
Qed.

End CapabilityScan.

Ltac shape_buffer m :=
  destruct m as [| [? ? ?] [| [? ? ?] [| [? ? ?] [| [? ? ?] [| ? ?]]]]];
  try discriminate.

Lemma OpenAdjust_establishes_inv (env : adjust_open_env) (d : adjust_data)
    (m : list VAProcFilterParameterBufferColorBalance) (num : N) (ev : list event) :
  OpenAdjust_InitFilterParams env adjust_data_calloc
    = Ret (VLC_SUCCESS, d, Some m, num, ev) ->
  adjust_inv d m /\ num = num_available_modes d.
Proof.
  unfold OpenAdjust_InitFilterParams. intros Hrun.
  destruct (negb (query_ret env =? 0)%Z); [discriminate Hrun |].
  destruct (for_range 0 (length (query_caps env))
              (OpenAdjust_scan_modes_step (var_InheritFloat env) (query_caps env))
              adjust_data_calloc) as [[d1 | []] | f] eqn:Escan;
    [| discriminate Hrun].
  apply OpenAdjust_scan_result in Escan. destruct Escan as [Hlen Hnum].
  cbn [bind] in Hrun.
  destruct (calloc_va_params_ok env); [| discriminate Hrun].
  cbn [negb] in Hrun.
  four_sigmas d1. cbn [sigma num_available_modes] in *. clear Hlen.
  unfold available_channels, va_adjust_modes in Hnum. cbn in Hnum.
  flags; cbn in Hnum; subst; vm_compute in Hrun; simplify_eq;
    repeat split; reflexivity.
Qed.

Lemma Adjust_UpdateVAFilterParams_inv (d : adjust_data)
    (m : list VAProcFilterParameterBufferColorBalance) :
  adjust_inv d m ->
  exists m',
    Adjust_UpdateVAFilterParams d m
      = Ret (m', N.of_nat (length (available_channels d)))
    /\ map cb_type m' = map cb_type m
    /\ map cb_attrib m' = map cb_attrib m
    /\ map cb_value m' = map (fun p => drv_value (snd p)) (available_channels d).
Proof.
  intros (Hlen & Hnum & Hty & Hattr).
  four_sigmas d. cbn [sigma num_available_modes] in *. clear Hlen Hnum.
  unfold available_channels, va_adjust_modes in *.
  flags; cbn in Hattr, Hty |- *; shape_buffer m; simplify_eq;
    eexists; repeat split; reflexivity.
Qed.


Lemma available_channels_flags (d d' : adjust_data) :
  length (sigma d) = N.to_nat NUM_ADJUST_MODES ->
  map is_available (sigma d') = map is_available (sigma d) ->
  length (sigma d') = N.to_nat NUM_ADJUST_MODES
  /\ map fst (available_channels d') = map fst (available_channels d).
Proof.
  intros Hlen Hfl.
  assert (Hlen' : length (sigma d') = length (sigma d)).
  { rewrite <- (length_map is_available (sigma d')), Hfl. apply length_map. }
  split; [congruence |].
  rewrite Hlen in Hlen'. four_sigmas d. four_sigmas d'.
  unfold available_channels, va_adjust_modes. cbn in Hfl |- *.
  simplify_eq. flags; reflexivity.
Qed.

Lemma adjust_reachable_inv (d : adjust_data)
    (m : list VAProcFilterParameterBufferColorBalance) :
  adjust_reachable d m -> adjust_inv d m.
Proof.
  induction 1 as [env d m num ev Hopen
                 | d m psz_var newval d' _ IH Hcb
                 | d m m' n _ IH Hupd].
  - apply OpenAdjust_establishes_inv in Hopen. tauto.
  - destruct IH as (Hlen & Hnum & Hty & Hattr).
    destruct (FilterCallback_adjust_flags _ _ _ _ Hlen Hcb) as [Hn Hfl].
    destruct (available_channels_flags _ _ Hlen Hfl) as [Hlen' Hch].
    assert (Hcount : length (available_channels d') = length (available_channels d)).
    { rewrite <- (length_map fst (available_channels d')), Hch. apply length_map. }
    unfold adjust_inv. rewrite Hn, Hch, Hcount. tauto.
  - destruct (Adjust_UpdateVAFilterParams_inv d m IH) as (m1 & Hrun & Hty & Hattr & _).
    rewrite Hrun in Hupd. simplify_eq.
    destruct IH as (Hlen & Hnum & Hty0 & Hattr0).
    unfold adjust_inv. rewrite Hty, Hattr. tauto.
Qed.

(** C6.  In every state of an Adjust session the count kept in
    [num_available_modes], which sizes the parameter buffer at open, is the
    number of channels flagged available; the buffer holds exactly one entry
    per flagged channel, tagged in the order contrast, brightness, hue,
    saturation; and the per-frame update writes exactly that many values, the
    stored driver values of the flagged channels in the same order, leaving
    the tags in place. *)
Theorem adjust_buffer_matches_available (d : adjust_data)
    (m : list VAProcFilterParameterBufferColorBalance) :
  adjust_reachable d m ->
  num_available_modes d = N.of_nat (length (available_channels d))
  /\ length m = length (available_channels d)
  /\ map cb_attrib m = map fst (available_channels d)
  /\ exists m',
       Adjust_UpdateVAFilterParams d m
         = Ret (m', N.of_nat (length (available_channels d)))
       /\ map cb_attrib m' = map cb_attrib m
       /\ map cb_value m' = map (fun p => drv_value (snd p)) (available_channels d).
Proof.
  intros Hreach. pose proof (adjust_reachable_inv d m Hreach) as Hinv.
  destruct (Adjust_UpdateVAFilterParams_inv d m Hinv) as (m' & Hrun & _ & Hattr & Hval).
  destruct Hinv as (_ & Hnum & _ & Hattr0).
  split; [exact Hnum |].
  split; [rewrite <- (length_map cb_attrib m), Hattr0; apply length_map |].
  split; [exact Hattr0 |].
  exists m'. repeat split; assumption.
Qed.

(** The session opened on the three-entry report. *)
Lemma adjust_buffer_matches_available_witness :
  exists d m,
    adjust_reachable d m
    /\ num_available_modes d = 2%N
    /\ map cb_attrib m = [VAProcColorBalanceContrast; VAProcColorBalanceHue].
Proof.
  eassert (Hopen : OpenAdjust_InitFilterParams example_env_three_caps
                     adjust_data_calloc
                   = Ret (VLC_SUCCESS, _, Some _, _, _))
    by (vm_compute; reflexivity).
  pose proof (adjust_reach_open _ _ _ _ _ Hopen) as Hreach.
  destruct (adjust_buffer_matches_available _ _ Hreach) as (Hnum & _ & Hattr & _).
  eexists _, _. split; [exact Hreach |]. split; [exact Hnum | exact Hattr].
Defined.

(** C9, as the code has it.  In a session where contrast is available with
    the driver range [0, 100], setting contrast to 1 stores
    (0.35 / 2) * (100 - 0) / (2 - 0) + 0 = 8.75: the compressed value
    0.35 / 2 goes through the affine map with the VLC range [0, 2], which
    divides by the width of that range once more.  If exactly contrast and
    hue are available, the parameter buffer holds exactly two entries, tagged
    contrast then hue. *)
Theorem adjust_contrast_hue_session (d : adjust_data)
    (m : list VAProcFilterParameterBufferColorBalance) (s0 : adjust_sigma) :
  adjust_reachable d m ->
  sigma d !! 0%nat = Some s0 ->
  is_available s0 = true ->
  va_min_value (drv_range s0) == 0 ->
  va_max_value (drv_range s0) == 100 ->
  (exists d' s0',
     FilterCallback "contrast" 1 (AdjustData d)
       = Ret (VLC_SUCCESS, AdjustData d')
     /\ sigma d' !! 0%nat = Some s0'
     /\ drv_value s0' == ((35 # 100) / 2) * (100 - 0) / (2 - 0) + 0
     /\ drv_value s0' == 35 # 4)
  /\ (map is_available (sigma d) = [true; false; true; false] ->
      length m = 2%nat
      /\ map cb_attrib m = [VAProcColorBalanceContrast; VAProcColorBalanceHue]).
Proof.
  intros Hreach Hs0 Hav Hmin Hmax.
  destruct (adjust_reachable_inv d m Hreach) as (Hlen & _ & _ & Hattr).
  split.
  - four_sigmas d. cbn [sigma] in *. clear Hlen Hattr.
    cbn in Hs0. simplify_eq. cbn [is_available drv_range] in Hav, Hmin, Hmax.
    subst. eexists _, _. split; [reflexivity |]. split; [reflexivity |].
    cbn [drv_value].
    unfold GET_DRV_SIGMA. cbn [min_value max_value va_range_Ranged range_Ranged].
    cbn [va_min_value va_max_value range_min_value range_max_value].
    rewrite Hmin, Hmax. split; reflexivity.
  - intros Hfl. four_sigmas d. cbn [sigma] in *. clear Hlen.
    cbn in Hfl. simplify_eq.
    split; [rewrite <- (length_map cb_attrib m), Hattr; reflexivity | exact Hattr].
Qed.

(** The session opened on the two-entry report {contrast, hue}, where the
    driver reports contrast with the range [0, 100]; and the session opened
    on the three-entry report, in which exactly contrast and hue are
    available. *)
Lemma adjust_contrast_hue_session_witness :
  (exists d m num ev d' s0',
     OpenAdjust_InitFilterParams example_env_contrast_hue adjust_data_calloc
       = Ret (VLC_SUCCESS, d, Some m, num, ev)
     /\ FilterCallback "contrast" 1 (AdjustData d)
        = Ret (VLC_SUCCESS, AdjustData d')
     /\ sigma d' !! 0%nat = Some s0'
     /\ drv_value s0' == 35 # 4)
  /\ (exists d m num ev,
        OpenAdjust_InitFilterParams example_env_three_caps adjust_data_calloc
          = Ret (VLC_SUCCESS, d, Some m, num, ev)
        /\ map is_available (sigma d) = [true; false; true; false]
        /\ length m = 2%nat
        /\ map cb_attrib m
           = [VAProcColorBalanceContrast; VAProcColorBalanceHue]).
Proof.
  split.
  - eassert (Hopen : OpenAdjust_InitFilterParams example_env_contrast_hue
                       adjust_data_calloc
                     = Ret (VLC_SUCCESS, _, Some _, _, _))
      by (vm_compute; reflexivity).
    pose proof (adjust_reach_open _ _ _ _ _ Hopen) as Hreach.
    edestruct (adjust_contrast_hue_session _ _
                 (mk_adjust_sigma (3500 # 400) example_range_0_100 true) Hreach)
      as ((d' & s0' & Hcb & Hs0' & _ & Hval) & _);
      [reflexivity | reflexivity | reflexivity | reflexivity |].
    eexists _, _, _, _, d', s0'.
    split; [exact Hopen |]. split; [exact Hcb |]. split; [exact Hs0' | exact Hval].
  - eassert (Hopen : OpenAdjust_InitFilterParams example_env_three_caps
                       adjust_data_calloc
                     = Ret (VLC_SUCCESS, _, Some _, _, _))
      by (vm_compute; reflexivity).
    pose proof (adjust_reach_open _ _ _ _ _ Hopen) as Hreach.
    edestruct (adjust_contrast_hue_session _ _
                 (mk_adjust_sigma (3500 # 400) example_range_0_100 true) Hreach)
      as (_ & Hbuf);
      [reflexivity | reflexivity | reflexivity | reflexivity |].
    destruct (Hbuf eq_refl) as [Hlen Hattr].
    eexists _, _, _, _.
    split; [exact Hopen |]. split; [reflexivity |].
    split; [exact Hlen | exact Hattr].
Defined.

(** C9 as stated fails: on the two-entry report of the end-to-end scenario,
    contrast has the driver range [0, 100], and setting it to 1 does not store
    0.35 / 2 * (100 - 0) + 0 = 17.5. *)
Lemma adjust_contrast_value_counterexample :
  exists d m num ev d' s0',
    OpenAdjust_InitFilterParams example_env_contrast_hue adjust_data_calloc
      = Ret (VLC_SUCCESS, d, Some m, num, ev)
    /\ FilterCallback "contrast" 1 (AdjustData d)
       = Ret (VLC_SUCCESS, AdjustData d')
    /\ sigma d' !! 0%nat = Some s0'
    /\ ~ drv_value s0' == (35 # 100) / 2 * (100 - 0) + 0.
Proof.
  eexists _, _, _, _, _, _.
  split; [vm_compute; reflexivity |].
  split; [vm_compute; reflexivity |].
  split; [reflexivity |].
  vm_compute. discriminate.
Qed.

(** C5 fails on the code: on the two-entry report {contrast, hue} the scan
    visits only the first two channels (contrast, brightness), so hue stays
    unflagged although the driver reports it, and the buffer holds the single
    entry contrast. *)
Theorem OpenAdjust_misses_reported_hue :
  exists d m ev s,
    OpenAdjust_InitFilterParams example_env_contrast_hue adjust_data_calloc
      = Ret (VLC_SUCCESS, d, Some m, 1%N, ev)
    /\ In VAProcColorBalanceHue
          (map cap_type (query_caps example_env_contrast_hue))
    /\ sigma d !! N.to_nat ADJUST_HUE = Some s
    /\ is_available s = false
    /\ map cb_attrib m = [VAProcColorBalanceContrast].
Proof.
  eexists _, _, _, _.
  split; [vm_compute; reflexivity |].
  split; [cbn; tauto |].
  split; [reflexivity |].
  split; reflexivity.
Qed.

(** C10 fails on the code: on a report of five entries the outer loop reaches
    index 4 and reads [va_adjust_modes[4]], outside the four-entry table. *)
Theorem OpenAdjust_reads_past_tables :
  (N.of_nat (length (query_caps example_env_five_caps)) <= VAProcColorBalanceCount)%N
  /\ length va_adjust_modes = 4%nat
  /\ OpenAdjust_InitFilterParams example_env_five_caps adjust_data_calloc
     = Fault (OutOfBounds 4).
Proof.
  split; [vm_compute; discriminate |].
  split; [reflexivity |].
  vm_compute. reflexivity.
Qed.

(** ** The per-frame pipeline *)

Lemma Filter_error_in (pipeline_buf : VABufferID) (dest : picture_t) (e : event) :
  In e (Filter_error pipeline_buf (Some dest)) ->
  (e = E_vlc_vaapi_DestroyBuffer pipeline_buf /\ pipeline_buf <> VA_INVALID_ID)
  \/ e = E_picture_Release dest.
Proof.
  unfold Filter_error. intros Hin. apply in_app_or in Hin.
  destruct Hin as [Hin | Hin].
  - destruct (N.eqb_spec pipeline_buf VA_INVALID_ID) as [| Hne]; cbn in Hin;
      [contradiction |].
    destruct Hin as [<- | []]. left. split; [reflexivity | exact Hne].
  - cbn in Hin. destruct Hin as [<- | []]. right. reflexivity.
Qed.

Lemma Filter_error_releases (pipeline_buf : VABufferID) (dest : picture_t) :
  In (E_picture_Release dest) (Filter_error pipeline_buf (Some dest)).
Proof. unfold Filter_error. apply in_or_app. right. left. reflexivity. Qed.

Lemma Filter_error_destroys (pipeline_buf : VABufferID) (dest : option picture_t) :
  pipeline_buf <> VA_INVALID_ID ->
  In (E_vlc_vaapi_DestroyBuffer pipeline_buf) (Filter_error pipeline_buf dest).
Proof.
  intros Hne. unfold Filter_error. apply in_or_app. left.
  destruct (N.eqb_spec pipeline_buf VA_INVALID_ID); [contradiction |].
  left. reflexivity.
Qed.

(** Case analysis of a membership in an event list built by [++]. *)
Ltac in_cases H :=
  repeat first
    [ apply Filter_error_in in H; destruct H as [[H ?] | H]
    | apply in_app_or in H; destruct H as [H | H]
    | destruct H as [H | H]
    | contradiction H ];
  try discriminate H.

Ltac zero_or_not E x :=
  destruct (Z.eqb_spec x 0%Z) as [E | E]; cbn [negb].

Ltac fail_branch :=
  eexists _, _, _, _; split; [reflexivity |];
  split; [first [left; reflexivity | right; reflexivity] |];
  split; [first [left; reflexivity | right; reflexivity] |];
  split; [intros Hok; exfalso; tauto |];
  split;
  [ intros _; split; [reflexivity |];
    split; [apply in_or_app; right; apply Filter_error_releases |];
    let c := fresh "c" in let b := fresh "b" in
    let Hin := fresh "Hin" in let Hb := fresh "Hb" in
    intros c b Hin Hb; in_cases Hin;
    try (injection Hin as _ <-; apply in_or_app; right;
         apply Filter_error_destroys; assumption)
  | let c := fresh "c" in let b := fresh "b" in
    let pp := fresh "pp" in let r := fresh "r" in let Hin := fresh "Hin" in
    intros c b pp r Hin; in_cases Hin;
    try (injection Hin as _ _ <- _; split; reflexivity) ].

Lemma Filter_outcome {D P : Type} (o : filter_oracle) (sys : filter_sys_t D)
    (mem : P) (src dest : picture_t)
    (pf1 : option (D -> P -> res P)) (pf2 : option (D -> res D))
    (pf3 : option (D -> VAProcPipelineParameterBuffer
                   -> res VAProcPipelineParameterBuffer))
    (mem1 : P) (d1 : D) (pp1 : VAProcPipelineParameterBuffer) :
  o_picture_pool_Wait o = Some dest ->
  call_opt (option_map (fun f => f (p_data sys)) pf1) mem = Ret mem1 ->
  call_opt pf2 (p_data sys) = Ret d1 ->
  call_opt (option_map (fun f => f d1) pf3)
           (Filter_pipeline_params (set_p_data sys d1) src) = Ret pp1 ->
  exists out sys' mem' ev,
    Filter o sys mem (Some src) pf1 pf2 pf3 = Ret (out, sys', mem', ev)
    /\ (sys' = sys \/ sys' = set_p_data sys d1)
    /\ (mem' = mem \/ mem' = mem1)
    /\ (filter_oracle_ok o ->
        out = Some (picture_CopyProperties dest src)
        /\ sys' = set_p_data sys d1
        /\ In (E_vlc_vaapi_RenderPicture (ctx (va sys)) (o_CreateBuffer_pipeline o)
                 pp1 0%Z) ev)
    /\ (~ filter_oracle_ok o ->
        out = None
        /\ In (E_picture_Release (picture_CopyProperties dest src)) ev
        /\ forall c b, In (E_vlc_vaapi_CreateBuffer c b) ev ->
                       b <> VA_INVALID_ID ->
                       In (E_vlc_vaapi_DestroyBuffer b) ev)
    /\ (forall c b pp r, In (E_vlc_vaapi_RenderPicture c b pp r) ev ->
                         pp = pp1 /\ sys' = set_p_data sys d1).
Proof.
  intros Hpool H1 H2 H3. unfold Filter. rewrite Hpool. cbn [deref bind].
  unfold filter_oracle_ok.
  zero_or_not E1 (o_MapBuffer_params o); [| fail_branch].
  rewrite H1. cbn [bind].
  zero_or_not E2 (o_UnmapBuffer_params o); [| fail_branch].
  zero_or_not E3 (o_BeginPicture o); [| fail_branch].
  rewrite H2. cbn [bind].
  destruct (N.eqb_spec (o_CreateBuffer_pipeline o) VA_INVALID_ID) as [E4 | E4];
    [fail_branch |].
  zero_or_not E5 (o_MapBuffer_pipeline o); [| fail_branch].
  rewrite H3. cbn [bind].
  zero_or_not E6 (o_UnmapBuffer_pipeline o); [| fail_branch].
  zero_or_not E7 (o_RenderPicture o); [| fail_branch].
  zero_or_not E8 (o_EndPicture o); [| fail_branch].
  eexists _, _, _, _. split; [reflexivity |].
  split; [right; reflexivity |]. split; [right; reflexivity |].
  split.
  { intros _. split; [reflexivity |]. split; [reflexivity |].
    rewrite E7. apply in_or_app. left. apply in_or_app. right. left. reflexivity. }
  split; [intros Hno; exfalso; apply Hno; tauto |].
  intros c b pp r Hin. in_cases Hin. injection Hin as _ _ <- _.
  split; reflexivity.
Qed.

Local Open Scope list_scope.

Lemma set_p_data_same {D : Type} (sys : filter_sys_t D) :
  set_p_data sys (p_data sys) = sys.
Proof. destruct sys. reflexivity. Qed.

(** The calls of [Filter] when every step succeeds. *)
Lemma Filter_success {D P : Type} (o : filter_oracle) (sys : filter_sys_t D)
    (mem : P) (src dest : picture_t)
    (pf1 : option (D -> P -> res P)) (pf2 : option (D -> res D))
    (pf3 : option (D -> VAProcPipelineParameterBuffer
                   -> res VAProcPipelineParameterBuffer))
    (mem1 : P) (d1 : D) (pp1 : VAProcPipelineParameterBuffer) :
  filter_oracle_ok o ->
  o_picture_pool_Wait o = Some dest ->
  call_opt (option_map (fun f => f (p_data sys)) pf1) mem = Ret mem1 ->
  call_opt pf2 (p_data sys) = Ret d1 ->
  call_opt (option_map (fun f => f d1) pf3)
           (Filter_pipeline_params (set_p_data sys d1) src) = Ret pp1 ->
  Filter o sys mem (Some src) pf1 pf2 pf3
  = Ret (Some (picture_CopyProperties dest src), set_p_data sys d1, mem1,
         [ E_picture_pool_Wait (dest_pics sys) (Some dest);
           E_vlc_vaapi_PicAttachContext dest;
           E_vlc_vaapi_MapBuffer (buf (va sys)) 0;
           E_vlc_vaapi_UnmapBuffer (buf (va sys)) 0;
           E_vlc_vaapi_BeginPicture (ctx (va sys))
             (vlc_vaapi_PicGetSurface (picture_CopyProperties dest src)) 0;
           E_vlc_vaapi_CreateBuffer (ctx (va sys)) (o_CreateBuffer_pipeline o);
           E_vlc_vaapi_MapBuffer (o_CreateBuffer_pipeline o) 0;
           E_vlc_vaapi_UnmapBuffer (o_CreateBuffer_pipeline o) 0;
           E_vlc_vaapi_RenderPicture (ctx (va sys)) (o_CreateBuffer_pipeline o)
             pp1 0;
           E_vlc_vaapi_EndPicture (ctx (va sys)) 0 ]).
Proof.
  intros (E1 & E2 & E3 & E4 & E5 & E6 & E7 & E8) Hpool H1 H2 H3.
  unfold Filter. rewrite Hpool. cbn [deref bind].
  rewrite E1. cbn [Z.eqb negb]. rewrite H1. cbn [bind].
  rewrite E2, E3. cbn [Z.eqb negb]. rewrite H2. cbn [bind].
  apply N.eqb_neq in E4. rewrite E4.
  rewrite E5. cbn [Z.eqb negb]. rewrite H3. cbn [bind].
  rewrite E6, E7, E8. cbn [Z.eqb negb]. reflexivity.
Qed.

(* A failing exit of [Filter]: the calls made before the [error:] label. *)
Ltac failure_trace :=
  eexists _, _, _, _; split; [reflexivity |];
  split; [first [left; reflexivity | right; reflexivity] |];
  split; [first [left; reflexivity | right; reflexivity] |];
  split; [let p := fresh "p" in let Hin := fresh "Hin" in
          intros p Hin; in_cases Hin |];
  split; [let b := fresh "b" in let Hin := fresh "Hin" in
          intros b Hin; in_cases Hin |];
  split; [let c := fresh "c" in let b := fresh "b" in let Hin := fresh "Hin" in
          intros c b Hin; in_cases Hin;
          try (injection Hin as _ <-; reflexivity) |];
  first [ intros _; reflexivity
        | let Hno := fresh "Hno" in
          intros Hno; exfalso;
          match goal with
          | o : filter_oracle, sys : filter_sys_t _ |- _ =>
              apply (Hno (ctx (va sys)) (o_CreateBuffer_pipeline o))
          end;
          cbn; auto 12 ].

(** The calls of [Filter] when a picture was obtained and a driver step
    fails: the calls up to the failing one, among which nothing is released
    or destroyed, then the [error:] label on the value [pipeline_buf] has
    there, which is the buffer created if the run got that far and the
    uninitialised content of the local otherwise. *)
Lemma Filter_failure {D P : Type} (o : filter_oracle) (sys : filter_sys_t D)
    (mem : P) (src dest : picture_t)
    (pf1 : option (D -> P -> res P)) (pf2 : option (D -> res D))
    (pf3 : option (D -> VAProcPipelineParameterBuffer
                   -> res VAProcPipelineParameterBuffer))
    (mem1 : P) (d1 : D) (pp1 : VAProcPipelineParameterBuffer) :
  o_picture_pool_Wait o = Some dest ->
  call_opt (option_map (fun f => f (p_data sys)) pf1) mem = Ret mem1 ->
  call_opt pf2 (p_data sys) = Ret d1 ->
  call_opt (option_map (fun f => f d1) pf3)
           (Filter_pipeline_params (set_p_data sys d1) src) = Ret pp1 ->
  ~ filter_oracle_ok o ->
  exists sys' mem' ev_steps pipeline_buf,
    Filter o sys mem (Some src) pf1 pf2 pf3
    = Ret (None, sys', mem',
           ev_steps
           ++ Filter_error pipeline_buf (Some (picture_CopyProperties dest src)))
    /\ (sys' = sys \/ sys' = set_p_data sys d1)
    /\ (mem' = mem \/ mem' = mem1)
    /\ (forall p, ~ In (E_picture_Release p) ev_steps)
    /\ (forall b, ~ In (E_vlc_vaapi_DestroyBuffer b) ev_steps)
    /\ (forall c b, In (E_vlc_vaapi_CreateBuffer c b) ev_steps ->
          b = pipeline_buf)
    /\ ((forall c b, ~ In (E_vlc_vaapi_CreateBuffer c b) ev_steps) ->
        pipeline_buf = o_pipeline_buf_uninit o).
Proof.
  intros Hpool H1 H2 H3 Hno. unfold Filter. rewrite Hpool. cbn [deref bind].
  zero_or_not E1 (o_MapBuffer_params o); [| failure_trace].
  rewrite H1. cbn [bind].
  zero_or_not E2 (o_UnmapBuffer_params o); [| failure_trace].
  zero_or_not E3 (o_BeginPicture o); [| failure_trace].
  rewrite H2. cbn [bind].
  destruct (N.eqb_spec (o_CreateBuffer_pipeline o) VA_INVALID_ID) as [E4 | E4];
    [failure_trace |].
  zero_or_not E5 (o_MapBuffer_pipeline o); [| failure_trace].
  rewrite H3. cbn [bind].
  zero_or_not E6 (o_UnmapBuffer_pipeline o); [| failure_trace].
  zero_or_not E7 (o_RenderPicture o); [| failure_trace].
  zero_or_not E8 (o_EndPicture o); [| failure_trace].
  exfalso. apply Hno. unfold filter_oracle_ok. tauto.
Qed.

Lemma filter_oracle_ok_dec (o : filter_oracle) :
  {filter_oracle_ok o} + {~ filter_oracle_ok o}.
Proof.
  unfold filter_oracle_ok.
  destruct (Z.eq_dec (o_MapBuffer_params o) 0%Z); [| right; tauto].
  destruct (Z.eq_dec (o_UnmapBuffer_params o) 0%Z); [| right; tauto].
  destruct (Z.eq_dec (o_BeginPicture o) 0%Z); [| right; tauto].
  destruct (N.eq_dec (o_CreateBuffer_pipeline o) VA_INVALID_ID); [right; tauto |].
  destruct (Z.eq_dec (o_MapBuffer_pipeline o) 0%Z); [| right; tauto].
  destruct (Z.eq_dec (o_UnmapBuffer_pipeline o) 0%Z); [| right; tauto].
  destruct (Z.eq_dec (o_RenderPicture o) 0%Z); [| right; tauto].
  destruct (Z.eq_dec (o_EndPicture o) 0%Z); [| right; tauto].
  left. tauto.
Qed.

(** C4.  [Filter] is all-or-nothing, for a call in which the filter-specific
    callbacks return.  When the pool has no free picture it returns [NULL]
    having made no other call and changed nothing.  When a picture was
    obtained and every step succeeds it returns that picture, with the
    properties of the source, and has released and destroyed nothing.  When a
    picture was obtained and a driver step fails it returns [NULL]; up to the
    failing step nothing is released or destroyed, and the calls end with the
    destruction of [pipeline_buf] unless it is [VA_INVALID_ID], then the
    release of the picture obtained.  Every pipeline buffer the call created
    is that [pipeline_buf]; if the call failed before creating one,
    [pipeline_buf] is the uninitialised content of the local. *)
Theorem Filter_all_or_nothing {D P : Type} (o : filter_oracle)
    (sys : filter_sys_t D) (mem : P) (src : picture_t)
    (pf1 : option (D -> P -> res P)) (pf2 : option (D -> res D))
    (pf3 : option (D -> VAProcPipelineParameterBuffer
                   -> res VAProcPipelineParameterBuffer))
    (mem1 : P) (d1 : D) (pp1 : VAProcPipelineParameterBuffer) :
  call_opt (option_map (fun f => f (p_data sys)) pf1) mem = Ret mem1 ->
  call_opt pf2 (p_data sys) = Ret d1 ->
  call_opt (option_map (fun f => f d1) pf3)
           (Filter_pipeline_params (set_p_data sys d1) src) = Ret pp1 ->
  exists out sys' mem' ev,
    Filter o sys mem (Some src) pf1 pf2 pf3 = Ret (out, sys', mem', ev)
    /\ (o_picture_pool_Wait o = None ->
        out = None /\ sys' = sys /\ mem' = mem
        /\ ev = [E_picture_pool_Wait (dest_pics sys) None])
    /\ (forall dest, o_picture_pool_Wait o = Some dest ->
        (filter_oracle_ok o ->
         out = Some (picture_CopyProperties dest src)
         /\ (forall p, ~ In (E_picture_Release p) ev)
         /\ (forall b, ~ In (E_vlc_vaapi_DestroyBuffer b) ev))
        /\ (~ filter_oracle_ok o ->
            out = None
            /\ exists ev_steps pipeline_buf,
                 ev = ev_steps
                      ++ (if (pipeline_buf =? VA_INVALID_ID)%N then []
                          else [E_vlc_vaapi_DestroyBuffer pipeline_buf])
                      ++ [E_picture_Release (picture_CopyProperties dest src)]
                 /\ (forall p, ~ In (E_picture_Release p) ev_steps)
                 /\ (forall b, ~ In (E_vlc_vaapi_DestroyBuffer b) ev_steps)
                 /\ (forall c b, In (E_vlc_vaapi_CreateBuffer c b) ev_steps ->
                       b = pipeline_buf)
                 /\ ((forall c b, ~ In (E_vlc_vaapi_CreateBuffer c b) ev_steps) ->
                     pipeline_buf = o_pipeline_buf_uninit o))).
Proof.
  intros H1 H2 H3.
  destruct (o_picture_pool_Wait o) as [dest |] eqn:Hpool.
  - destruct (filter_oracle_ok_dec o) as [Hok | Hno].
    + eexists _, _, _, _.
      split; [exact (Filter_success o sys mem src dest pf1 pf2 pf3 mem1 d1 pp1
                       Hok Hpool H1 H2 H3) |].
      split; [discriminate |].
      intros dest0 E. injection E as <-.
      split; [| intros Hno; contradiction].
      intros _. split; [reflexivity |].
      split; [intros p Hin | intros b Hin]; in_cases Hin.
    + destruct (Filter_failure o sys mem src dest pf1 pf2 pf3 mem1 d1 pp1
                  Hpool H1 H2 H3 Hno)
        as (sys' & mem' & ev_steps & pipeline_buf & Hrun & _ & _
            & Hrel & Hdes & Hcre & Huninit).
      eexists _, _, _, _. split; [exact Hrun |].
      split; [discriminate |].
      intros dest0 E. injection E as <-.
      split; [intros Hok; contradiction |].
      intros _. split; [reflexivity |].
      exists ev_steps, pipeline_buf.
      split; [unfold Filter_error; destruct (pipeline_buf =? VA_INVALID_ID)%N;
              reflexivity |].
      split; [exact Hrel |]. split; [exact Hdes |].
      split; [exact Hcre | exact Huninit].
  - eexists _, _, _, _. unfold Filter. rewrite Hpool.
    split; [reflexivity |].
    split; [intros _; repeat split; reflexivity | discriminate].
Qed.

(** Frames of the adjust filter, with its callback, in the session opened on
    the three-entry report: one on which rendering fails, after the pipeline
    buffer 77 was created, and one on which the pool has no free picture. *)
Lemma Filter_all_or_nothing_witness :
  exists d m sys' m' ev_steps,
    adjust_reachable d m
    /\ Filter example_oracle_render_fails
         (mk_filter_sys example_va (Some 6%N) false d) m
         (Some (example_frame 1%N true))
         (Some (fun d m => x <- Adjust_UpdateVAFilterParams d m ;; Ret (fst x)))
         None None
       = Ret (None, sys', m',
              ev_steps
              ++ [E_vlc_vaapi_DestroyBuffer 77%N;
                  E_picture_Release
                    (picture_CopyProperties (example_frame 10%N true)
                                            (example_frame 1%N true))])
    /\ In (E_vlc_vaapi_CreateBuffer 4%N 77%N) ev_steps
    /\ (forall b, ~ In (E_vlc_vaapi_DestroyBuffer b) ev_steps)
    /\ Filter example_oracle_pool_empty
         (mk_filter_sys example_va (Some 6%N) false d) m
         (Some (example_frame 1%N true))
         (Some (fun d m => x <- Adjust_UpdateVAFilterParams d m ;; Ret (fst x)))
         None None
       = Ret (None, mk_filter_sys example_va (Some 6%N) false d, m,
              [E_picture_pool_Wait (Some 6%N) None]).
Proof.
  eassert (Hopen : OpenAdjust_InitFilterParams example_env_three_caps
                     adjust_data_calloc
                   = Ret (VLC_SUCCESS, _, Some _, _, _))
    by (vm_compute; reflexivity).
  pose proof (adjust_reach_open _ _ _ _ _ Hopen) as Hreach.
  match type of Hreach with
  | adjust_reachable ?d0 ?m0 =>
      pose (sys := mk_filter_sys example_va (Some 6%N) false d0);
      pose (pf := fun (d : adjust_data)
                      (m : list VAProcFilterParameterBufferColorBalance) =>
                    x <- Adjust_UpdateVAFilterParams d m ;; Ret (fst x));
      eassert (H1 : call_opt (option_map (fun f => f (p_data sys)) (Some pf)) m0
                    = Ret _) by (vm_compute; reflexivity);
      eassert (Hc : Filter example_oracle_render_fails sys m0
                      (Some (example_frame 1%N true)) (Some pf) None None
                    = Ret (_, _, _, _)) by (vm_compute; reflexivity);
      destruct (Filter_all_or_nothing example_oracle_render_fails sys m0
                  (example_frame 1%N true) (Some pf) None None _ _ _
                  H1 eq_refl eq_refl)
        as (out & sys' & m' & ev & Hrun & _ & Hsome);
      destruct (Filter_all_or_nothing example_oracle_pool_empty
                  sys m0 (example_frame 1%N true) (Some pf) None None _ _ _
                  H1 eq_refl eq_refl)
        as (out0 & sys0 & m1 & ev0 & Hrun0 & Hnone & _)
  end.
  destruct (Hnone eq_refl) as (-> & -> & -> & ->).
  destruct (Hsome (example_frame 10%N true) eq_refl) as [_ Hfail].
  destruct Hfail as (-> & ev_steps & pipeline_buf & -> & _ & Hdes & Hcre & _).
  { unfold filter_oracle_ok. cbn. intros (_ & _ & _ & _ & _ & _ & C & _).
    discriminate C. }
  assert (Hin : In (E_vlc_vaapi_CreateBuffer 4%N 77%N) ev_steps).
  { pose proof (eq_trans (eq_sym Hc) Hrun) as Heq.
    injection Heq as _ _ Hev.
    assert (Hall : In (E_vlc_vaapi_CreateBuffer 4%N 77%N)
                     (ev_steps
                      ++ (if (pipeline_buf =? VA_INVALID_ID)%N then []
                          else [E_vlc_vaapi_DestroyBuffer pipeline_buf])
                      ++ [E_picture_Release
                            (picture_CopyProperties (example_frame 10%N true)
                                                    (example_frame 1%N true))]))
      by (rewrite <- Hev; cbn; auto 12).
    apply in_app_or in Hall. destruct Hall as [Hall | Hall]; [exact Hall |].
    exfalso. destruct (pipeline_buf =? VA_INVALID_ID)%N; cbn in Hall;
      intuition discriminate. }
  pose proof (Hcre _ _ Hin) as Hpb. subst pipeline_buf.
  eexists _, _, sys', m', ev_steps.
  split; [exact Hreach |].
  split; [exact Hrun |]. split; [exact Hin |]. split; [exact Hdes | exact Hrun0].
Defined.

(** ** Opening a session *)

(** C3 fails on the code: when the instance and the output pool have been
    obtained and the configuration cannot be created, [Open] returns
    [VLC_EGENERIC] after releasing the instance and freeing [filter_sys]; the
    pool is never released, unlike in [Close].  [filter->p_sys] is left
    pointing to the freed block, whose [dest_pics] field held the only
    reference to the pool. *)
Theorem Open_leaks_pool_on_failure :
  exists filter_sys ev,
    Open example_open_config_fails example_format example_format
      VAProcFilterColorBalance adjust_data_calloc
      (OpenAdjust_InitFilterParams example_env_three_caps) None
    = Ret (VLC_EGENERIC, Some filter_sys, adjust_data_calloc, None, ev)
    /\ dest_pics filter_sys = Some 6%N
    /\ ev = [ E_calloc Blk_filter_sys true;
              E_vlc_vaapi_FilterHoldInstance (Some 1%N);
              E_vlc_vaapi_PoolNew (Some 6%N);
              E_vlc_vaapi_CreateConfigChecked VA_INVALID_ID;
              E_vlc_vaapi_ReleaseInstance 1%N;
              E_free Blk_filter_sys ]
    /\ In (E_vlc_vaapi_PoolNew (Some 6%N)) ev
    /\ ~ In (E_picture_pool_Release 6%N) ev.
Proof.
  eexists _, _. split; [vm_compute; reflexivity |].
  split; [reflexivity |].
  split; [reflexivity |].
  split; [cbn; tauto |].
  cbn. intros [C | [C | [C | [C | [C | [C | []]]]]]]; discriminate C.
Qed.

Local Open Scope list_scope.

(** ** Machine arithmetic without wrap-around *)

Lemma u32_small (n : N) : (n < 2 ^ 32)%N -> u32 n = n.
Proof. intros H. unfold u32. apply N.mod_small. exact H. Qed.

Lemma u32_sub_small (a b : N) : (b <= a)%N -> (a < 2 ^ 32)%N -> u32_sub a b = (a - b)%N.
Proof.
  intros Hle Hlt. unfold u32_sub.
  rewrite (N.mod_small b) by lia.
  replace (a + 2 ^ 32 - b)%N with (a - b + 1 * 2 ^ 32)%N by lia.
  rewrite N.Div0.mod_add. apply N.mod_small. lia.
Qed.

(** ** Deinterlace: the history window *)

Lemma window_of_length (sz : nat) (frames : list picture_t) :
  length (window_of sz frames) = sz.
Proof.
  unfold window_of. rewrite length_app, length_map, length_drop, length_replicate. lia.
Qed.

Lemma window_of_filling (sz : nat) (frames : list picture_t) :
  (length frames <= sz)%nat ->
  window_of sz frames = map Some frames ++ replicate (sz - length frames) None.
Proof.
  intros H. unfold window_of. replace (length frames - sz)%nat with 0%nat by lia.
  reflexivity.
Qed.

Lemma window_of_full (sz : nat) (frames : list picture_t) :
  (sz <= length frames)%nat ->
  window_of sz frames = map Some (drop (length frames - sz) frames).
Proof.
  intros H. unfold window_of. replace (sz - length frames)%nat with 0%nat by lia.
  cbn. apply app_nil_r.
Qed.

Lemma window_of_lookup_full (sz : nat) (frames : list picture_t) (i : nat) :
  (sz <= length frames)%nat -> (i < sz)%nat ->
  exists p, drop (length frames - sz) frames !! i = Some p
            /\ window_of sz frames !! i = Some (Some p).
Proof.
  intros Hsz Hi. rewrite window_of_full by exact Hsz.
  destruct (lookup_lt_is_Some_2 (drop (length frames - sz) frames) i) as [p Hp].
  { rewrite length_drop. lia. }
  exists p. split; [exact Hp |]. rewrite list_lookup_fmap, Hp. reflexivity.
Qed.

Lemma window_of_nil (sz : nat) : window_of sz [] = replicate sz None.
Proof. unfold window_of. cbn. rewrite Nat.sub_0_r. reflexivity. Qed.

Lemma InitHistory_inv (env : deint_open_env) (caps : VAProcPipelineCaps)
    (d0 : deint_data) (ev0 : list event) :
  let b := caps_num_backward_references caps in
  let f := caps_num_forward_references caps in
  (b + 1 + f < 2 ^ 32)%N ->
  OpenDeinterlace_InitHistory env deint_data_calloc caps
    = Ret (VLC_SUCCESS, d0, ev0) ->
  deint_inv b f [] d0.
Proof.
  intros b f Hsz. unfold OpenDeinterlace_InitHistory.
  fold b. fold f.
  rewrite (u32_small (b + 1)) by lia. rewrite (u32_small (b + 1 + f)) by lia.
  rewrite (u32_sub_small (b + 1 + f) 1) by lia.
  replace (b + 1 + f - 1)%N with (b + f)%N by lia.
  destruct (calloc_pp_pics_ok env); cbn [negb]; [| discriminate].
  destruct (N.eqb_spec (b + f) 0) as [E0 | E0]; cbn [negb].
  - intros H. injection H as <- _. unfold deint_inv.
    rewrite window_of_nil. cbn. repeat split. exact E0.
  - destruct (malloc_surfaces env) as [junk |]; [| discriminate].
    intros H. injection H as <- _. unfold deint_inv.
    rewrite window_of_nil. cbn. repeat split.
    rewrite length_map, length_seq. reflexivity.
Qed.

Lemma tab_get_lookup {A : Type} (t : list A) (i : N) (x : A) :
  t !! N.to_nat i = Some x -> tab_get t i = Ret x.
Proof. intros H. unfold tab_get. rewrite H. reflexivity. Qed.

Lemma tab_set_insert {A : Type} (t : list A) (i : N) (x : A) :
  (N.to_nat i < length t)%nat -> tab_set t i x = Ret (<[N.to_nat i := x]> t).
Proof.
  intros H. unfold tab_set. apply Nat.ltb_lt in H. rewrite H. reflexivity.
Qed.

(** [memmove(t, t + 1, n)] on an array of [n + 1] elements drops the first
    and leaves the last one duplicated in the last slot. *)
Lemma memmove_down_one {A : Type} (x : A) (l : list A) (n : N) :
  N.to_nat n = length l ->
  memmove (x :: l) 0 1 n = Ret (l ++ drop (length l) (x :: l)).
Proof.
  intros Hn. unfold memmove. rewrite Hn.
  change (N.to_nat 1) with 1%nat. change (N.to_nat 0) with 0%nat.
  cbn [length Nat.add].
  assert (E1 : (S (length l) <=? S (length l))%nat = true) by (apply Nat.leb_le; lia).
  assert (E2 : (length l <=? S (length l))%nat = true) by (apply Nat.leb_le; lia).
  rewrite E1, E2. cbn [andb take app].
  change (drop 1 (x :: l)) with l. rewrite take_ge by lia. reflexivity.
Qed.

Lemma insert_last_slot {A : Type} (l rest : list A) (v : A) :
  length rest = 1%nat -> <[length l := v]> (l ++ rest) = l ++ [v].
Proof.
  intros H. destruct rest as [| z [| ? ?]]; try discriminate H.
  rewrite insert_app_r_alt by lia. rewrite Nat.sub_diag. reflexivity.
Qed.

(** ** Deinterlace: the reference arrays *)

(** A loop whose [i]-th iteration stores [v i] at [off + i]. *)
Lemma refs_loop (step : N -> option (list VASurfaceID)
                        -> res (flow (option (list VASurfaceID)) Empty_set))
    (off cnt : nat) (v : nat -> VASurfaceID) (blk0 : list VASurfaceID) :
  (off + cnt <= length blk0)%nat ->
  (forall i l, (i < cnt)%nat -> length l = length blk0 ->
     step (N.of_nat i) (Some l) = Ret (Next (Some (<[(off + i)%nat := v i]> l)))) ->
  exists blk1,
    for_range 0 cnt step (Some blk0) = Ret (Next (Some blk1))
    /\ length blk1 = length blk0
    /\ (forall i, (i < cnt)%nat -> blk1 !! (off + i)%nat = Some (v i))
    /\ (forall j, (j < off \/ off + cnt <= j)%nat -> blk1 !! j = blk0 !! j).
Proof.
  intros Hroom Hstep.
  destruct (for_range_total
              (fun k s => exists l, s = Some l /\ length l = length blk0
                 /\ (forall i, (i < N.to_nat k)%nat -> (i < cnt)%nat ->
                                l !! (off + i)%nat = Some (v i))
                 /\ (forall j, (j < off \/ off + cnt <= j)%nat ->
                                l !! j = blk0 !! j))
              step cnt 0%N (Some blk0)) as (r & Hrun & l & -> & Hlen & Hin & Hout).
  - exists blk0. split; [reflexivity |]. split; [reflexivity |].
    split; [intros i Hi; lia | intros; reflexivity].
  - intros k s Hk (l & -> & Hlen & Hin & Hout).
    exists (Some (<[(off + N.to_nat k)%nat := v (N.to_nat k)]> l)). split.
    + rewrite <- (N2Nat.id k) at 1. apply Hstep; [lia | exact Hlen].
    + eexists. split; [reflexivity |]. rewrite length_insert.
      split; [exact Hlen |]. split.
      * intros i Hi Hc. destruct (decide (i = N.to_nat k)) as [-> | Hne].
        -- apply list_lookup_insert_eq. lia.
        -- rewrite list_lookup_insert_ne by lia. apply Hin; lia.
      * intros j Hj. rewrite list_lookup_insert_ne by lia. apply Hout. exact Hj.
  - exists l. split; [exact Hrun |]. split; [exact Hlen |].
    split; [| exact Hout]. intros i Hi. apply Hin; lia.
Qed.

Lemma fill_refs_some (step : N -> option (list VASurfaceID)
                             -> res (flow (option (list VASurfaceID)) Empty_set))
    (off : nat) (cnt : N) (v : nat -> VASurfaceID) (blk0 : list VASurfaceID) :
  (off + N.to_nat cnt <= length blk0)%nat ->
  (forall i l, (i < N.to_nat cnt)%nat -> length l = length blk0 ->
     step (N.of_nat i) (Some l) = Ret (Next (Some (<[(off + i)%nat := v i]> l)))) ->
  exists blk1,
    Deinterlace_fill_refs cnt step (Some blk0) = Ret (Some blk1)
    /\ length blk1 = length blk0
    /\ (forall i, (i < N.to_nat cnt)%nat -> blk1 !! (off + i)%nat = Some (v i))
    /\ (forall j, (j < off \/ off + N.to_nat cnt <= j)%nat -> blk1 !! j = blk0 !! j).
Proof.
  intros Hroom Hstep. unfold Deinterlace_fill_refs.
  destruct (N.eqb_spec cnt 0) as [-> | Hne]; cbn [negb].
  - exists blk0. split; [reflexivity |]. split; [reflexivity |].
    split; [intros i Hi; cbn in Hi; lia | intros; reflexivity].
  - destruct (refs_loop step off (N.to_nat cnt) v blk0 Hroom Hstep)
      as (blk1 & Hrun & Hrest).
    exists blk1. rewrite Hrun. split; [reflexivity | exact Hrest].
Qed.


(** ** Deinterlace: one call of the filter entry point *)

Lemma all_lookups_length {A : Type} (l : list A) (k : nat) (v : nat -> A) :
  (forall i, (i < k)%nat -> l !! i = Some (v i)) -> (k <= length l)%nat.
Proof.
  intros H. destruct k as [| k]; [lia |].
  assert (Hk : l !! k = Some (v k)) by (apply H; lia).
  apply lookup_lt_Some in Hk. lia.
Qed.

Lemma ref_array_spec (ptr : list VASurfaceID) (k : N) (v : nat -> VASurfaceID) :
  (forall i, (i < N.to_nat k)%nat -> ptr !! i = Some (v i)) ->
  length (ref_array ptr k) = N.to_nat k
  /\ forall i, (i < N.to_nat k)%nat -> ref_array ptr k !! i = Some (v i).
Proof.
  intros H. unfold ref_array. split.
  - rewrite length_take. pose proof (all_lookups_length ptr _ v H). lia.
  - intros i Hi. rewrite lookup_take_lt by exact Hi. apply H. exact Hi.
Qed.

(** ** Deinterlace: a session of given capacities *)

Section DeinterlaceSession.

(** The numbers of backward and forward references the driver asked for;
    their sum with the current frame fits an [unsigned int]. *)
Variables b f : N.
Hypothesis Hsz : (b + 1 + f < 2 ^ 32)%N.

Lemma UpdateHistory_step (frames : list picture_t) (d : deint_data)
    (src : picture_t) :
  deint_inv b f frames d ->
  let sz := N.to_nat (b + 1 + f) in
  let n := length frames in
  exists cur d' ev,
    Deinterlace_UpdateHistory d src = Ret (cur, d', ev)
    /\ deint_inv b f (frames ++ [src]) d'
    /\ ref_block d' = ref_block d
    /\ window_of sz (frames ++ [src]) !! N.to_nat f = Some cur
    /\ ((n < sz)%nat -> ev = [])
    /\ ((sz <= n)%nat ->
        exists oldest, frames !! (n - sz)%nat = Some oldest
                       /\ ev = [E_picture_Release oldest]).
Proof.
  intros (Hh & Hf & Hb & Hblk) sz n.
  destruct d as [h blk br fr]. cbn [history forward_refs backward_refs ref_block] in *.
  subst h fr br.
  assert (Hcur : exists cur,
             window_of sz (frames ++ [src]) !! N.to_nat f = Some cur).
  { apply lookup_lt_is_Some_2. rewrite window_of_length. unfold sz. lia. }
  destruct Hcur as [cur Hcur].
  unfold Deinterlace_UpdateHistory.
  cbn [history pp_pics pp_cur_pic num_pics history_sz deref bind
       ref_block backward_refs forward_refs].
  fold sz. fold n.
  destruct (le_lt_dec sz n) as [Hfull | Hfill].
  - (* the window is full *)
    replace (min n sz) with sz by lia.
    assert (Hszz : N.of_nat sz = (b + 1 + f)%N) by (unfold sz; lia).
    rewrite !Hszz, N.eqb_refl.
    rewrite window_of_full by exact Hfull. fold n.
    destruct (drop (n - sz) frames) as [| p0 w'] eqn:Ew.
    { exfalso. apply (f_equal length) in Ew. rewrite length_drop in Ew.
      cbn in Ew. unfold sz in *. lia. }
    assert (Hw' : length w' = N.to_nat (b + f)).
    { apply (f_equal length) in Ew. rewrite length_drop in Ew. cbn in Ew.
      unfold sz, n in *. lia. }
    cbn [map]. rewrite (tab_get_lookup _ 0 (Some p0)) by reflexivity.
    cbn [bind deref].
    rewrite (u32_sub_small (b + 1 + f) 1) by lia.
    replace (b + 1 + f - 1)%N with (b + f)%N by lia.
    rewrite memmove_down_one by (rewrite length_map; lia).
    cbn [bind]. rewrite length_map.
    rewrite tab_set_insert.
    2: { rewrite length_app, length_map, length_drop. cbn [length]. rewrite length_map. lia. }
    rewrite <- Hw', <- (length_map Some w').
    rewrite insert_last_slot.
    2: { rewrite length_drop. cbn [length]. rewrite !length_map. lia. }
    cbn [bind].
    assert (Hwin : window_of sz (frames ++ [src]) = map Some w' ++ [Some src]).
    { rewrite window_of_full by (rewrite length_app; cbn; lia).
      rewrite length_app. cbn [length]. fold n.
      rewrite drop_app_le by (fold n; lia).
      replace (n + 1 - sz)%nat with ((n - sz) + 1)%nat by lia.
      rewrite <- drop_drop. fold n. rewrite Ew. cbn [drop].
      rewrite map_app. reflexivity. }
    rewrite <- Hwin. erewrite tab_get_lookup by exact Hcur. cbn [bind].
    eexists _, _, _. split; [reflexivity |].
    split.
    { unfold deint_inv. cbn [history forward_refs backward_refs ref_block].
      fold sz. split; [| tauto].
      f_equal. rewrite length_app. cbn [length]. fold n.
      rewrite u32_small by lia. unfold sz. lia. }
    split; [reflexivity |]. split; [exact Hcur |].
    split; [lia |]. intros _. exists p0. split; [| reflexivity].
    rewrite <- (Nat.add_0_r (n - sz)), <- lookup_drop. fold n. rewrite Ew. reflexivity.
  - (* the window is filling *)
    replace (min n sz) with n by lia.
    destruct (N.eqb_spec (N.of_nat n) (b + 1 + f)) as [E | _];
      [exfalso; unfold sz in Hfill; lia |].
    cbn [bind]. rewrite window_of_filling by (fold n; lia). fold n.
    rewrite tab_set_insert.
    2: { rewrite Nat2N.id, length_app, length_map, length_replicate. fold n. lia. }
    rewrite Nat2N.id.
    assert (Hwin : window_of sz (frames ++ [src])
                   = <[n := Some src]> (map Some frames ++ replicate (sz - n) None)).
    { rewrite window_of_filling by (rewrite length_app; cbn; fold n; lia).
      rewrite length_app. cbn [length]. fold n.
      rewrite insert_app_r_alt by (rewrite length_map; fold n; lia).
      rewrite length_map. fold n. rewrite Nat.sub_diag.
      replace (sz - n)%nat with (S (sz - (n + 1))) by lia.
      rewrite map_app, <- app_assoc. reflexivity. }
    rewrite <- Hwin. cbn [bind]. erewrite tab_get_lookup by exact Hcur. cbn [bind].
    eexists _, _, _. split; [reflexivity |].
    split.
    { unfold deint_inv. cbn [history forward_refs backward_refs ref_block].
      fold sz. split; [| tauto].
      f_equal. rewrite length_app. cbn [length]. fold n.
      rewrite u32_small by (unfold sz in Hfill; lia). lia. }
    split; [reflexivity |]. split; [exact Hcur |].
    split; [reflexivity | lia].
Qed.

Lemma backward_step_full (frames : list picture_t) (d : deint_data)
    (i : nat) (l : list VASurfaceID) :
  deint_inv b f frames d ->
  let sz := N.to_nat (b + 1 + f) in
  (sz <= length frames)%nat ->
  (i < N.to_nat b)%nat -> length l = N.to_nat (b + f) ->
  Deinterlace_backward_step d (N.of_nat i) (Some l)
  = Ret (Next (Some (<[(N.to_nat f + i)%nat :=
                        slot_surface (drop (length frames - sz) frames)
                                     (N.to_nat f + 1 + i)]> l))).
Proof.
  intros (Hh & Hf & Hb & _) sz Hfull Hi Hl.
  unfold Deinterlace_backward_step. rewrite Hh, Hf, Hb.
  cbn [pp_pics refs_sz refs_surfaces deref bind].
  rewrite (u32_small (f + 1)) by lia. rewrite u32_small by lia.
  destruct (window_of_lookup_full sz frames (N.to_nat f + 1 + i) Hfull)
    as (p & Hp & Hwp); [unfold sz; lia |].
  rewrite (tab_get_lookup _ _ (Some p))
    by (replace (N.to_nat (f + 1 + N.of_nat i)) with (N.to_nat f + 1 + i)%nat by lia;
        exact Hwp).
  cbn [bind deref]. rewrite tab_set_insert by lia. cbn [bind].
  replace (N.to_nat (f + N.of_nat i)) with (N.to_nat f + i)%nat by lia.
  unfold slot_surface. rewrite Hp. reflexivity.
Qed.

Lemma forward_step_full (frames : list picture_t) (d : deint_data)
    (i : nat) (l : list VASurfaceID) :
  deint_inv b f frames d ->
  let sz := N.to_nat (b + 1 + f) in
  (sz <= length frames)%nat ->
  (i < N.to_nat f)%nat -> length l = N.to_nat (b + f) ->
  Deinterlace_forward_step d (N.of_nat i) (Some l)
  = Ret (Next (Some (<[(0 + i)%nat :=
                        slot_surface (drop (length frames - sz) frames)
                                     (N.to_nat f - 1 - i)]> l))).
Proof.
  intros (Hh & Hf & Hb & _) sz Hfull Hi Hl.
  unfold Deinterlace_forward_step. rewrite Hh, Hf.
  cbn [pp_pics refs_sz refs_surfaces deref bind].
  rewrite (u32_sub_small f 1) by lia. rewrite u32_sub_small by lia.
  destruct (window_of_lookup_full sz frames (N.to_nat f - 1 - i) Hfull)
    as (p & Hp & Hwp); [unfold sz; lia |].
  rewrite (tab_get_lookup _ _ (Some p))
    by (replace (N.to_nat (f - 1 - N.of_nat i)) with (N.to_nat f - 1 - i)%nat by lia;
        exact Hwp).
  cbn [bind deref]. rewrite tab_set_insert by lia. cbn [bind].
  replace (N.to_nat (0 + N.of_nat i)) with (0 + i)%nat by lia.
  unfold slot_surface. rewrite Hp. reflexivity.
Qed.

Lemma UpdateReferenceFrames_full (frames : list picture_t)
    (d : deint_data) :
  deint_inv b f frames d ->
  let sz := N.to_nat (b + 1 + f) in
  let w := drop (length frames - sz) frames in
  (sz <= length frames)%nat ->
  exists d',
    Deinterlace_UpdateReferenceFrames d = Ret d'
    /\ history d' = history d
    /\ deint_inv b f frames d'
    /\ (forall i, (i < N.to_nat f)%nat ->
          ptr_view (ref_block d') (refs_surfaces (forward_refs d')) !! i
          = Some (slot_surface w (N.to_nat f - 1 - i)))
    /\ (forall i, (i < N.to_nat b)%nat ->
          ptr_view (ref_block d') (refs_surfaces (backward_refs d')) !! i
          = Some (slot_surface w (N.to_nat f + 1 + i))).
Proof.
  intros Hinv sz w Hfull.
  pose proof Hinv as (Hh & Hf & Hb & Hblk).
  unfold Deinterlace_UpdateReferenceFrames. rewrite Hf, Hb. cbn [refs_sz].
  destruct (ref_block d) as [blk0 |] eqn:Eblk.
  - destruct (fill_refs_some (Deinterlace_backward_step d) (N.to_nat f) b
                (fun i => slot_surface w (N.to_nat f + 1 + i)) blk0)
      as (blk1 & Hrun1 & Hlen1 & Hin1 & Hout1); [lia | |].
    { intros i l Hi Hl.
      apply (backward_step_full frames d i l Hinv Hfull Hi). lia. }
    rewrite Hrun1. cbn [bind].
    destruct (fill_refs_some (Deinterlace_forward_step d) 0 f
                (fun i => slot_surface w (N.to_nat f - 1 - i)) blk1)
      as (blk2 & Hrun2 & Hlen2 & Hin2 & Hout2); [lia | |].
    { intros i l Hi Hl.
      apply (forward_step_full frames d i l Hinv Hfull Hi). lia. }
    rewrite Hrun2. cbn [bind].
    eexists. split; [reflexivity |]. split; [reflexivity |].
    split.
    { unfold deint_inv. cbn [history forward_refs backward_refs ref_block].
      rewrite Hh. repeat split. lia. }
    cbn [ref_block forward_refs backward_refs refs_surfaces ptr_view].
    split.
    + intros i Hi. change (N.to_nat 0) with 0%nat. cbn [drop].
      apply (Hin2 i Hi).
    + intros i Hi. rewrite lookup_drop. rewrite Hout2 by lia. apply Hin1. exact Hi.
  - assert (b = 0%N /\ f = 0%N) as [-> ->] by lia.
    cbn. eexists. split; [reflexivity |]. split; [reflexivity |].
    split.
    { unfold deint_inv. cbn [history forward_refs backward_refs ref_block].
      rewrite Hh. repeat split. }
    split; intros i Hi; cbn in Hi; lia.
Qed.

Lemma UpdatePipelineParams_full (frames : list picture_t)
    (d : deint_data) (pp : VAProcPipelineParameterBuffer) :
  deint_inv b f frames d ->
  let sz := N.to_nat (b + 1 + f) in
  let w := drop (length frames - sz) frames in
  (sz <= length frames)%nat ->
  exists cur,
    w !! N.to_nat f = Some cur
    /\ Deinterlace_UpdatePipelineParams d pp
       = Ret (mk_pipeline_params
                (pp_surface pp) (pp_filters pp) (pp_num_filters pp)
                (pp_pipeline_flags pp)
                (if b_top_field_first cur then 0%N
                 else VA_DEINTERLACING_BOTTOM_FIELD_FIRST)
                (ptr_view (ref_block d) (refs_surfaces (forward_refs d))) f
                (ptr_view (ref_block d) (refs_surfaces (backward_refs d))) b).
Proof.
  intros (Hh & Hf & Hb & _) sz w Hfull.
  destruct (window_of_lookup_full sz frames (N.to_nat f) Hfull)
    as (cur & Hcur & Hwcur); [unfold sz; lia |].
  exists cur. split; [exact Hcur |].
  unfold Deinterlace_UpdatePipelineParams. rewrite Hh, Hf, Hb.
  cbn [pp_pics pp_cur_pic deref bind refs_sz refs_surfaces].
  erewrite tab_get_lookup by exact Hwcur. reflexivity.
Qed.

Lemma Deinterlace_step {P : Type} (frames : list picture_t)
    (o : filter_oracle) (sys : filter_sys_t deint_data) (mem : P)
    (src : picture_t) :
  deint_inv b f frames (p_data sys) ->
  let sz := N.to_nat (b + 1 + f) in
  let n := length frames in
  let w := drop (n + 1 - sz) (frames ++ [src]) in
  exists out sys' ev_h ev_f cur0 d1,
    Deinterlace o sys mem src = Ret (out, sys', mem, ev_h ++ ev_f)
    /\ Deinterlace_UpdateHistory (p_data sys) src = Ret (cur0, d1, ev_h)
    /\ deint_inv b f (frames ++ [src]) d1
    /\ deint_inv b f (frames ++ [src]) (p_data sys')
    /\ va sys' = va sys
    /\ ((n < sz)%nat -> ev_h = [])
    /\ ((sz <= n)%nat ->
        exists oldest, frames !! (n - sz)%nat = Some oldest
                       /\ ev_h = [E_picture_Release oldest])
    /\ ((n + 1 < sz)%nat -> out = None /\ ev_f = [])
    /\ ((sz <= n + 1)%nat ->
        exists cur,
          w !! N.to_nat f = Some cur
          /\ (forall dest, o_picture_pool_Wait o = Some dest ->
                filter_oracle_ok o ->
                out = Some (set_b_progressive (picture_CopyProperties dest cur))
                /\ exists pp,
                     In (E_vlc_vaapi_RenderPicture (ctx (va sys))
                           (o_CreateBuffer_pipeline o) pp 0%Z) ev_f)
          /\ (forall p, out = Some p -> b_progressive p = true)
          /\ (forall c pb pp r,
                In (E_vlc_vaapi_RenderPicture c pb pp r) ev_f ->
                pp_surface pp = vlc_vaapi_PicGetSurface cur
                /\ pp_filter_flags pp
                   = (if b_top_field_first cur then 0%N
                      else VA_DEINTERLACING_BOTTOM_FIELD_FIRST)
                /\ pp_num_forward_references pp = f
                /\ pp_num_backward_references pp = b
                /\ (forall i, (i < N.to_nat f)%nat ->
                      pp_forward_references pp !! i
                      = Some (slot_surface w (N.to_nat f - 1 - i)))
                /\ (forall i, (i < N.to_nat b)%nat ->
                      pp_backward_references pp !! i
                      = Some (slot_surface w (N.to_nat f + 1 + i))))).
Proof.
  intros Hinv sz n w.
  destruct (UpdateHistory_step frames (p_data sys) src Hinv)
    as (cur0 & d1 & ev_h & Hup & Hinv1 & _ & Hcur0 & Hfill & Hfull).
  fold sz in Hcur0, Hfill, Hfull. fold n in Hfill, Hfull.
  assert (Hlen' : length (frames ++ [src]) = (n + 1)%nat)
    by (rewrite length_app; reflexivity).
  unfold Deinterlace. rewrite Hup. cbn [bind].
  pose proof Hinv1 as (Hh1 & _). rewrite Hh1. cbn [num_pics history_sz].
  rewrite Hlen'. fold sz.
  destruct (N.ltb_spec (N.of_nat (min (n + 1) sz)) (b + 1 + f)) as [Hlt | Hge].
  - (* Filling *)
    assert (Hn : (n + 1 < sz)%nat) by (unfold sz; lia).
    exists None, (set_p_data sys d1), ev_h, [], cur0, d1.
    rewrite app_nil_r.
    split; [reflexivity |]. split; [reflexivity |]. split; [exact Hinv1 |].
    split; [exact Hinv1 |]. split; [reflexivity |].
    split; [exact Hfill |]. split; [exact Hfull |].
    split; [intros _; split; reflexivity | lia].
  - (* Steady *)
    assert (Hn : (sz <= n + 1)%nat) by (unfold sz in *; lia).
    destruct (window_of_lookup_full sz (frames ++ [src]) (N.to_nat f))
      as (cur & Hcur & Hwcur); [lia | unfold sz; lia |].
    rewrite Hlen' in Hcur. fold w in Hcur.
    rewrite Hwcur in Hcur0. injection Hcur0 as <-.
    destruct (o_picture_pool_Wait o) as [dest |] eqn:Hpool.
    + destruct (UpdateReferenceFrames_full (frames ++ [src]) d1 Hinv1)
        as (d2 & Hurf & Hh2 & Hinv2 & Hfwd & Hbwd); [fold sz; lia |].
      rewrite Hlen' in Hfwd, Hbwd. fold sz in Hfwd, Hbwd. fold w in Hfwd, Hbwd.
      destruct (UpdatePipelineParams_full (frames ++ [src]) d2
                  (Filter_pipeline_params
                     (set_p_data (set_p_data sys d1) d2) cur) Hinv2)
        as (cur' & Hcur' & Hupp); [fold sz; lia |].
      rewrite Hlen' in Hcur'. fold sz in Hcur'. fold w in Hcur'.
      rewrite Hcur in Hcur'. injection Hcur' as <-.
      destruct (Filter_outcome o (set_p_data sys d1) mem cur dest None
                  (Some Deinterlace_UpdateReferenceFrames)
                  (Some Deinterlace_UpdatePipelineParams)
                  mem d2 _ Hpool eq_refl Hurf Hupp)
        as (out & sys' & mem' & ev_f & Hrun & Hsys' & Hmem' & Hok & _ & Hrender).
      assert (mem' = mem) as -> by (destruct Hmem'; assumption).
      rewrite Hrun. cbn [bind].
      exists (option_map set_b_progressive out), sys', ev_h, ev_f, (Some cur), d1.
      split; [reflexivity |]. split; [reflexivity |]. split; [exact Hinv1 |].
      split; [destruct Hsys' as [-> | ->]; assumption |].
      split; [destruct Hsys' as [-> | ->]; reflexivity |].
      split; [exact Hfill |]. split; [exact Hfull |].
      split; [lia |]. intros _. exists cur. split; [exact Hcur |].
      split.
      { intros dest0 E Hyes. injection E as <-.
        destruct (Hok Hyes) as (-> & _ & Hin).
        split; [reflexivity |]. eexists. exact Hin. }
      split.
      { intros p E. destruct out as [q |]; [| discriminate E].
        injection E as <-. reflexivity. }
      intros c pb pp r Hin. destruct (Hrender c pb pp r Hin) as [-> _].
      cbn [pp_surface pp_filter_flags pp_num_forward_references
           pp_num_backward_references pp_forward_references
           pp_backward_references Filter_pipeline_params].
      repeat split; assumption.
    + unfold Filter. rewrite Hpool. cbn [bind option_map].
      exists None, (set_p_data sys d1), ev_h,
        [E_picture_pool_Wait (dest_pics (set_p_data sys d1)) None],
        (Some cur), d1.
      split; [reflexivity |]. split; [reflexivity |]. split; [exact Hinv1 |].
      split; [exact Hinv1 |]. split; [reflexivity |].
      split; [exact Hfill |]. split; [exact Hfull |].
      split; [lia |]. intros _. exists cur. split; [exact Hcur |].
      split; [intros dest E; discriminate E |].
      split; [intros p E; discriminate E |].
      intros c pb pp r Hin. destruct Hin as [Hin | []]. discriminate Hin.
Qed.

End DeinterlaceSession.

Lemma window_of_slide (sz : nat) (frames : list picture_t) (src : picture_t) :
  (0 < sz)%nat -> (sz <= length frames)%nat ->
  exists oldest rest,
    frames !! (length frames - sz)%nat = Some oldest
    /\ window_of sz frames = Some oldest :: rest
    /\ window_of sz (frames ++ [src]) = rest ++ [Some src].
Proof.
  intros Hpos Hfull.
  destruct (drop (length frames - sz) frames) as [| p0 w'] eqn:Ew.
  { exfalso. apply (f_equal length) in Ew. rewrite length_drop in Ew. cbn in Ew. lia. }
  exists p0, (map Some w').
  split.
  { rewrite <- (Nat.add_0_r (length frames - sz)), <- lookup_drop, Ew. reflexivity. }
  split.
  { rewrite window_of_full by exact Hfull. rewrite Ew. reflexivity. }
  rewrite window_of_full by (rewrite length_app; cbn; lia).
  rewrite length_app. cbn [length].
  rewrite drop_app_le by lia.
  replace (length frames + 1 - sz)%nat with ((length frames - sz) + 1)%nat by lia.
  rewrite <- drop_drop, Ew. cbn [drop]. rewrite map_app. reflexivity.
Qed.

Lemma deint_reachable_inv (env : deint_open_env) (caps : VAProcPipelineCaps)
    (d0 : deint_data) (ev0 : list event) (frames : list picture_t)
    (d : deint_data) :
  let b := caps_num_backward_references caps in
  let f := caps_num_forward_references caps in
  (b + 1 + f < 2 ^ 32)%N ->
  OpenDeinterlace_InitHistory env deint_data_calloc caps
    = Ret (VLC_SUCCESS, d0, ev0) ->
  deint_reachable d0 frames d ->
  deint_inv b f frames d.
Proof.
  intros b f Hsz Hinit Hreach.
  induction Hreach as [| P frames d o sys mem src out sys' mem' ev _ IH Hsys Hrun].
  - exact (InitHistory_inv env caps d0 ev0 Hsz Hinit).
  - subst d.
    destruct (Deinterlace_step b f Hsz frames o sys mem src IH)
      as (out1 & sys1 & ev_h & ev_f & cur0 & d1 & Hrun1 & _ & _ & Hinv' & _).
    rewrite Hrun1 in Hrun. injection Hrun as _ <- _ _. exact Hinv'.
Qed.

(** C1.  In a session opened with [b] backward and [f] forward references
    (capacity [sz = b + 1 + f]), after any sequence of submissions the window
    holds [min n sz] frames, never more than [sz]: the last ones submitted,
    oldest first.  The next submission returns: while fewer than [sz] frames
    have been submitted with it, the frame is only buffered, [NULL] is
    returned and no call leaves the module; from the [sz]-th submission on
    the pipeline runs and yields a picture whenever the pool and the driver
    succeed; and once the window is full, [Deinterlace_UpdateHistory] makes
    exactly one call, the release of the frame in slot 0, the oldest, after
    which the window is the former one without that slot, with the new frame
    in the last slot. *)
Theorem Deinterlace_history_window (env : deint_open_env)
    (caps : VAProcPipelineCaps) (d0 : deint_data) (ev0 : list event)
    (frames : list picture_t) (d : deint_data) :
  let b := caps_num_backward_references caps in
  let f := caps_num_forward_references caps in
  let sz := N.to_nat (b + 1 + f) in
  let n := length frames in
  (b + 1 + f < 2 ^ 32)%N ->
  OpenDeinterlace_InitHistory env deint_data_calloc caps
    = Ret (VLC_SUCCESS, d0, ev0) ->
  deint_reachable d0 frames d ->
  history_sz (history d) = (b + 1 + f)%N
  /\ num_pics (history d) = N.of_nat (min n sz)
  /\ (num_pics (history d) <= history_sz (history d))%N
  /\ pp_pics (history d) = Some (window_of sz frames)
  /\ forall (P : Type) (o : filter_oracle) (sys : filter_sys_t deint_data)
            (mem : P) (src : picture_t),
       p_data sys = d ->
       exists out sys' ev_h ev_f cur0 d1,
         Deinterlace o sys mem src = Ret (out, sys', mem, ev_h ++ ev_f)
         /\ Deinterlace_UpdateHistory d src = Ret (cur0, d1, ev_h)
         /\ pp_pics (history d1) = Some (window_of sz (frames ++ [src]))
         /\ pp_pics (history (p_data sys')) = Some (window_of sz (frames ++ [src]))
         /\ ((n + 1 < sz)%nat -> out = None /\ ev_h = [] /\ ev_f = [])
         /\ ((sz <= n + 1)%nat ->
             forall dest, o_picture_pool_Wait o = Some dest ->
                          filter_oracle_ok o -> is_Some out)
         /\ ((n < sz)%nat -> ev_h = [])
         /\ ((sz <= n)%nat ->
             exists oldest rest,
               pp_pics (history d) = Some (Some oldest :: rest)
               /\ frames !! (n - sz)%nat = Some oldest
               /\ ev_h = [E_picture_Release oldest]
               /\ pp_pics (history d1) = Some (rest ++ [Some src])).
Proof.
  intros b f sz n Hsz Hinit Hreach.
  pose proof (deint_reachable_inv env caps d0 ev0 frames d Hsz Hinit Hreach)
    as Hinv.
  assert (Hh : history d
               = mk_history (Some (window_of sz frames)) f
                            (N.of_nat (min n sz)) (b + 1 + f))
    by exact (proj1 Hinv).
  split; [rewrite Hh; reflexivity |]. split; [rewrite Hh; reflexivity |].
  split; [rewrite Hh; cbn [history_sz num_pics]; unfold sz; lia |].
  split; [rewrite Hh; reflexivity |].
  intros P o sys mem src Hsys.
  rewrite <- Hsys in Hinv.
  destruct (Deinterlace_step b f Hsz frames o sys mem src Hinv)
    as (out & sys' & ev_h & ev_f & cur0 & d1 & Hrun & Hup & Hinv1 & Hinv'
        & _ & Hfill & Hfull & Hnone & Hsome).
  fold sz in Hfill, Hfull, Hnone, Hsome. fold n in Hfill, Hfull, Hnone, Hsome.
  exists out, sys', ev_h, ev_f, cur0, d1.
  destruct Hinv1 as (Hh1 & _). destruct Hinv' as (Hh' & _).
  fold sz in Hh1, Hh'.
  split; [exact Hrun |]. split; [rewrite <- Hsys; exact Hup |].
  split; [rewrite Hh1; reflexivity |]. split; [rewrite Hh'; reflexivity |].
  split.
  { intros Hn. destruct (Hnone Hn) as [-> ->].
    rewrite Hfill by lia. repeat split. }
  split.
  { intros Hn dest Hpool Hok. destruct (Hsome Hn) as (cur & _ & Hout & _).
    destruct (Hout dest Hpool Hok) as [-> _]. eexists. reflexivity. }
  split; [exact Hfill |].
  intros Hn. destruct (Hfull Hn) as (oldest & Hold & ->).
  destruct (window_of_slide sz frames src) as (p0 & rest & Hp0 & Hw & Hw');
    [unfold sz; lia | exact Hn |].
  fold n in Hp0. rewrite Hold in Hp0. injection Hp0 as <-.
  exists oldest, rest.
  split; [rewrite Hh, <- Hw; reflexivity |].
  split; [exact Hold |]. split; [reflexivity |].
  rewrite Hh1, <- Hw'. reflexivity.
Qed.

(** The session with one reference on each side (capacity 3), on four
    frames: the first two are buffered without output or call (Filling), the
    third is the first that yields a picture (Steady), and the fourth finds
    the window full: the oldest frame, on surface 1, is released and the
    window slides by one. *)
Lemma Deinterlace_history_window_witness :
  exists out1 sys1 out2 sys2 out3 sys3 ev3 out4 sys4 ev4,
    Deinterlace example_oracle_ok example_deint_sys tt (example_frame 1%N true)
      = Ret (out1, sys1, tt, [])
    /\ out1 = None
    /\ Deinterlace example_oracle_ok sys1 tt (example_frame 2%N true)
       = Ret (out2, sys2, tt, [])
    /\ out2 = None
    /\ pp_pics (history (p_data sys2))
       = Some [Some (example_frame 1%N true); Some (example_frame 2%N true); None]
    /\ Deinterlace example_oracle_ok sys2 tt (example_frame 3%N true)
       = Ret (out3, sys3, tt, ev3)
    /\ is_Some out3
    /\ pp_pics (history (p_data sys3))
       = Some [Some (example_frame 1%N true); Some (example_frame 2%N true);
               Some (example_frame 3%N true)]
    /\ num_pics (history (p_data sys3)) = 3%N
    /\ Deinterlace example_oracle_ok sys3 tt (example_frame 4%N true)
       = Ret (out4, sys4, tt, E_picture_Release (example_frame 1%N true) :: ev4)
    /\ is_Some out4
    /\ pp_pics (history (p_data sys4))
       = Some [Some (example_frame 2%N true); Some (example_frame 3%N true);
               Some (example_frame 4%N true)].
Proof.
  assert (Hsz : (caps_num_backward_references example_caps_1_1 + 1
                 + caps_num_forward_references example_caps_1_1 < 2 ^ 32)%N)
    by reflexivity.
  assert (Hinit : OpenDeinterlace_InitHistory example_deint_env
                    deint_data_calloc example_caps_1_1
                  = Ret (VLC_SUCCESS, example_deint_d0,
                         [E_calloc Blk_history_pics true;
                          E_malloc Blk_ref_surfaces true]))
    by reflexivity.
  assert (Hok : filter_oracle_ok example_oracle_ok).
  { unfold filter_oracle_ok. cbn. repeat split. discriminate. }
  pose (F := fun i : N => example_frame i true).
  (* first submission: Filling *)
  destruct (Deinterlace_history_window example_deint_env example_caps_1_1
              example_deint_d0 _ [] example_deint_d0 Hsz Hinit
              (deint_reach_init _)) as (_ & _ & _ & _ & Hnext0).
  destruct (Hnext0 unit example_oracle_ok example_deint_sys tt (F 1%N) eq_refl)
    as (out1 & sys1 & eh1 & ef1 & c1 & d1 & Hrun1 & _ & _ & _ & Hfill1 & _).
  destruct Hfill1 as (Hout1 & -> & ->); [cbn; lia |].
  pose proof (deint_reach_step example_deint_d0 unit [] example_deint_d0
                example_oracle_ok example_deint_sys tt (F 1%N) out1 sys1 tt _
                (deint_reach_init _) eq_refl Hrun1) as Hreach1.
  (* second submission: Filling *)
  destruct (Deinterlace_history_window example_deint_env example_caps_1_1
              example_deint_d0 _ _ _ Hsz Hinit Hreach1)
    as (_ & _ & _ & _ & Hnext1).
  destruct (Hnext1 unit example_oracle_ok sys1 tt (F 2%N) eq_refl)
    as (out2 & sys2 & eh2 & ef2 & c2 & d2 & Hrun2 & _ & _ & Hwin2 & Hfill2 & _).
  destruct Hfill2 as (Hout2 & -> & ->); [cbn; lia |].
  pose proof (deint_reach_step example_deint_d0 unit _ (p_data sys1)
                example_oracle_ok sys1 tt (F 2%N) out2 sys2 tt _
                Hreach1 eq_refl Hrun2) as Hreach2.
  (* third submission: the first output *)
  destruct (Deinterlace_history_window example_deint_env example_caps_1_1
              example_deint_d0 _ _ _ Hsz Hinit Hreach2)
    as (_ & _ & _ & _ & Hnext2).
  destruct (Hnext2 unit example_oracle_ok sys2 tt (F 3%N) eq_refl)
    as (out3 & sys3 & eh3 & ef3 & c3 & d3 & Hrun3 & _ & _ & Hwin3 & _
        & Hsteady3 & Hquiet3 & _).
  rewrite (Hquiet3 ltac:(cbn; lia)) in Hrun3.
  pose proof (deint_reach_step example_deint_d0 unit _ (p_data sys2)
                example_oracle_ok sys2 tt (F 3%N) out3 sys3 tt _
                Hreach2 eq_refl Hrun3) as Hreach3.
  (* fourth submission: the window is full *)
  destruct (Deinterlace_history_window example_deint_env example_caps_1_1
              example_deint_d0 _ _ _ Hsz Hinit Hreach3)
    as (_ & Hnum3 & _ & _ & Hnext3).
  destruct (Hnext3 unit example_oracle_ok sys3 tt (F 4%N) eq_refl)
    as (out4 & sys4 & eh4 & ef4 & c4 & d4 & Hrun4 & _ & _ & Hwin4 & _
        & Hsteady4 & _ & Hevict4).
  destruct (Hevict4 ltac:(cbn; lia)) as (oldest & rest & _ & Hold & -> & _).
  cbn in Hold. injection Hold as <-.
  exists out1, sys1, out2, sys2, out3, sys3, ef3, out4, sys4, ef4.
  split; [exact Hrun1 |]. split; [exact Hout1 |].
  split; [exact Hrun2 |]. split; [exact Hout2 |].
  split; [exact Hwin2 |].
  split; [exact Hrun3 |].
  split; [exact (Hsteady3 ltac:(cbn; lia) _ eq_refl Hok) |].
  split; [exact Hwin3 |]. split; [exact Hnum3 |].
  split; [exact Hrun4 |].
  split; [exact (Hsteady4 ltac:(cbn; lia) _ eq_refl Hok) |].
  exact Hwin4.
Defined.

(** ** Deinterlace: the reference frames handed to the driver *)

Lemma in_after_history (ev_h ev_f : list event) c pb pp r :
  (ev_h = [] \/ exists p, ev_h = [E_picture_Release p]) ->
  In (E_vlc_vaapi_RenderPicture c pb pp r) (ev_h ++ ev_f) ->
  In (E_vlc_vaapi_RenderPicture c pb pp r) ev_f.
Proof.
  intros Hh Hin. apply in_app_or in Hin. destruct Hin as [Hin | Hin]; [| exact Hin].
  destruct Hh as [-> | [p ->]]; cbn in Hin; [contradiction |].
  destruct Hin as [Hin | []]. discriminate Hin.
Qed.

Lemma slot_surface_lookup (w : list picture_t) (i : nat) :
  (i < length w)%nat ->
  exists p, w !! i = Some p /\ slot_surface w i = vlc_vaapi_PicGetSurface p.
Proof.
  intros Hi. destruct (lookup_lt_is_Some_2 w i Hi) as [p Hp].
  exists p. split; [exact Hp |]. unfold slot_surface. rewrite Hp. reflexivity.
Qed.

Lemma singleton_of_lookup {A : Type} (l : list A) (x : A) :
  length l = 1%nat -> l !! 0%nat = Some x -> l = [x].
Proof.
  destruct l as [| y [| ? ?]]; cbn; intros Hl Hx; try discriminate Hl.
  injection Hx as ->. reflexivity.
Qed.

(** The end-to-end run with one reference on each side. *)
Lemma Deinterlace_three_frames {P : Type} (env : deint_open_env)
    (caps : VAProcPipelineCaps) (d0 : deint_data) (ev0 : list event)
    (o1 o2 o3 : filter_oracle) (sys : filter_sys_t deint_data) (mem : P)
    (F1 F2 F3 dest : picture_t) :
  caps_num_backward_references caps = 1%N ->
  caps_num_forward_references caps = 1%N ->
  OpenDeinterlace_InitHistory env deint_data_calloc caps
    = Ret (VLC_SUCCESS, d0, ev0) ->
  p_data sys = d0 ->
  o_picture_pool_Wait o3 = Some dest ->
  filter_oracle_ok o3 ->
  exists sys' ev3 pp,
    Deinterlace_run [(o1, F1); (o2, F2); (o3, F3)] sys mem
    = Ret ([ (None, []); (None, []);
             (Some (set_b_progressive (picture_CopyProperties dest F2)), ev3) ],
           sys', mem)
    /\ In (E_vlc_vaapi_RenderPicture (ctx (va sys)) (o_CreateBuffer_pipeline o3)
             pp 0%Z) ev3
    /\ pp_surface pp = vlc_vaapi_PicGetSurface F2
    /\ ref_array (pp_forward_references pp) (pp_num_forward_references pp)
       = [vlc_vaapi_PicGetSurface F1]
    /\ ref_array (pp_backward_references pp) (pp_num_backward_references pp)
       = [vlc_vaapi_PicGetSurface F3].
Proof.
  intros Hb Hf Hinit Hsys Hpool Hok.
  assert (Hsz : (1 + 1 + 1 < 2 ^ 32)%N) by reflexivity.
  assert (Hinv0 : deint_inv 1 1 [] (p_data sys)).
  { rewrite Hsys. rewrite <- Hb at 1. rewrite <- Hf.
    apply (InitHistory_inv env caps d0 ev0); [rewrite Hb, Hf; exact Hsz | exact Hinit]. }
  destruct (Deinterlace_step 1 1 Hsz [] o1 sys mem F1 Hinv0)
    as (out1 & sys1 & eh1 & ef1 & _ & _ & Hrun1 & _ & _ & Hinv1 & Hva1
        & Hfill1 & _ & Hnone1 & _).
  destruct Hnone1 as [-> ->]; [cbn; lia |]. rewrite Hfill1 in Hrun1 by (cbn; lia).
  destruct (Deinterlace_step 1 1 Hsz ([] ++ [F1]) o2 sys1 mem F2 Hinv1)
    as (out2 & sys2 & eh2 & ef2 & _ & _ & Hrun2 & _ & _ & Hinv2 & Hva2
        & Hfill2 & _ & Hnone2 & _).
  destruct Hnone2 as [-> ->]; [cbn; lia |]. rewrite Hfill2 in Hrun2 by (cbn; lia).
  destruct (Deinterlace_step 1 1 Hsz (([] ++ [F1]) ++ [F2]) o3 sys2 mem F3 Hinv2)
    as (out3 & sys3 & eh3 & ef3 & _ & _ & Hrun3 & _ & _ & _ & _
        & Hfill3 & _ & _ & Hsome3).
  rewrite Hfill3 in Hrun3 by (cbn; lia).
  destruct Hsome3 as (cur & Hcur & Hout & _ & Hpp); [cbn; lia |].
  cbn in Hcur. injection Hcur as <-.
  destruct (Hout dest Hpool Hok) as (-> & pp & Hin).
  destruct (Hpp _ _ _ _ Hin) as (Hsurf & _ & Hnf & Hnb & Hfwd & Hbwd).
  destruct (ref_array_spec (pp_forward_references pp) 1 _ Hfwd) as [Hlf Hif].
  destruct (ref_array_spec (pp_backward_references pp) 1 _ Hbwd) as [Hlb Hib].
  exists sys3, ef3, pp.
  split.
  { cbn [Deinterlace_run]. rewrite Hrun1. cbn [bind app].
    rewrite Hrun2. cbn [bind app]. rewrite Hrun3. reflexivity. }
  split; [rewrite <- Hva1, <- Hva2; exact Hin |].
  split; [exact Hsurf |].
  rewrite Hnf, Hnb.
  split; apply singleton_of_lookup;
    first [exact Hlf | exact Hlb | apply Hif; cbn; lia | apply Hib; cbn; lia].
Qed.

(** C2.  In a session opened with [b] backward and [f] forward references,
    take a submission that finds or makes the window full, and let [w] be the
    window with the submitted frame admitted; its slot [f] holds the current
    frame.  Every pipeline description the call hands to
    [vlc_vaapi_RenderPicture] has the surface of the current frame as source,
    a forward reference array of exactly [f] entries holding the surfaces of
    the slots [f-1] down to [0], a backward reference array of exactly [b]
    entries holding the surfaces of the slots [f+1] up to [f+b], and the
    field-order flag of the current frame; when the pool and the driver
    succeed such a description is rendered and the picture returned is marked
    progressive.  With [b = f = 1], submitting F1, F2, F3 returns [NULL]
    twice without any call, then a progressive picture rendered with F2 as
    source, F1 as the forward reference and F3 as the backward reference. *)
Theorem Deinterlace_reference_frames (env : deint_open_env)
    (caps : VAProcPipelineCaps) (d0 : deint_data) (ev0 : list event)
    (frames : list picture_t) (d : deint_data) :
  let b := caps_num_backward_references caps in
  let f := caps_num_forward_references caps in
  let sz := N.to_nat (b + 1 + f) in
  let n := length frames in
  (b + 1 + f < 2 ^ 32)%N ->
  OpenDeinterlace_InitHistory env deint_data_calloc caps
    = Ret (VLC_SUCCESS, d0, ev0) ->
  deint_reachable d0 frames d ->
  (forall (P : Type) (o : filter_oracle) (sys : filter_sys_t deint_data)
          (mem : P) (src : picture_t),
     (sz <= n + 1)%nat ->
     p_data sys = d ->
     let w := drop (n + 1 - sz) (frames ++ [src]) in
     exists cur out sys' ev,
       length w = sz
       /\ w !! N.to_nat f = Some cur
       /\ Deinterlace o sys mem src = Ret (out, sys', mem, ev)
       /\ (forall dest, o_picture_pool_Wait o = Some dest ->
             filter_oracle_ok o ->
             out = Some (set_b_progressive (picture_CopyProperties dest cur))
             /\ exists pp,
                  In (E_vlc_vaapi_RenderPicture (ctx (va sys))
                        (o_CreateBuffer_pipeline o) pp 0%Z) ev)
       /\ (forall p, out = Some p -> b_progressive p = true)
       /\ (forall c pb pp r,
             In (E_vlc_vaapi_RenderPicture c pb pp r) ev ->
             let fwd := ref_array (pp_forward_references pp)
                                  (pp_num_forward_references pp) in
             let bwd := ref_array (pp_backward_references pp)
                                  (pp_num_backward_references pp) in
             pp_surface pp = vlc_vaapi_PicGetSurface cur
             /\ pp_filter_flags pp
                = (if b_top_field_first cur then 0%N
                   else VA_DEINTERLACING_BOTTOM_FIELD_FIRST)
             /\ length fwd = N.to_nat f
             /\ (forall i, (i < N.to_nat f)%nat ->
                   exists p, w !! (N.to_nat f - 1 - i)%nat = Some p
                             /\ fwd !! i = Some (vlc_vaapi_PicGetSurface p))
             /\ length bwd = N.to_nat b
             /\ (forall i, (i < N.to_nat b)%nat ->
                   exists p, w !! (N.to_nat f + 1 + i)%nat = Some p
                             /\ bwd !! i = Some (vlc_vaapi_PicGetSurface p))))
  /\ (b = 1%N -> f = 1%N ->
      forall (P : Type) (o1 o2 o3 : filter_oracle)
             (sys : filter_sys_t deint_data) (mem : P)
             (F1 F2 F3 dest : picture_t),
        p_data sys = d0 ->
        o_picture_pool_Wait o3 = Some dest ->
        filter_oracle_ok o3 ->
        exists sys' ev3 pp,
          Deinterlace_run [(o1, F1); (o2, F2); (o3, F3)] sys mem
          = Ret ([ (None, []); (None, []);
                   (Some (set_b_progressive (picture_CopyProperties dest F2)),
                    ev3) ],
                 sys', mem)
          /\ In (E_vlc_vaapi_RenderPicture (ctx (va sys))
                   (o_CreateBuffer_pipeline o3) pp 0%Z) ev3
          /\ pp_surface pp = vlc_vaapi_PicGetSurface F2
          /\ ref_array (pp_forward_references pp) (pp_num_forward_references pp)
             = [vlc_vaapi_PicGetSurface F1]
          /\ ref_array (pp_backward_references pp) (pp_num_backward_references pp)
             = [vlc_vaapi_PicGetSurface F3]).
Proof.
  intros b f sz n Hsz Hinit Hreach. split.
  - intros P o sys mem src Hn Hsys w.
    pose proof (deint_reachable_inv env caps d0 ev0 frames d Hsz Hinit Hreach)
      as Hinv.
    rewrite <- Hsys in Hinv.
    destruct (Deinterlace_step b f Hsz frames o sys mem src Hinv)
      as (out & sys' & ev_h & ev_f & cur0 & d1 & Hrun & _ & _ & _ & _
          & Hfill & Hfull & _ & Hsome).
    fold sz in Hfill, Hfull, Hsome. fold n in Hfill, Hfull, Hsome.
    destruct (Hsome Hn) as (cur & Hcur & Hout & Hprog & Hpp).
    fold w in Hcur, Hpp.
    assert (Hlenw : length w = sz).
    { unfold w. rewrite length_drop, length_app. cbn [length]. fold n. lia. }
    assert (Hh : ev_h = [] \/ exists p, ev_h = [E_picture_Release p]).
    { destruct (le_lt_dec sz n) as [H1 | H1].
      - right. destruct (Hfull H1) as (p & _ & ->). exists p. reflexivity.
      - left. apply Hfill. exact H1. }
    exists cur, out, sys', (ev_h ++ ev_f).
    split; [exact Hlenw |]. split; [exact Hcur |]. split; [exact Hrun |].
    split.
    { intros dest Hpool Hok. destruct (Hout dest Hpool Hok) as (-> & pp & Hin).
      split; [reflexivity |]. exists pp. apply in_or_app. right. exact Hin. }
    split; [exact Hprog |].
    intros c pb pp r Hin fwd bwd.
    apply (in_after_history _ _ _ _ _ _ Hh) in Hin.
    destruct (Hpp c pb pp r Hin) as (Hsurf & Hflag & Hnf & Hnb & Hfwd & Hbwd).
    unfold fwd, bwd. rewrite Hnf, Hnb.
    destruct (ref_array_spec (pp_forward_references pp) f _ Hfwd) as [Hlf Hif].
    destruct (ref_array_spec (pp_backward_references pp) b _ Hbwd) as [Hlb Hib].
    split; [exact Hsurf |]. split; [exact Hflag |].
    split; [exact Hlf |]. split.
    { intros i Hi.
      destruct (slot_surface_lookup w (N.to_nat f - 1 - i)) as (p & Hp & Hs);
        [rewrite Hlenw; unfold sz; lia |].
      exists p. split; [exact Hp |]. rewrite <- Hs. apply Hif. exact Hi. }
    split; [exact Hlb |].
    intros i Hi.
    destruct (slot_surface_lookup w (N.to_nat f + 1 + i)) as (p & Hp & Hs);
      [rewrite Hlenw; unfold sz; lia |].
    exists p. split; [exact Hp |]. rewrite <- Hs. apply Hib. exact Hi.
  - intros Hb Hf P o1 o2 o3 sys mem F1 F2 F3 dest Hsys Hpool Hok.
    exact (Deinterlace_three_frames env caps d0 ev0 o1 o2 o3 sys mem
             F1 F2 F3 dest Hb Hf Hinit Hsys Hpool Hok).
Qed.

(** The end-to-end run on three example frames. *)
Lemma Deinterlace_reference_frames_witness :
  exists sys' ev3 pp,
    Deinterlace_run
      [ (example_oracle_ok, example_frame 1%N true);
        (example_oracle_ok, example_frame 2%N false);
        (example_oracle_ok, example_frame 3%N true) ]
      example_deint_sys tt
    = Ret ([ (None, []); (None, []);
             (Some (set_b_progressive
                      (picture_CopyProperties (example_frame 10%N true)
                                              (example_frame 2%N false))),
              ev3) ],
           sys', tt)
    /\ In (E_vlc_vaapi_RenderPicture 4%N 77%N pp 0%Z) ev3
    /\ ref_array (pp_forward_references pp) (pp_num_forward_references pp) = [1%N]
    /\ ref_array (pp_backward_references pp) (pp_num_backward_references pp) = [3%N].
Proof.
  assert (Hsz : (caps_num_backward_references example_caps_1_1 + 1
                 + caps_num_forward_references example_caps_1_1 < 2 ^ 32)%N)
    by reflexivity.
  assert (Hinit : OpenDeinterlace_InitHistory example_deint_env
                    deint_data_calloc example_caps_1_1
                  = Ret (VLC_SUCCESS, example_deint_d0,
                         [E_calloc Blk_history_pics true;
                          E_malloc Blk_ref_surfaces true]))
    by reflexivity.
  assert (Hok : filter_oracle_ok example_oracle_ok).
  { unfold filter_oracle_ok. cbn. repeat split. discriminate. }
  destruct (Deinterlace_reference_frames example_deint_env example_caps_1_1
              example_deint_d0 _ [] example_deint_d0 Hsz Hinit
              (deint_reach_init _)) as [_ Hexample].
  destruct (Hexample eq_refl eq_refl unit example_oracle_ok example_oracle_ok
              example_oracle_ok example_deint_sys tt
              (example_frame 1%N true) (example_frame 2%N false)
              (example_frame 3%N true) (example_frame 10%N true)
              eq_refl eq_refl Hok)
    as (sys' & ev3 & pp & Hrun & Hin & _ & Hfwd & Hbwd).
  exists sys', ev3, pp. split; [exact Hrun |]. split; [exact Hin |].
  split; [exact Hfwd | exact Hbwd].
Defined.

(* ================================================================== *)
(** * Part III: further properties of the code                         *)
(* ================================================================== *)

Local Open Scope Q_scope.
Local Open Scope string_scope.


(** ** Choice of the deinterlacing algorithm *)

Local Open Scope list_scope.

Lemma for_range_find {A R : Type} (t : list A) (p : A -> bool) (f : A -> R)
    (body : N -> unit -> res (flow unit R)) :
  (forall i m, t !! i = Some m ->
     body (N.of_nat i) tt = if p m then Ret (Leave (f m)) else Ret (Next tt)) ->
  forall (k from : nat), (from + k = length t)%nat ->
    for_range (N.of_nat from) k body tt
    = match List.find p (drop from t) with
      | Some m => Ret (Leave (f m))
      | None => Ret (Next tt)
      end.
Proof.
  intros Hbody. induction k as [| k IH]; intros from Hlen.
  - rewrite drop_ge by lia. reflexivity.
  - destruct (lookup_lt_is_Some_2 t from) as [m Hm]; [lia |].
    rewrite (drop_S _ _ _ Hm). cbn [for_range List.find].
    rewrite (Hbody _ _ Hm). destruct (p m); [reflexivity |].
    rewrite <- Nat2N.inj_succ. apply IH. lia.
Qed.

Lemma find_first {A : Type} (p : A -> bool) (t : list A) (i : nat) (m : A) :
  t !! i = Some m -> p m = true ->
  (forall j m', (j < i)%nat -> t !! j = Some m' -> p m' = false) ->
  List.find p t = Some m.
Proof.
  revert i. induction t as [| a t IH]; intros i Hm Hp Hfirst; [discriminate Hm |].
  destruct i as [| i]; cbn in Hm |- *.
  - injection Hm as ->. rewrite Hp. reflexivity.
  - rewrite (Hfirst 0%nat a) by (lia || reflexivity).
    apply (IH i); [exact Hm | exact Hp |].
    intros j m' Hj Hm'. apply (Hfirst (Datatypes.S j)); [lia | exact Hm'].
Qed.

Lemma find_is_first {A : Type} (p : A -> bool) (t : list A) (m : A) :
  List.find p t = Some m ->
  exists i, t !! i = Some m /\ p m = true
            /\ forall j m', (j < i)%nat -> t !! j = Some m' -> p m' = false.
Proof.
  induction t as [| a t IH]; cbn; [discriminate |].
  destruct (p a) eqn:Ea.
  - intros [= ->]. exists 0%nat. split; [reflexivity |]. split; [exact Ea |].
    intros j m' Hj. lia.
  - intros Hf. destruct (IH Hf) as (i & Hi & Hp & Hfirst).
    exists (Datatypes.S i). split; [exact Hi |]. split; [exact Hp |].
    intros [| j] m' Hj Hm'; cbn in Hm'.
    + injection Hm' as <-. exact Ea.
    + apply (Hfirst j); [lia | exact Hm'].
Qed.

Section DeinterlaceMode.

Variable caps : list VAProcDeinterlacingType.
Variable num_caps : N.
Hypothesis Hnum : (N.to_nat num_caps <= length caps)%nat.

Lemma OpenDeinterlace_IsValidType_reported (m : deint_mode) :
  OpenDeinterlace_IsValidType caps num_caps m = Ret (is_reported caps num_caps m).
Proof.
  unfold OpenDeinterlace_IsValidType.
  assert (Hlen : (0 + N.to_nat num_caps = length (reported caps num_caps))%nat).
  { unfold reported. rewrite length_take. lia. }
  change 0%N with (N.of_nat 0).
  rewrite (for_range_find (reported caps num_caps)
             (fun c => bool_decide (c = deint_type m)) (fun _ => true))
    by first [ exact Hlen
             | intros i c Hc; unfold reported in Hc;
               apply lookup_take_Some in Hc as [Hc _];
               unfold tab_get; rewrite Nat2N.id, Hc; reflexivity ].
  rewrite drop_0. unfold is_reported. cbn [bind].
  destruct (List.find _ _) as [c |] eqn:Ef.
  - apply List.find_some in Ef as [Hin Hc]. apply bool_decide_eq_true in Hc.
    subst c. cbn. apply list_elem_of_In in Hin.
    rewrite bool_decide_eq_true_2 by exact Hin. reflexivity.
  - cbn. rewrite bool_decide_eq_false_2; [reflexivity |].
    intros Hin. apply list_elem_of_In in Hin.
    pose proof (List.find_none _ _ Ef _ Hin) as Hc.
    apply bool_decide_eq_false in Hc. congruence.
Qed.

Lemma OpenDeinterlace_GetMode_named_loop (name : string) :
  for_range 0 (length deint_modes)
    (OpenDeinterlace_GetMode_named_step name caps num_caps) tt
  = match List.find (fun m => String.eqb name (deint_name m) && is_reported caps num_caps m)
            deint_modes with
    | Some m => Ret (Leave (VLC_SUCCESS, Some (deint_type m),
                            [Msg_Dbg_using (deint_name m)]))
    | None => Ret (Next tt)
    end.
Proof.
  change 0%N with (N.of_nat 0).
  rewrite (for_range_find deint_modes
             (fun m => String.eqb name (deint_name m) && is_reported caps num_caps m)
             (fun m => (VLC_SUCCESS, Some (deint_type m),
                        [Msg_Dbg_using (deint_name m)])));
    [rewrite drop_0; reflexivity | | reflexivity].
  intros i m Hm. unfold OpenDeinterlace_GetMode_named_step, tab_get.
  rewrite Nat2N.id, Hm. cbn [bind].
  destruct (String.eqb name (deint_name m)); [| reflexivity].
  rewrite OpenDeinterlace_IsValidType_reported. cbn [bind andb].
  destruct (is_reported caps num_caps m); reflexivity.
Qed.

Lemma OpenDeinterlace_GetMode_any_loop (deint_mode : option string)
    (fallback : bool) :
  for_range 0 (length deint_modes)
    (OpenDeinterlace_GetMode_any_step deint_mode fallback caps num_caps) tt
  = match List.find (is_reported caps num_caps) deint_modes with
    | Some m =>
        Ret (Leave (VLC_SUCCESS, Some (deint_type m),
                    [if fallback
                     then Msg_Info_fallback deint_mode (deint_name m)
                     else Msg_Dbg_using (deint_name m)]))
    | None => Ret (Next tt)
    end.
Proof.
  change 0%N with (N.of_nat 0).
  rewrite (for_range_find deint_modes (is_reported caps num_caps)
             (fun m => (VLC_SUCCESS, Some (deint_type m),
                        [if fallback
                         then Msg_Info_fallback deint_mode (deint_name m)
                         else Msg_Dbg_using (deint_name m)])));
    [rewrite drop_0; reflexivity | | reflexivity].
  intros i m Hm. unfold OpenDeinterlace_GetMode_any_step, tab_get.
  rewrite Nat2N.id, Hm. cbn [bind].
  rewrite OpenDeinterlace_IsValidType_reported. cbn [bind].
  destruct (is_reported caps num_caps m); reflexivity.
Qed.

(** The two loops of [OpenDeinterlace_GetMode] as two searches of the table. *)
Lemma OpenDeinterlace_GetMode_searches (deint_mode : option string) :
  OpenDeinterlace_GetMode deint_mode caps num_caps
  = match (if names_algorithm deint_mode
           then List.find (fun m => String.eqb (default "" deint_mode) (deint_name m)
                                    && is_reported caps num_caps m) deint_modes
           else None) with
    | Some m => Ret (VLC_SUCCESS, Some (deint_type m), [Msg_Dbg_using (deint_name m)])
    | None =>
        match List.find (is_reported caps num_caps) deint_modes with
        | Some m =>
            Ret (VLC_SUCCESS, Some (deint_type m),
                 [if names_algorithm deint_mode
                  then Msg_Info_fallback deint_mode (deint_name m)
                  else Msg_Dbg_using (deint_name m)])
        | None => Ret (VLC_EGENERIC, None, [Msg_Err_no_algorithm])
        end
    end.
Proof.
  unfold OpenDeinterlace_GetMode, names_algorithm.
  destruct deint_mode as [name |]; cbn [default].
  - destruct (String.eqb name "auto"); cbn [negb bind].
    + rewrite OpenDeinterlace_GetMode_any_loop. cbn [bind].
      destruct (List.find (is_reported caps num_caps) deint_modes); reflexivity.
    + rewrite OpenDeinterlace_GetMode_named_loop.
      destruct (List.find (fun m => _ && _) deint_modes); cbn [bind];
        [reflexivity |].
      rewrite OpenDeinterlace_GetMode_any_loop. cbn [bind].
      destruct (List.find (is_reported caps num_caps) deint_modes); reflexivity.
  - cbn [bind]. rewrite OpenDeinterlace_GetMode_any_loop. cbn [bind].
    destruct (List.find (is_reported caps num_caps) deint_modes); reflexivity.
Qed.

End DeinterlaceMode.

(** X3.  When [num_caps] does not exceed the size of [caps],
    [OpenDeinterlace_GetMode] returns.  It succeeds exactly when the driver
    reported the type of some entry of [deint_modes]: then the type it stores
    is that of a table entry and was reported, and the one diagnostic names
    that entry; otherwise it returns [VLC_EGENERIC], stores no type and prints
    the error. *)
Theorem OpenDeinterlace_GetMode_outcome (deint_mode : option string)
    (caps : list VAProcDeinterlacingType) (num_caps : N) :
  (N.to_nat num_caps <= length caps)%nat ->
  exists ret ty msgs,
    OpenDeinterlace_GetMode deint_mode caps num_caps = Ret (ret, ty, msgs)
    /\ ((ret = VLC_SUCCESS
         /\ exists m, In m deint_modes
                      /\ ty = Some (deint_type m)
                      /\ deint_type m ∈ reported caps num_caps
                      /\ (msgs = [Msg_Dbg_using (deint_name m)]
                          \/ (names_algorithm deint_mode = true
                              /\ msgs = [Msg_Info_fallback deint_mode
                                           (deint_name m)])))
        \/ (ret = VLC_EGENERIC /\ ty = None /\ msgs = [Msg_Err_no_algorithm]
            /\ forall m, In m deint_modes ->
                 deint_type m ∉ reported caps num_caps)).
Proof.
  intros Hnum. rewrite (OpenDeinterlace_GetMode_searches caps num_caps Hnum).
  destruct (if names_algorithm deint_mode then _ else None) as [m |] eqn:En.
  { eexists _, _, _. split; [reflexivity |]. left. split; [reflexivity |].
    destruct (names_algorithm deint_mode); [| discriminate En].
    apply List.find_some in En as [Hin Hp].
    apply andb_prop in Hp as [_ Hp]. apply bool_decide_eq_true in Hp.
    exists m. split; [exact Hin |]. split; [reflexivity |].
    split; [exact Hp |]. left. reflexivity. }
  clear En.
  destruct (List.find (is_reported caps num_caps) deint_modes) as [m |] eqn:Ef.
  - eexists _, _, _. split; [reflexivity |]. left. split; [reflexivity |].
    apply List.find_some in Ef as [Hin Hp]. apply bool_decide_eq_true in Hp.
    exists m. split; [exact Hin |]. split; [reflexivity |].
    split; [exact Hp |].
    destruct (names_algorithm deint_mode); [right | left]; auto.
  - eexists _, _, _. split; [reflexivity |]. right.
    split; [reflexivity |]. split; [reflexivity |]. split; [reflexivity |].
    intros m Hin. pose proof (List.find_none _ _ Ef _ Hin) as Hp.
    apply bool_decide_eq_false in Hp. exact Hp.
Qed.

(** With no mode requested, on the example report. *)
Lemma OpenDeinterlace_GetMode_outcome_witness :
  exists ret ty msgs,
    OpenDeinterlace_GetMode None example_deint_caps 3 = Ret (ret, ty, msgs)
    /\ (ret = VLC_SUCCESS \/ ret = VLC_EGENERIC).
Proof.
  assert (Hnum : (N.to_nat 3 <= length example_deint_caps)%nat) by (cbn; lia).
  destruct (OpenDeinterlace_GetMode_outcome None example_deint_caps 3 Hnum)
    as (ret & ty & msgs & Hrun & Hcases).
  exists ret, ty, msgs. split; [exact Hrun |].
  destruct Hcases as [[-> _] | [-> _]]; [left | right]; reflexivity.
Defined.

(** X4.  A requested algorithm is honoured when it can be: for a
    [deinterlace-mode] other than ["auto"], the first entry of [deint_modes]
    that has the requested name and a reported type is the one chosen, with
    the debug diagnostic and no fallback message. *)
Theorem OpenDeinterlace_GetMode_requested (name : string)
    (caps : list VAProcDeinterlacingType) (num_caps : N)
    (i : nat) (m : deint_mode) :
  (N.to_nat num_caps <= length caps)%nat ->
  name <> "auto" ->
  first_reported caps num_caps (fun m => deint_name m = name) i m ->
  OpenDeinterlace_GetMode (Some name) caps num_caps
  = Ret (VLC_SUCCESS, Some (deint_type m), [Msg_Dbg_using name]).
Proof.
  intros Hnum Hauto (Hm & Hname & Hrep & Hfirst).
  rewrite (OpenDeinterlace_GetMode_searches caps num_caps Hnum).
  cbn [names_algorithm default from_option]. unfold id.
  apply String.eqb_neq in Hauto. rewrite Hauto. cbn [negb].
  rewrite (find_first _ deint_modes i m Hm).
  - rewrite Hname. reflexivity.
  - rewrite Hname, String.eqb_refl. cbn [andb].
    apply bool_decide_eq_true_2. exact Hrep.
  - intros j m' Hj Hm'.
    destruct (String.eqb_spec name (deint_name m')) as [E | E]; [| reflexivity].
    cbn [andb]. apply bool_decide_eq_false_2. apply (Hfirst j); auto.
Qed.

(** The mode ["x"] on the example report: motion-adaptive is not reported,
    the second entry named ["x"] is. *)
Lemma OpenDeinterlace_GetMode_requested_witness :
  OpenDeinterlace_GetMode (Some "x") example_deint_caps 3
  = Ret (VLC_SUCCESS, Some VAProcDeinterlacingMotionCompensated,
         [Msg_Dbg_using "x"]).
Proof.
  apply (OpenDeinterlace_GetMode_requested "x" example_deint_caps 3 1%nat
           (mk_deint_mode "x" VAProcDeinterlacingMotionCompensated)).
  - cbn. lia.
  - discriminate.
  - split; [reflexivity |]. split; [reflexivity |]. split.
    + apply list_elem_of_In. vm_compute. auto 6.
    + intros j m' Hj Hm' _. destruct j as [| j]; [| lia].
      cbn in Hm'. injection Hm' as <-. intros H.
      apply list_elem_of_In in H. vm_compute in H.
      destruct H as [H | [H | [H | []]]]; discriminate H.
Defined.

(** X5.  When no entry with the requested name has a reported type (in
    particular with no [deinterlace-mode], with ["auto"], or with a name the
    table does not have), the first entry of [deint_modes] with a reported
    type is chosen: motion-adaptive before motion-compensated before bob
    before weave.  The fallback message is printed exactly when a mode other
    than ["auto"] was requested. *)
Theorem OpenDeinterlace_GetMode_fallback (psz_deint_mode : option string)
    (caps : list VAProcDeinterlacingType) (num_caps : N)
    (i : nat) (m : deint_mode) :
  (N.to_nat num_caps <= length caps)%nat ->
  (forall m', In m' deint_modes -> psz_deint_mode = Some (deint_name m') ->
     deint_type m' ∉ reported caps num_caps) ->
  first_reported caps num_caps (fun _ => True) i m ->
  OpenDeinterlace_GetMode psz_deint_mode caps num_caps
  = Ret (VLC_SUCCESS, Some (deint_type m),
         [if names_algorithm psz_deint_mode
          then Msg_Info_fallback psz_deint_mode (deint_name m)
          else Msg_Dbg_using (deint_name m)]).
Proof.
  intros Hnum Hnone (Hm & _ & Hrep & Hfirst).
  rewrite (OpenDeinterlace_GetMode_searches caps num_caps Hnum).
  assert (En : (if names_algorithm psz_deint_mode
                then List.find (fun m => String.eqb (default "" psz_deint_mode)
                                           (deint_name m)
                                         && is_reported caps num_caps m)
                       deint_modes
                else None) = None).
  { destruct (names_algorithm psz_deint_mode) eqn:Ea; [| reflexivity].
    destruct psz_deint_mode as [name |]; [| discriminate Ea].
    cbn [default from_option]. unfold id.
    destruct (List.find _ deint_modes) as [m' |] eqn:Ef; [| reflexivity].
    apply List.find_some in Ef as [Hin Hp]. apply andb_prop in Hp as [Hn Hp].
    apply String.eqb_eq in Hn. apply bool_decide_eq_true in Hp.
    exfalso. apply (Hnone m' Hin); [congruence | exact Hp]. }
  rewrite En.
  rewrite (find_first _ deint_modes i m Hm).
  - reflexivity.
  - apply bool_decide_eq_true_2. exact Hrep.
  - intros j m' Hj Hm'. apply bool_decide_eq_false_2. apply (Hfirst j); auto.
Qed.

(** A mode the table does not have, on the example report. *)
Lemma OpenDeinterlace_GetMode_fallback_witness :
  OpenDeinterlace_GetMode (Some "yadif") example_deint_caps 3
  = Ret (VLC_SUCCESS, Some VAProcDeinterlacingMotionCompensated,
         [Msg_Info_fallback (Some "yadif") "x"]).
Proof.
  apply (OpenDeinterlace_GetMode_fallback (Some "yadif") example_deint_caps 3
           1%nat (mk_deint_mode "x" VAProcDeinterlacingMotionCompensated)).
  - cbn. lia.
  - intros m' Hin Hname. cbn in Hin.
    destruct Hin as [<- | [<- | [<- | [<- | []]]]]; discriminate Hname.
  - split; [reflexivity |]. split; [exact I |]. split.
    + apply list_elem_of_In. vm_compute. auto 6.
    + intros j m' Hj Hm' _. destruct j as [| j]; [| lia].
      cbn in Hm'. injection Hm' as <-. intros H.
      apply list_elem_of_In in H. vm_compute in H.
      destruct H as [H | [H | [H | []]]]; discriminate H.
Defined.

(** ** Resources of a session: [Open] and [Close] *)

Lemma acquired_app (ev1 ev2 : list event) :
  acquired (ev1 ++ ev2) = acquired ev1 ++ acquired ev2.
Proof. apply omap_app. Qed.

Lemma released_app (ev1 ev2 : list event) :
  released (ev1 ++ ev2) = released ev1 ++ released ev2.
Proof. apply omap_app. Qed.

Lemma session_neutral_released (ev : list event) :
  session_neutral ev -> released ev = [].
Proof. intros [_ H]. exact H. Qed.

Lemma session_neutral_acquired (ev : list event) :
  session_neutral ev -> acquired ev = [].
Proof. intros [H _]. exact H. Qed.

Ltac open_step Hrun :=
  match type of Hrun with
  | (if negb (?c =? ?d)%Z then _ else _) = _ =>
      destruct (c =? d)%Z eqn:?; cbn [negb] in Hrun
  | (if (?c =? ?d)%N then _ else _) = _ =>
      destruct (c =? d)%N eqn:?
  end.

Ltac rewrite_tests :=
  repeat match goal with
         | H : (_ =? _)%N = _ |- _ => rewrite H
         end.

Ltac open_failed Hrun :=
  injection Hrun as <- <- <- <- <-; left;
  split; [discriminate |];
  unfold Open_error;
  cbn [va set_va set_p_data inst conf ctx buf surface_ids dest_pics];
  unfold released, acquired;
  repeat match goal with
         | H : session_neutral _ |- _ =>
             let Ha := fresh "Hacq" in let Hr := fresh "Hrel" in
             destruct H as [Ha Hr]; unfold released, acquired in Ha, Hr
         end;
  repeat (progress (cbn; rewrite_tests; rewrite ?omap_app;
                    repeat match goal with
                           | H : omap _ _ = [] |- _ => rewrite H
                           end));
  reflexivity.

Ltac open_succeeded Hrun :=
  injection Hrun as <- <- <- <- <-; right;
  split; [reflexivity |];
  eexists _, _, _; split; [reflexivity |];
  split; [reflexivity |]; split; [reflexivity |];
  cbn [va set_va set_p_data inst conf ctx buf surface_ids dest_pics p_data];
  unfold released, acquired;
  repeat match goal with
         | H : session_neutral _ |- _ =>
             let Ha := fresh "Hacq" in let Hr := fresh "Hrel" in
             destruct H as [Ha Hr]; unfold released, acquired in Ha, Hr
         end;
  repeat (progress (cbn; rewrite_tests; rewrite ?omap_app;
                    repeat match goal with
                           | H : omap _ _ = [] |- _ => rewrite H
                           end));
  repeat split; reflexivity.

Lemma Open_error_last {D : Type} (ev : list event) (filter_sys : filter_sys_t D) :
  last (ev ++ Open_error filter_sys) = Some (E_free Blk_filter_sys).
Proof. unfold Open_error. rewrite !app_assoc. apply last_snoc. Qed.

Lemma Open_error_last_nil {D : Type} (filter_sys : filter_sys_t D) :
  last (Open_error filter_sys) = Some (E_free Blk_filter_sys).
Proof. apply (Open_error_last []). Qed.

(* An exit of [Open] before [filter->p_sys] is assigned. *)
Ltac open_unset Hrun :=
  injection Hrun as <- <- <- <- <-;
  split;
  [ split; [intros _; cbn; intros [C | []]; discriminate C | reflexivity]
  | intros [? C]; discriminate C ].

(* A failing exit of [Open] after the assignment. *)
Ltac open_dangling Hrun :=
  injection Hrun as <- <- <- <- <-;
  split;
  [ split; [discriminate | intros C; exfalso; apply C; left; reflexivity]
  | intros _;
    rewrite ?last_cons, ?Open_error_last, ?Open_error_last_nil; reflexivity ].

(** [filter->p_sys] after a failure of [Open]: it is unset exactly when no
    block was allocated for [filter_sys]; otherwise it points to that block,
    and the last call [Open] made freed it. *)
Lemma Open_p_sys {D P : Type} (o : open_oracle)
    (fmt_in fmt_out : video_format_t) (filter_type : VAProcFilterType)
    (data : D)
    (pf_init_filter_params : D -> res (init_result D P))
    (pf_use_pipeline_caps :
       option (D -> VAProcPipelineCaps -> res (Z * D * list event)))
    (ret : Z) (p_sys : option (filter_sys_t D)) (d : D) (p : option P)
    (ev : list event) :
  Open o fmt_in fmt_out filter_type data pf_init_filter_params
    pf_use_pipeline_caps = Ret (ret, p_sys, d, p, ev) ->
  ret <> VLC_SUCCESS ->
  (p_sys = None <-> ~ In (E_calloc Blk_filter_sys true) ev)
  /\ (is_Some p_sys -> last ev = Some (E_free Blk_filter_sys)).
Proof.
  intros Hrun Hret. unfold Open in Hrun.
  destruct (_ || _)%bool.
  { injection Hrun as <- <- <- <- <-.
    split; [split; [intros _ [] | reflexivity] | intros [? C]; discriminate C]. }
  destruct (o_calloc_filter_sys o) eqn:Ecalloc; cbn [negb] in Hrun;
    [| open_unset Hrun].
  lazy zeta in Hrun.
  destruct (negb (bool_decide _)); [open_dangling Hrun |].
  destruct (negb (bool_decide _)); [open_dangling Hrun |].
  destruct (_ =? _)%N; [open_dangling Hrun |].
  destruct (_ =? _)%N; [open_dangling Hrun |].
  destruct (negb _); [open_dangling Hrun |].
  destruct (pf_init_filter_params data) as [[[[[ret1 d1] p1] n1] ev1] | f];
    [| discriminate Hrun].
  cbn [bind] in Hrun.
  destruct (negb _); [open_dangling Hrun |].
  destruct (_ =? _)%N; [open_dangling Hrun |].
  destruct (negb _); [open_dangling Hrun |].
  destruct pf_use_pipeline_caps as [use_caps |].
  - destruct (use_caps d1 (o_pipeline_caps o)) as [[[ret2 d2] ev2] | f];
      [| discriminate Hrun].
    cbn [bind] in Hrun.
    destruct (negb _); [open_dangling Hrun |].
    injection Hrun as <- <- <- <- <-. contradiction Hret. reflexivity.
  - injection Hrun as <- <- <- <- <-. contradiction Hret. reflexivity.
Qed.

Lemma Open_accounting {D P : Type} (o : open_oracle)
    (fmt_in fmt_out : video_format_t) (filter_type : VAProcFilterType)
    (data : D)
    (pf_init_filter_params : D -> res (init_result D P))
    (pf_use_pipeline_caps :
       option (D -> VAProcPipelineCaps -> res (Z * D * list event)))
    (ret : Z) (p_sys : option (filter_sys_t D)) (d : D) (p : option P)
    (ev : list event) :
  callbacks_neutral pf_init_filter_params pf_use_pipeline_caps ->
  Open o fmt_in fmt_out filter_type data pf_init_filter_params
    pf_use_pipeline_caps = Ret (ret, p_sys, d, p, ev) ->
  (ret <> VLC_SUCCESS
   /\ released ev = rev (List.filter (fun r => negb (is_pool r)) (acquired ev)))
  \/ (ret = VLC_SUCCESS
      /\ exists filter_sys i pool,
           p_sys = Some filter_sys
           /\ inst (va filter_sys) = Some i
           /\ dest_pics filter_sys = Some pool
           /\ acquired ev
              = [ R_filter_sys; R_instance i; R_pool pool;
                  R_config (conf (va filter_sys));
                  R_context (ctx (va filter_sys));
                  R_buffer (buf (va filter_sys)) ]
           /\ released ev = []
           /\ p_data filter_sys = d).
Proof.
  intros [Hinit Huse] Hrun. unfold Open in Hrun.
  destruct (_ || _)%bool; [open_failed Hrun |].
  destruct (o_calloc_filter_sys o) eqn:Ecalloc; cbn [negb] in Hrun;
    [| open_failed Hrun].
  cbn zeta in Hrun.
  cbn [inst dpy conf ctx buf surface_ids va dest_pics set_va] in Hrun.
  destruct (o_FilterHoldInstance o) as [[i dpy] |];
    cbn [option_map from_option fst snd] in Hrun.
  2: { cbn in Hrun. open_failed Hrun. }
  destruct (o_PoolNew o) as [[pool sids] |];
    cbn [option_map from_option fst snd] in Hrun.
  2: { cbn in Hrun. open_failed Hrun. }
  change (bool_decide (is_Some (Some i))) with true in Hrun.
  change (bool_decide (is_Some (Some pool))) with true in Hrun.
  cbn [negb] in Hrun.
  open_step Hrun; [open_failed Hrun |].
  open_step Hrun; [open_failed Hrun |].
  open_step Hrun; [| open_failed Hrun].
  destruct (pf_init_filter_params data) as [[[[[ret1 d1] p1] n1] ev1] | f] eqn:Einit;
    [| discriminate Hrun].
  cbn [bind] in Hrun.
  pose proof (Hinit _ _ _ _ _ _ Einit) as Hn1.
  open_step Hrun; [| open_failed Hrun].
  open_step Hrun; [open_failed Hrun |].
  open_step Hrun; [| open_failed Hrun].
  destruct pf_use_pipeline_caps as [use_caps |].
  - destruct (use_caps d1 (o_pipeline_caps o)) as [[[ret2 d2] ev2] | f] eqn:Euse;
      [| discriminate Hrun].
    cbn [bind] in Hrun.
    pose proof (Huse _ _ _ _ _ _ eq_refl Euse) as Hn2.
    open_step Hrun; [| open_failed Hrun].
    open_succeeded Hrun.
  - open_succeeded Hrun.
Qed.

Lemma OpenAdjust_InitFilterParams_neutral (env : adjust_open_env) :
  callbacks_neutral (OpenAdjust_InitFilterParams env) None.
Proof.
  split; [| discriminate].
  intros d ret d' p n ev Hrun. unfold OpenAdjust_InitFilterParams in Hrun.
  destruct (negb _); [injection Hrun as <- <- <- <- <-; split; reflexivity |].
  destruct (for_range 0 _ _ d) as [[d1 | []] | f]; [| discriminate Hrun].
  cbn [bind] in Hrun.
  destruct (calloc_va_params_ok env); cbn [negb] in Hrun;
    [| injection Hrun as <- <- <- <- <-; split; reflexivity].
  destruct (for_range 0 _ _ _) as [[[m k] | []] | f]; [| discriminate Hrun].
  cbn [bind] in Hrun. injection Hrun as <- <- <- <- <-. split; reflexivity.
Qed.

Lemma OpenDeinterlace_InitHistory_neutral (env : deint_open_env)
    (d : deint_data) (caps : VAProcPipelineCaps)
    (ret : Z) (d' : deint_data) (ev : list event) :
  OpenDeinterlace_InitHistory env d caps = Ret (ret, d', ev) ->
  session_neutral ev.
Proof.
  unfold OpenDeinterlace_InitHistory. intros Hrun.
  destruct (calloc_pp_pics_ok env); cbn [negb] in Hrun;
    [| injection Hrun as <- <- <-; split; reflexivity].
  destruct (negb _).
  - destruct (malloc_surfaces env); injection Hrun as <- <- <-; split; reflexivity.
  - injection Hrun as <- <- <-; split; reflexivity.
Qed.

(** X6.  Whenever [Open] fails, with callbacks that touch no resource of the
    session, the calls made give back every resource acquired except the
    output pool, in the reverse order of acquisition; the output pool is not
    released.  [filter->p_sys] is unset exactly when no block was allocated
    for [filter_sys]; otherwise it is left pointing to that block, which the
    last call made has freed. *)
Theorem Open_failure_accounting {D P : Type} (o : open_oracle)
    (fmt_in fmt_out : video_format_t) (filter_type : VAProcFilterType)
    (data : D)
    (pf_init_filter_params : D -> res (init_result D P))
    (pf_use_pipeline_caps :
       option (D -> VAProcPipelineCaps -> res (Z * D * list event)))
    (ret : Z) (p_sys : option (filter_sys_t D)) (d : D) (p : option P)
    (ev : list event) :
  callbacks_neutral pf_init_filter_params pf_use_pipeline_caps ->
  Open o fmt_in fmt_out filter_type data pf_init_filter_params
    pf_use_pipeline_caps = Ret (ret, p_sys, d, p, ev) ->
  ret <> VLC_SUCCESS ->
  (p_sys = None <-> ~ In (E_calloc Blk_filter_sys true) ev)
  /\ (is_Some p_sys -> last ev = Some (E_free Blk_filter_sys))
  /\ released ev = rev (List.filter (fun r => negb (is_pool r)) (acquired ev))
  /\ forall pool, ~ In (R_pool pool) (released ev).
Proof.
  intros Hn Hrun Hret.
  destruct (Open_p_sys _ _ _ _ _ _ _ _ _ _ _ _ Hrun Hret) as [Hunset Hdangling].
  destruct (Open_accounting _ _ _ _ _ _ _ _ _ _ _ _ Hn Hrun)
    as [(_ & Hrel) | (Hok & _)]; [| contradiction].
  split; [exact Hunset |]. split; [exact Hdangling |]. split; [exact Hrel |].
  intros pool Hin. rewrite Hrel in Hin. apply in_rev in Hin.
  apply List.filter_In in Hin as [_ Hp]. discriminate Hp.
Qed.

(** The adjust filter on a driver that cannot create the configuration. *)
Lemma Open_failure_accounting_witness :
  exists filter_sys ev,
    Open example_open_config_fails example_format example_format
      VAProcFilterColorBalance adjust_data_calloc
      (OpenAdjust_InitFilterParams example_env_three_caps) None
    = Ret (VLC_EGENERIC, Some filter_sys, adjust_data_calloc, None, ev)
    /\ last ev = Some (E_free Blk_filter_sys)
    /\ released ev = rev (List.filter (fun r => negb (is_pool r)) (acquired ev)).
Proof.
  eexists _, _. split; [vm_compute; reflexivity |].
  edestruct (Open_failure_accounting example_open_config_fails example_format
               example_format VAProcFilterColorBalance adjust_data_calloc
               (OpenAdjust_InitFilterParams example_env_three_caps) None
               VLC_EGENERIC)
    as (_ & Hdangling & Hrel & _).
  - apply OpenAdjust_InitFilterParams_neutral.
  - vm_compute. reflexivity.
  - discriminate.
  - split; [apply Hdangling; eexists; reflexivity | exact Hrel].
Defined.

(** X7.  After a successful [Open], with callbacks that touch no resource of
    the session, [Close] on the [filter_sys] it left dereferences no null
    pointer, acquires nothing, and gives back exactly the resources [Open]
    acquired: the output pool first, then the others in the reverse order of
    acquisition.  [Open] itself released nothing. *)
Theorem Open_then_Close {D P : Type} (o : open_oracle)
    (fmt_in fmt_out : video_format_t) (filter_type : VAProcFilterType)
    (data : D)
    (pf_init_filter_params : D -> res (init_result D P))
    (pf_use_pipeline_caps :
       option (D -> VAProcPipelineCaps -> res (Z * D * list event)))
    (p_sys : option (filter_sys_t D)) (d : D) (p : option P)
    (ev : list event) :
  callbacks_neutral pf_init_filter_params pf_use_pipeline_caps ->
  Open o fmt_in fmt_out filter_type data pf_init_filter_params
    pf_use_pipeline_caps = Ret (VLC_SUCCESS, p_sys, d, p, ev) ->
  exists filter_sys pool ev_close,
    p_sys = Some filter_sys
    /\ Close filter_sys = Ret ev_close
    /\ released ev = []
    /\ acquired ev_close = []
    /\ In (R_pool pool) (acquired ev)
    /\ released ev_close
       = R_pool pool
         :: rev (List.filter (fun r => negb (is_pool r)) (acquired ev))
    /\ released ev_close ≡ₚ acquired ev.
Proof.
  intros Hn Hrun.
  destruct (Open_accounting _ _ _ _ _ _ _ _ _ _ _ _ Hn Hrun)
    as [(Hret & _) | (_ & filter_sys & i & pool & Hsys & Hi & Hpool & Hacq & Hrel & _)];
    [contradiction |].
  exists filter_sys, pool. unfold Close. rewrite Hpool, Hi. cbn [deref bind].
  eexists. split; [exact Hsys |]. split; [reflexivity |].
  split; [exact Hrel |]. split; [reflexivity |].
  rewrite Hacq. split; [cbn; tauto |]. split; [reflexivity |].
  change (R_pool pool
          :: rev [ R_filter_sys; R_instance i; R_config (conf (va filter_sys));
                   R_context (ctx (va filter_sys));
                   R_buffer (buf (va filter_sys)) ]
          ≡ₚ [ R_filter_sys; R_instance i; R_pool pool;
               R_config (conf (va filter_sys));
               R_context (ctx (va filter_sys));
               R_buffer (buf (va filter_sys)) ]).
  rewrite <- Permutation_rev.
  etransitivity; [apply perm_swap |]. apply perm_skip. apply perm_swap.
Qed.

(** The adjust filter on a driver on which every call succeeds. *)
Lemma Open_then_Close_witness :
  exists filter_sys d p ev ev_close,
    Open example_open_ok example_format example_format
      VAProcFilterColorBalance adjust_data_calloc
      (OpenAdjust_InitFilterParams example_env_three_caps) None
    = Ret (VLC_SUCCESS, Some filter_sys, d, p, ev)
    /\ Close filter_sys = Ret ev_close
    /\ released ev_close ≡ₚ acquired ev.
Proof.
  edestruct (Open_then_Close example_open_ok example_format example_format
              VAProcFilterColorBalance adjust_data_calloc
              (OpenAdjust_InitFilterParams example_env_three_caps) None)
    as (filter_sys & pool & ev_close & Hsys & Hclose & _ & _ & _ & _ & Hperm).
  - apply OpenAdjust_InitFilterParams_neutral.
  - vm_compute. reflexivity.
  - injection Hsys as <-.
    eexists _, _, _, _, ev_close. split; [vm_compute; reflexivity |].
    split; [exact Hclose | exact Hperm].
Defined.

(** ** The capability scan of the adjust filter, channel by channel *)

Lemma for_range_find_state {A S R : Type} (t : list A) (p : A -> bool)
    (f : A -> R) (s : S) (body : N -> S -> res (flow S R)) :
  (forall i m, t !! i = Some m ->
     body (N.of_nat i) s = if p m then Ret (Leave (f m)) else Ret (Next s)) ->
  forall (k from : nat), (from + k = length t)%nat ->
    for_range (N.of_nat from) k body s
    = match List.find p (drop from t) with
      | Some m => Ret (Leave (f m))
      | None => Ret (Next s)
      end.
Proof.
  intros Hbody. induction k as [| k IH]; intros from Hlen.
  - rewrite drop_ge by lia. reflexivity.
  - destruct (lookup_lt_is_Some_2 t from) as [m Hm]; [lia |].
    rewrite (drop_S _ _ _ Hm). cbn [for_range List.find].
    rewrite (Hbody _ _ Hm). destruct (p m); [reflexivity |].
    rewrite <- Nat2N.inj_succ. apply IH. lia.
Qed.

Lemma for_range_app {S R : Type} (body : N -> S -> res (flow S R)) (n m : nat) :
  forall (from : N) (s : S),
    for_range from (n + m) body s
    = match for_range from n body s with
      | Ret (Next s') => for_range (from + N.of_nat n)%N m body s'
      | other => other
      end.
Proof.
  induction n as [| n IH]; intros from s.
  - cbn [for_range Nat.add]. replace (from + N.of_nat 0)%N with from by lia.
    reflexivity.
  - cbn [for_range Nat.add]. destruct (body from s) as [[s' | r] | f]; try reflexivity.
    rewrite IH. replace (N.succ from + N.of_nat n)%N
      with (from + N.of_nat (Datatypes.S n))%N by lia.
    reflexivity.
Qed.

Section ChannelScan.

Variable inherit : string -> Q.
Variable caps : list VAProcFilterCapColorBalance.

(** One iteration of the outer loop, on a channel of the tables. *)
Lemma OpenAdjust_scan_modes_step_channel (i : nat) (d : adjust_data)
    (mode : VAProcColorBalanceType) (name : string) (r : range) :
  va_adjust_modes !! i = Some mode ->
  adjust_params_names !! i = Some name ->
  vlc_adjust_sigma_ranges !! i = Some r ->
  (i < length (sigma d))%nat ->
  OpenAdjust_scan_modes_step inherit caps (N.of_nat i) d
  = Ret (Next
      match first_cap caps mode with
      | Some c =>
          mk_adjust_data
            (<[i := mk_adjust_sigma
                      (GET_DRV_SIGMA
                         (adapt_adjust_sigma name
                            (VLC_CLIP (inherit name) (min_value r) (max_value r)) r)
                         r (cap_range c))
                      (cap_range c) true]> (sigma d))
            (u32 (num_available_modes d + 1))
      | None => d
      end).
Proof.
  intros Hmode Hname Hr Hlen. unfold OpenAdjust_scan_modes_step.
  change 0%N with (N.of_nat 0).
  rewrite (for_range_find_state caps
             (fun c => bool_decide (cap_type c = mode))
             (fun c => mk_adjust_data
                  (<[i := mk_adjust_sigma
                            (GET_DRV_SIGMA
                               (adapt_adjust_sigma name
                                  (VLC_CLIP (inherit name) (min_value r)
                                     (max_value r)) r)
                               r (cap_range c))
                            (cap_range c) true]> (sigma d))
                  (u32 (num_available_modes d + 1)))).
  - rewrite drop_0. unfold first_cap.
    destruct (List.find _ caps); reflexivity.
  - intros j c Hc. unfold OpenAdjust_scan_caps_step, tab_get, tab_set.
    rewrite !Nat2N.id, Hc, Hmode. cbn [bind].
    destruct (bool_decide (cap_type c = mode)); [| reflexivity].
    rewrite Hname, Hr. cbn [bind].
    apply Nat.ltb_lt in Hlen. rewrite Hlen. reflexivity.
  - reflexivity.
Qed.

(** The first [k] iterations of the outer loop on the zeroed [p_data]. *)
Lemma OpenAdjust_scan_prefix (k : nat) :
  (k <= 4)%nat -> (k <= length caps)%nat ->
  exists d,
    for_range 0 k (OpenAdjust_scan_modes_step inherit caps) adjust_data_calloc
    = Ret (Next d)
    /\ sigma d = map (fun i => if (i <? k)%nat then scanned_sigma inherit caps i
                               else mk_adjust_sigma 0 va_range_zero false)
                     (seq 0 4).
Proof.
  induction k as [| k IH]; intros Hk Hcaps.
  - exists adjust_data_calloc. split; reflexivity.
  - destruct IH as (d & Hrun & Hsig); [lia | lia |].
    replace (Datatypes.S k) with (k + 1)%nat by lia.
    rewrite for_range_app, Hrun. cbn [for_range]. rewrite N.add_0_l.
    destruct (lookup_lt_is_Some_2 va_adjust_modes k) as [mode Hmode];
      [cbn; lia |].
    destruct (lookup_lt_is_Some_2 adjust_params_names k) as [name Hname];
      [cbn; lia |].
    destruct (lookup_lt_is_Some_2 vlc_adjust_sigma_ranges k) as [r Hr];
      [cbn; lia |].
    rewrite (OpenAdjust_scan_modes_step_channel k d mode name r Hmode Hname Hr)
      by (rewrite Hsig; cbn; lia).
    eexists. split; [reflexivity |].
    assert (Hlt : (k <? length caps)%nat = true) by (apply Nat.ltb_lt; lia).
    assert (Hsc : scanned_sigma inherit caps k
                  = match first_cap caps mode with
                    | Some c =>
                        mk_adjust_sigma
                          (GET_DRV_SIGMA
                             (adapt_adjust_sigma name
                                (VLC_CLIP (inherit name) (min_value r)
                                   (max_value r)) r)
                             r (cap_range c))
                          (cap_range c) true
                    | None => mk_adjust_sigma 0 va_range_zero false
                    end).
    { unfold scanned_sigma. rewrite Hmode, Hname, Hr, Hlt. reflexivity. }
    destruct k as [| [| [| [| k]]]]; [ | | | | lia];
      cbn [seq map Nat.ltb Nat.leb Nat.add] in Hsig |- *;
      rewrite Hsc; destruct (first_cap caps mode);
      cbn [sigma]; rewrite Hsig; reflexivity.
Qed.

End ChannelScan.

Lemma scanned_sigma_channel (inherit : string -> Q)
    (caps : list VAProcFilterCapColorBalance) (i : nat)
    (mode : VAProcColorBalanceType) :
  va_adjust_modes !! i = Some mode ->
  (is_available (scanned_sigma inherit caps i) = true
   <-> (i < length caps)%nat /\ In mode (map cap_type caps))
  /\ (is_available (scanned_sigma inherit caps i) = true ->
      exists j c,
        caps !! j = Some c /\ cap_type c = mode
        /\ (forall j' c', (j' < j)%nat -> caps !! j' = Some c' ->
              cap_type c' <> mode)
        /\ drv_range (scanned_sigma inherit caps i) = cap_range c).
Proof.
  intros Hmode. unfold scanned_sigma. rewrite Hmode.
  destruct (lookup_lt_is_Some_2 adjust_params_names i) as [name Hname].
  { apply lookup_lt_Some in Hmode. exact Hmode. }
  destruct (lookup_lt_is_Some_2 vlc_adjust_sigma_ranges i) as [r Hr].
  { apply lookup_lt_Some in Hmode. exact Hmode. }
  rewrite Hname, Hr.
  destruct (i <? length caps)%nat eqn:Elt.
  2: { apply Nat.ltb_ge in Elt. cbn [is_available].
       split; [split; [discriminate | intros [Hc _]; lia] | discriminate]. }
  apply Nat.ltb_lt in Elt.
  destruct (first_cap caps mode) as [c |] eqn:Ef; cbn [is_available drv_range].
  - unfold first_cap in Ef.
    destruct (find_is_first _ _ _ Ef) as (j & Hj & Hp & Hfirst).
    apply bool_decide_eq_true in Hp.
    split.
    + split; [intros _ | reflexivity]. split; [exact Elt |].
      apply in_map_iff. exists c. split; [exact Hp |].
      apply list_elem_of_In. eapply list_elem_of_lookup_2. exact Hj.
    + intros _. exists j, c. split; [exact Hj |]. split; [exact Hp |].
      split.
      { intros j' c' Hlt Hc'. specialize (Hfirst j' c' Hlt Hc').
        apply bool_decide_eq_false in Hfirst. exact Hfirst. }
      reflexivity.
  - split; [| discriminate]. split; [discriminate |].
    intros [_ Hin]. exfalso. apply in_map_iff in Hin as (c & Hc & Hin).
    unfold first_cap in Ef. pose proof (List.find_none _ _ Ef c Hin) as Hp.
    apply bool_decide_eq_false in Hp. contradiction.
Qed.

(** X8.  When the capability query succeeds and reports at most four
    entries, [OpenAdjust_InitFilterParams] on the zeroed [p_data] returns
    ([VLC_ENOMEM] if the buffer cannot be allocated, [VLC_SUCCESS] otherwise)
    and leaves each channel [i] of the tables flagged available exactly when
    [i] is below the number of reported entries and the report has an entry of
    the channel's type; the driver range stored is that of the first such
    entry. *)
Theorem OpenAdjust_InitFilterParams_channels (env : adjust_open_env) :
  query_ret env = 0%Z ->
  (length (query_caps env) <= 4)%nat ->
  exists d p num ev,
    OpenAdjust_InitFilterParams env adjust_data_calloc
    = Ret (if calloc_va_params_ok env then VLC_SUCCESS else VLC_ENOMEM,
           d, p, num, ev)
    /\ forall i mode, va_adjust_modes !! i = Some mode ->
         exists s,
           sigma d !! i = Some s
           /\ (is_available s = true
               <-> (i < length (query_caps env))%nat
                   /\ In mode (map cap_type (query_caps env)))
           /\ (is_available s = true ->
               exists j c,
                 query_caps env !! j = Some c /\ cap_type c = mode
                 /\ (forall j' c', (j' < j)%nat -> query_caps env !! j' = Some c' ->
                       cap_type c' <> mode)
                 /\ drv_range s = cap_range c).
Proof.
  intros Hq Hlen.
  destruct (OpenAdjust_scan_prefix (var_InheritFloat env) (query_caps env)
              (length (query_caps env)) Hlen (le_n _)) as (d & Hscan & Hsig).
  pose proof (OpenAdjust_scan_result _ _ _ Hscan) as [Hlen4 Hnum].
  assert (Hchan : forall i mode, va_adjust_modes !! i = Some mode ->
            sigma d !! i
            = Some (scanned_sigma (var_InheritFloat env) (query_caps env) i)).
  { intros i mode Hmode. rewrite Hsig.
    assert (Hi : (i < 4)%nat) by (apply lookup_lt_Some in Hmode; exact Hmode).
    destruct (i <? length (query_caps env))%nat eqn:Elt.
    - destruct i as [| [| [| [| i]]]]; [ | | | | lia];
        cbn [seq map lookup list_lookup]; rewrite Elt; reflexivity.
    - assert (Hz : scanned_sigma (var_InheritFloat env) (query_caps env) i
                   = mk_adjust_sigma 0 va_range_zero false).
      { unfold scanned_sigma. rewrite Elt.
        destruct (va_adjust_modes !! i), (adjust_params_names !! i),
          (vlc_adjust_sigma_ranges !! i); reflexivity. }
      rewrite Hz.
      destruct i as [| [| [| [| i]]]]; [ | | | | lia];
        cbn [seq map lookup list_lookup]; rewrite Elt; reflexivity. }
  assert (Hrun : exists p num ev,
            OpenAdjust_InitFilterParams env adjust_data_calloc
            = Ret (if calloc_va_params_ok env then VLC_SUCCESS else VLC_ENOMEM,
                   d, p, num, ev)).
  { unfold OpenAdjust_InitFilterParams. rewrite Hq. cbn [Z.eqb negb].
    rewrite Hscan. cbn [bind].
    destruct (calloc_va_params_ok env); cbn [negb];
      [| eexists _, _, _; reflexivity].
    clear Hscan Hsig Hchan. four_sigmas d. cbn [sigma num_available_modes] in *.
    unfold available_channels, va_adjust_modes in Hnum. cbn in Hnum.
    flags; cbn in Hnum; subst; eexists _, _, _; vm_compute; reflexivity. }
  destruct Hrun as (p & num & ev & Hrun).
  exists d, p, num, ev. split; [exact Hrun |].
  intros i mode Hmode. eexists. split; [exact (Hchan i mode Hmode) |].
  exact (scanned_sigma_channel _ _ i mode Hmode).
Qed.

(** The report {contrast, hue}: hue has index 2 in the tables, which is not
    below the two reported entries. *)
Lemma OpenAdjust_InitFilterParams_channels_witness :
  exists d p num ev s,
    OpenAdjust_InitFilterParams example_env_contrast_hue adjust_data_calloc
    = Ret (VLC_SUCCESS, d, p, num, ev)
    /\ sigma d !! 2%nat = Some s
    /\ (is_available s = true
        <-> (2 < length (query_caps example_env_contrast_hue))%nat
            /\ In VAProcColorBalanceHue
                 (map cap_type (query_caps example_env_contrast_hue))).
Proof.
  assert (Hq : query_ret example_env_contrast_hue = 0%Z) by reflexivity.
  assert (Hlen : (length (query_caps example_env_contrast_hue) <= 4)%nat)
    by (cbn; lia).
  destruct (OpenAdjust_InitFilterParams_channels example_env_contrast_hue Hq Hlen)
    as (d & p & num & ev & Hrun & Hchan).
  destruct (Hchan 2%nat VAProcColorBalanceHue eq_refl) as (s & Hs & Hav & _).
  exists d, p, num, ev, s. split; [exact Hrun |]. split; [exact Hs | exact Hav].
Defined.

(** X9.  When the capability query succeeds and reports more than four
    entries, [OpenAdjust_InitFilterParams] on the zeroed [p_data] reads
    [va_adjust_modes[4]], past the end of the table, whatever the entries
    are. *)
Theorem OpenAdjust_InitFilterParams_overflow (env : adjust_open_env) :
  query_ret env = 0%Z ->
  (4 < length (query_caps env))%nat ->
  OpenAdjust_InitFilterParams env adjust_data_calloc = Fault (OutOfBounds 4).
Proof.
  intros Hq Hlen.
  destruct (OpenAdjust_scan_prefix (var_InheritFloat env) (query_caps env) 4%nat)
    as (d & Hscan & _); [lia | lia |].
  unfold OpenAdjust_InitFilterParams. rewrite Hq. cbn [Z.eqb negb].
  replace (length (query_caps env))
    with (4 + Datatypes.S (length (query_caps env) - 5))%nat at 1 by lia.
  rewrite for_range_app, Hscan. cbn [for_range].
  unfold OpenAdjust_scan_modes_step.
  destruct (query_caps env) as [| c caps] eqn:Ecaps; [cbn in Hlen; lia |].
  cbn [length for_range]. unfold OpenAdjust_scan_caps_step at 1.
  reflexivity.
Qed.

(** A report of five entries. *)
Lemma OpenAdjust_InitFilterParams_overflow_witness :
  OpenAdjust_InitFilterParams example_env_five_caps adjust_data_calloc
  = Fault (OutOfBounds 4).
Proof.
  apply OpenAdjust_InitFilterParams_overflow; [reflexivity | cbn; lia].
Defined.

(** ** Heap blocks, variables and callbacks of the submodules *)

Ltac open_blocks_perm :=
  let Hf2 := fresh "Hf2" in
  intros Hf2;
  unfold Open_error;
  cbn [va set_va set_p_data inst conf ctx buf surface_ids dest_pics];
  repeat match goal with
         | H : omap frees _ = _ /\ omap allocates _ = _ |- _ =>
             let Hf := fresh "Hfr" in let Ha := fresh "Hal" in
             destruct H as [Hf Ha]
         end;
  repeat match goal with
         | H : context [(?x =? 0)%Z], E : (?x =? 0)%Z = _ |- _ => rewrite E in H
         end;
  repeat (progress (cbn; rewrite_tests; rewrite ?omap_app;
                    repeat match goal with
                           | H : omap _ _ = _ |- _ => rewrite H
                           end));
  rewrite ?app_nil_r; first [reflexivity | apply perm_swap].

(* [early]: [pf_init_filter_params] was not reached. *)
Ltac open_blocks_early Hrun :=
  injection Hrun as <- <- <- <- <-; exists [];
  split; [left; split; [reflexivity |]; split; [discriminate | left; reflexivity] |];
  split; [discriminate |]; open_blocks_perm.

(* [late]: a failure after [pf_init_filter_params] returned, outside
   [pf_use_pipeline_caps]. *)
Ltac open_blocks_late Hrun Einit :=
  injection Hrun as <- <- <- <- <-; exists [];
  split; [left; split; [reflexivity |]; split;
          [discriminate | right; eexists _, _, _, _; first [exact Einit | reflexivity]] |];
  split; [discriminate |]; open_blocks_perm.

Ltac open_blocks_sys :=
  intros _; eexists _, _, _; split; [reflexivity |];
  split; [reflexivity |]; split; reflexivity.

(** The heap blocks in the trace of [Open]: what is allocated is freed,
    except [filter_sys] on success and what [pf_use_pipeline_caps]
    allocated.  [ev_use] is the trace of [pf_use_pipeline_caps], empty if it
    was not called. *)
Lemma Open_blocks {D P : Type} (o : open_oracle)
    (fmt_in fmt_out : video_format_t) (filter_type : VAProcFilterType)
    (data : D)
    (pf_init_filter_params : D -> res (init_result D P))
    (pf_use_pipeline_caps :
       option (D -> VAProcPipelineCaps -> res (Z * D * list event)))
    (ret : Z) (p_sys : option (filter_sys_t D)) (d : D) (p : option P)
    (ev : list event) :
  init_allocates_params pf_init_filter_params ->
  Open o fmt_in fmt_out filter_type data pf_init_filter_params
    pf_use_pipeline_caps = Ret (ret, p_sys, d, p, ev) ->
  exists ev_use,
    ((ev_use = []
      /\ (ret = VLC_SUCCESS -> pf_use_pipeline_caps = None)
      /\ (d = data
          \/ exists r1 p1 n1 ev1,
               pf_init_filter_params data = Ret (r1, d, p1, n1, ev1)))
     \/ (exists use_caps r1 d1 p1 n1 ev1 r2,
           pf_use_pipeline_caps = Some use_caps
           /\ pf_init_filter_params data = Ret (r1, d1, p1, n1, ev1)
           /\ use_caps d1 (o_pipeline_caps o) = Ret (r2, d, ev_use)
           /\ (r2 = 0%Z <-> ret = VLC_SUCCESS)))
    /\ (ret = VLC_SUCCESS ->
        exists filter_sys pool i,
          p_sys = Some filter_sys /\ dest_pics filter_sys = Some pool
          /\ inst (va filter_sys) = Some i /\ p_data filter_sys = d)
    /\ (omap frees ev_use = [] ->
        omap allocates ev
        ≡ₚ omap frees ev
           ++ (if (ret =? 0)%Z then [Blk_filter_sys] else [])
           ++ omap allocates ev_use).
Proof.
  intros Hinit Hrun. unfold Open in Hrun.
  destruct (_ || _)%bool; [open_blocks_early Hrun |].
  destruct (o_calloc_filter_sys o) eqn:Ecalloc; cbn [negb] in Hrun;
    [| open_blocks_early Hrun].
  cbn zeta in Hrun.
  cbn [inst dpy conf ctx buf surface_ids va dest_pics set_va] in Hrun.
  destruct (o_FilterHoldInstance o) as [[i dpy] |];
    cbn [option_map from_option fst snd] in Hrun.
  2: { cbn in Hrun. open_blocks_early Hrun. }
  destruct (o_PoolNew o) as [[pool sids] |];
    cbn [option_map from_option fst snd] in Hrun.
  2: { cbn in Hrun. open_blocks_early Hrun. }
  change (bool_decide (is_Some (Some i))) with true in Hrun.
  change (bool_decide (is_Some (Some pool))) with true in Hrun.
  cbn [negb] in Hrun.
  open_step Hrun; [open_blocks_early Hrun |].
  open_step Hrun; [open_blocks_early Hrun |].
  open_step Hrun; [| open_blocks_early Hrun].
  destruct (pf_init_filter_params data) as [[[[[ret1 d1] p1] n1] ev1] | f] eqn:Einit;
    [| discriminate Hrun].
  cbn [bind] in Hrun.
  pose proof (Hinit _ _ _ _ _ _ Einit) as Hn1.
  open_step Hrun; [| open_blocks_late Hrun Einit].
  open_step Hrun; [open_blocks_late Hrun Einit |].
  open_step Hrun; [| open_blocks_late Hrun Einit].
  destruct pf_use_pipeline_caps as [use_caps |].
  - destruct (use_caps d1 (o_pipeline_caps o)) as [[[ret2 d2] ev2] | f] eqn:Euse;
      [| discriminate Hrun].
    cbn [bind] in Hrun.
    open_step Hrun.
    + injection Hrun as <- <- <- <- <-. exists ev2.
      split.
      { right. eexists _, _, _, _, _, _, _. split; [reflexivity |].
        split; [first [exact Einit | reflexivity] |].
        split; [first [exact Euse | reflexivity] |].
        apply Z.eqb_eq in Heqb5. subst ret2. split; reflexivity. }
      split; [open_blocks_sys |]. open_blocks_perm.
    + injection Hrun as <- <- <- <- <-. exists ev2.
      split.
      { right. eexists _, _, _, _, _, _, _. split; [reflexivity |].
        split; [first [exact Einit | reflexivity] |].
        split; [first [exact Euse | reflexivity] |].
        apply Z.eqb_neq in Heqb5. split; [contradiction | discriminate]. }
      split; [discriminate |]. open_blocks_perm.
  - injection Hrun as <- <- <- <- <-. exists [].
    split.
    { left. split; [reflexivity |]. split; [reflexivity |].
      right. eexists _, _, _, _. first [exact Einit | reflexivity]. }
    split; [open_blocks_sys |]. open_blocks_perm.
Qed.

Lemma OpenAdjust_InitFilterParams_allocates (env : adjust_open_env) :
  init_allocates_params (OpenAdjust_InitFilterParams env).
Proof.
  intros d ret d' p n ev Hrun. unfold OpenAdjust_InitFilterParams in Hrun.
  destruct (negb _); [injection Hrun as <- <- <- <- <-; split; reflexivity |].
  destruct (for_range 0 _ _ d) as [[d1 | []] | f]; [| discriminate Hrun].
  cbn [bind] in Hrun.
  destruct (calloc_va_params_ok env); cbn [negb] in Hrun;
    [| injection Hrun as <- <- <- <- <-; split; reflexivity].
  destruct (for_range 0 _ _ _) as [[[m k] | []] | f]; [| discriminate Hrun].
  cbn [bind] in Hrun. injection Hrun as <- <- <- <- <-. split; reflexivity.
Qed.

Lemma OpenBasicFilter_InitFilterParams_allocates (env : basic_open_env) :
  init_allocates_params (OpenBasicFilter_InitFilterParams env).
Proof.
  intros d ret d' p n ev Hrun. unfold OpenBasicFilter_InitFilterParams in Hrun.
  destruct (_ || _)%bool; [injection Hrun as <- <- <- <- <-; split; reflexivity |].
  destruct (p_vlc_range (basic_sigma_of d)) as [r |]; [| discriminate Hrun].
  cbn [deref bind] in Hrun.
  destruct (basic_calloc_va_param_ok env); cbn [negb] in Hrun;
    injection Hrun as <- <- <- <- <-; split; reflexivity.
Qed.

Lemma OpenDeinterlace_InitFilterParams_allocates (env : deint_params_env) :
  init_allocates_params
    (fun d => x <- OpenDeinterlace_InitFilterParams env d ;; Ret (fst x)).
Proof.
  intros d ret d' p n ev Hrun. unfold OpenDeinterlace_InitFilterParams in Hrun.
  destruct (negb _); [injection Hrun as <- <- <- <- <-; split; reflexivity |].
  destruct (OpenDeinterlace_GetMode _ _ _) as [[[r ty] msgs] | f];
    [| discriminate Hrun].
  cbn [bind] in Hrun.
  destruct (negb (r =? 0)%Z);
    [injection Hrun as <- <- <- <- <-; split; reflexivity |].
  destruct (deint_calloc_va_param_ok env); cbn [negb bind fst] in Hrun;
    injection Hrun as <- <- <- <- <-; split; reflexivity.
Qed.

Lemma m_acquires_Ev (ev : list event) :
  omap m_acquires (map Ev ev) = map MR_block (omap allocates ev).
Proof.
  induction ev as [| e ev IH]; [reflexivity |].
  cbn. rewrite IH. destruct (allocates e); reflexivity.
Qed.

Lemma m_releases_Ev (ev : list event) :
  omap m_releases (map Ev ev) = map MR_block (omap frees ev).
Proof.
  induction ev as [| e ev IH]; [reflexivity |].
  cbn. rewrite IH. destruct (frees e); reflexivity.
Qed.

(* Both sides of a balance of module resources, as lists of resources. *)
Ltac m_normalize :=
  unfold m_released, m_acquired;
  repeat (progress (cbn; rewrite ?omap_app, ?m_acquires_Ev, ?m_releases_Ev,
                        ?map_app)).

Lemma for_adjust_names_calls (call : string -> list module_event) :
  for_adjust_names call
  = Ret (call "contrast" ++ call "brightness" ++ call "hue" ++ call "saturation").
Proof.
  transitivity (Ret (((([] ++ call "contrast") ++ call "brightness")
                       ++ call "hue") ++ call "saturation"));
    [reflexivity |].
  cbn [app]. rewrite <- !app_assoc. reflexivity.
Qed.

Lemma Close_frees {D : Type} (filter_sys : filter_sys_t D)
    (pool : picture_pool_t) (i : vlc_vaapi_instance) :
  dest_pics filter_sys = Some pool -> inst (va filter_sys) = Some i ->
  exists ev_close,
    Close filter_sys = Ret ev_close
    /\ omap allocates ev_close = []
    /\ omap frees ev_close = [Blk_filter_sys].
Proof.
  intros Hpool Hi. unfold Close. rewrite Hpool, Hi.
  eexists. split; [reflexivity |]. split; reflexivity.
Qed.

Lemma In_Ev_map (e : event) (ev : list event) :
  In (Ev e) (map Ev ev) <-> In e ev.
Proof.
  rewrite in_map_iff. split.
  - intros (e' & E & Hin). injection E as ->. exact Hin.
  - intros Hin. exists e. split; [reflexivity | exact Hin].
Qed.

(** [filter->p_sys] after an entry point whose call of [Open] failed, the
    calls of [Open] standing between those of the entry point. *)
Lemma Open_p_sys_module {D P : Type} (o : open_oracle)
    (fmt_in fmt_out : video_format_t) (filter_type : VAProcFilterType)
    (data : D)
    (pf_init_filter_params : D -> res (init_result D P))
    (pf_use_pipeline_caps :
       option (D -> VAProcPipelineCaps -> res (Z * D * list event)))
    (ret : Z) (p_sys : option (filter_sys_t D)) (d : D) (p : option P)
    (ev_open : list event) (pre post : list module_event) :
  Open o fmt_in fmt_out filter_type data pf_init_filter_params
    pf_use_pipeline_caps = Ret (ret, p_sys, d, p, ev_open) ->
  ret <> VLC_SUCCESS ->
  ~ In (Ev (E_calloc Blk_filter_sys true)) pre ->
  ~ In (Ev (E_calloc Blk_filter_sys true)) post ->
  (p_sys = None
   <-> ~ In (Ev (E_calloc Blk_filter_sys true)) ((pre ++ map Ev ev_open) ++ post))
  /\ (is_Some p_sys ->
      In (Ev (E_free Blk_filter_sys)) ((pre ++ map Ev ev_open) ++ post)).
Proof.
  intros Hrun Hret Hpre Hpost.
  destruct (Open_p_sys _ _ _ _ _ _ _ _ _ _ _ _ Hrun Hret) as [Hunset Hdangling].
  split.
  - rewrite Hunset, !in_app_iff, In_Ev_map. tauto.
  - intros Hsome. apply Hdangling in Hsome.
    apply last_Some in Hsome as [l ->].
    rewrite !in_app_iff, In_Ev_map, in_app_iff. left. right. right. left.
    reflexivity.
Qed.

(* An entry point that failed before it called [Open]. *)
Ltac entry_unset :=
  split; [split; [intros _; cbn; intuition discriminate | reflexivity] |];
  split; [intros [? C]; discriminate C | reflexivity].

Ltac not_in_entry := cbn; intuition discriminate.

(** X10.  [OpenAdjust] and [CloseAdjust] balance the heap blocks, the
    variables of the filter object and the callbacks on them: a failing
    [OpenAdjust] has released whatever it set up, and after a successful one
    [CloseAdjust] returns and releases exactly what is still set up.  After a
    failure [filter->p_sys] is unset exactly when no block was allocated for
    [filter_sys]; otherwise it is left pointing to that block, which has been
    freed. *)
Theorem OpenAdjust_balanced (calloc_p_data_ok : bool) (o : open_oracle)
    (env : adjust_open_env) (fmt_in fmt_out : video_format_t)
    (ret : Z) (p_sys : option (filter_sys_t adjust_data))
    (p : option (list VAProcFilterParameterBufferColorBalance))
    (ev : list module_event) :
  OpenAdjust calloc_p_data_ok o env fmt_in fmt_out = Ret (ret, p_sys, p, ev) ->
  (ret <> VLC_SUCCESS ->
   (p_sys = None <-> ~ In (Ev (E_calloc Blk_filter_sys true)) ev)
   /\ (is_Some p_sys -> In (Ev (E_free Blk_filter_sys)) ev)
   /\ m_released ev ≡ₚ m_acquired ev)
  /\ (ret = VLC_SUCCESS ->
      exists filter_sys ev_close,
        p_sys = Some filter_sys
        /\ CloseAdjust filter_sys = Ret ev_close
        /\ m_released (ev ++ ev_close) ≡ₚ m_acquired (ev ++ ev_close)).
Proof.
  unfold OpenAdjust. intros Hrun.
  destruct calloc_p_data_ok; cbn [negb] in Hrun.
  2: { injection Hrun as <- <- <- <-.
       split; [intros _; entry_unset | discriminate]. }
  rewrite for_adjust_names_calls in Hrun. cbn [bind] in Hrun.
  destruct (Open _ _ _ _ _ _ _) as [[[[[r sys] d] m] ev_open] | f] eqn:Eopen;
    [| discriminate Hrun].
  cbn [bind] in Hrun.
  destruct (Open_blocks _ _ _ _ _ _ _ _ _ _ _ _
              (OpenAdjust_InitFilterParams_allocates env) Eopen)
    as (ev_use & Huse & Hsys & Hperm).
  destruct Huse as [(-> & _) | (u & ? & ? & ? & ? & ? & ? & C & _)];
    [| discriminate C].
  specialize (Hperm eq_refl). cbn [omap app] in Hperm.
  rewrite for_adjust_names_calls in Hrun. cbn [bind] in Hrun.
  destruct (r =? 0)%Z eqn:Er; cbn [negb] in Hrun; injection Hrun as <- <- <- <-.
  - apply Z.eqb_eq in Er. subst r. split; [intros C; contradiction C; reflexivity |].
    intros _. destruct (Hsys eq_refl) as (filter_sys & pool & i & -> & Hpool & Hi & _).
    destruct (Close_frees filter_sys pool i Hpool Hi) as (ev_close & Hclose & Hca & Hcf).
    exists filter_sys.
    unfold CloseAdjust. rewrite for_adjust_names_calls. cbn [bind].
    rewrite Hclose. cbn [bind].
    eexists. split; [reflexivity |]. split; [reflexivity |].
    m_normalize. rewrite Hca, Hcf, Hperm. m_normalize. solve_Permutation.
  - split; [| discriminate].
    intros _. apply Z.eqb_neq in Er.
    destruct (Open_p_sys_module _ _ _ _ _ _ _ _ _ _ _ _
                (E_calloc_p_data true
                 :: [E_var_Create "contrast"; E_var_Create "brightness";
                     E_var_Create "hue"; E_var_Create "saturation"])
                ([E_var_Destroy (Some "contrast");
                  E_var_Destroy (Some "brightness");
                  E_var_Destroy (Some "hue");
                  E_var_Destroy (Some "saturation")] ++ [E_free_p_data])
                Eopen Er) as [Hunset Hdangling]; [not_in_entry | not_in_entry |].
    split; [exact Hunset |]. split; [exact Hdangling |].
    m_normalize. rewrite Hperm. m_normalize. solve_Permutation.
Qed.

(** A session on a driver on which every call succeeds. *)
Lemma OpenAdjust_balanced_witness :
  exists filter_sys p ev ev_close,
    OpenAdjust true example_open_ok example_env_three_caps
      example_format example_format
    = Ret (VLC_SUCCESS, Some filter_sys, p, ev)
    /\ CloseAdjust filter_sys = Ret ev_close
    /\ m_released (ev ++ ev_close) ≡ₚ m_acquired (ev ++ ev_close).
Proof.
  edestruct (OpenAdjust_balanced true example_open_ok example_env_three_caps
               example_format example_format)
    as [_ Hok]; [vm_compute; reflexivity |].
  destruct (Hok eq_refl) as (filter_sys & ev_close & Hsys & Hclose & Hperm).
  injection Hsys as <-.
  eexists _, _, _, ev_close. split; [vm_compute; reflexivity |].
  split; [exact Hclose | exact Hperm].
Defined.

Lemma OpenBasicFilter_InitFilterParams_name (env : basic_open_env)
    (d d' : basic_filter_data) (ret : Z) (p : option VAProcFilterParameterBuffer)
    (n : N) (ev : list event) :
  OpenBasicFilter_InitFilterParams env d = Ret (ret, d', p, n, ev) ->
  psz_name (basic_sigma_of d') = psz_name (basic_sigma_of d).
Proof.
  unfold OpenBasicFilter_InitFilterParams. intros Hrun.
  destruct (_ || _)%bool; [injection Hrun as <- <- <- <- <-; reflexivity |].
  destruct (p_vlc_range (basic_sigma_of d)) as [r |]; [| discriminate Hrun].
  cbn [deref bind] in Hrun.
  destruct (basic_calloc_va_param_ok env); cbn [negb] in Hrun;
    injection Hrun as <- <- <- <- <-; reflexivity.
Qed.

(** X11.  [OpenBasicFilter] and [CloseBasicFilter] balance the heap blocks,
    the variable of the filter object and the callback on it: a failing
    [OpenBasicFilter] has released whatever it set up, and after a successful
    one [CloseBasicFilter] returns and releases exactly what is still set up,
    under the name the variable was created with.  After a failure
    [filter->p_sys] is unset exactly when no block was allocated for
    [filter_sys]; otherwise it is left pointing to that block, which has been
    freed. *)
Theorem OpenBasicFilter_balanced (calloc_p_data_ok calloc_psz_name_ok : bool)
    (o : open_oracle) (env : basic_open_env) (filter_psz_name : string)
    (fmt_in fmt_out : video_format_t)
    (ret : Z) (p_sys : option (filter_sys_t basic_filter_data))
    (p : option VAProcFilterParameterBuffer) (ev : list module_event) :
  OpenBasicFilter calloc_p_data_ok calloc_psz_name_ok o env filter_psz_name
    fmt_in fmt_out = Ret (ret, p_sys, p, ev) ->
  (ret <> VLC_SUCCESS ->
   (p_sys = None <-> ~ In (Ev (E_calloc Blk_filter_sys true)) ev)
   /\ (is_Some p_sys -> In (Ev (E_free Blk_filter_sys)) ev)
   /\ m_released ev ≡ₚ m_acquired ev)
  /\ (ret = VLC_SUCCESS ->
      exists filter_sys ev_close,
        p_sys = Some filter_sys
        /\ psz_name (basic_sigma_of (p_data filter_sys))
           = String.append filter_psz_name "-sigma"
        /\ CloseBasicFilter filter_sys = Ret ev_close
        /\ m_released (ev ++ ev_close) ≡ₚ m_acquired (ev ++ ev_close)).
Proof.
  unfold OpenBasicFilter. intros Hrun.
  destruct calloc_p_data_ok; cbn [negb] in Hrun.
  2: { injection Hrun as <- <- <- <-.
       split; [intros _; entry_unset | discriminate]. }
  destruct calloc_psz_name_ok; cbn [negb] in Hrun.
  2: { injection Hrun as <- <- <- <-.
       split; [intros _; entry_unset | discriminate]. }
  set (choice := if String.eqb filter_psz_name "denoise" then _ else _) in Hrun.
  destruct choice as [filter_type p_vlc_range].
  destruct (Open _ _ _ _ _ _ _) as [[[[[r sys] d] m] ev_open] | f] eqn:Eopen;
    [| discriminate Hrun].
  cbn [bind] in Hrun.
  destruct (Open_blocks _ _ _ _ _ _ _ _ _ _ _ _
              (OpenBasicFilter_InitFilterParams_allocates env) Eopen)
    as (ev_use & Huse & Hsys & Hperm).
  destruct Huse as [(-> & _ & Hd) | (u & ? & ? & ? & ? & ? & ? & C & _)];
    [| discriminate C].
  specialize (Hperm eq_refl). cbn [omap app] in Hperm.
  assert (Hname : psz_name (basic_sigma_of d)
                  = String.append filter_psz_name "-sigma").
  { destruct Hd as [-> | (r1 & p1 & n1 & ev1 & Hinit)]; [reflexivity |].
    apply OpenBasicFilter_InitFilterParams_name in Hinit. exact Hinit. }
  destruct (r =? 0)%Z eqn:Er; cbn [negb] in Hrun; injection Hrun as <- <- <- <-.
  - apply Z.eqb_eq in Er. subst r. split; [intros C; contradiction C; reflexivity |].
    intros _.
    destruct (Hsys eq_refl) as (filter_sys & pool & i & -> & Hpool & Hi & Hdata).
    destruct (Close_frees filter_sys pool i Hpool Hi) as (ev_close & Hclose & Hca & Hcf).
    exists filter_sys.
    unfold CloseBasicFilter. rewrite Hclose. cbn [bind]. rewrite Hdata, Hname.
    eexists. split; [reflexivity |]. split; [reflexivity |].
    split; [reflexivity |].
    m_normalize. rewrite Hca, Hcf, Hperm. m_normalize. solve_Permutation.
  - split; [| discriminate].
    intros _. apply Z.eqb_neq in Er.
    destruct (Open_p_sys_module _ _ _ _ _ _ _ _ _ _ _ _
                [E_calloc_p_data true; E_calloc_psz_name true;
                 E_var_Create (String.append filter_psz_name "-sigma")]
                [E_var_Destroy (Some (String.append filter_psz_name "-sigma"));
                 E_free_psz_name; E_free_p_data]
                Eopen Er) as [Hunset Hdangling]; [not_in_entry | not_in_entry |].
    split; [exact Hunset |]. split; [exact Hdangling |].
    m_normalize. rewrite Hperm. m_normalize. solve_Permutation.
Qed.

(** The denoise filter on a driver on which every call succeeds. *)
Lemma OpenBasicFilter_balanced_witness :
  exists filter_sys p ev ev_close,
    OpenBasicFilter true true example_open_ok example_basic_env "denoise"
      example_format example_format
    = Ret (VLC_SUCCESS, Some filter_sys, p, ev)
    /\ CloseBasicFilter filter_sys = Ret ev_close
    /\ m_released (ev ++ ev_close) ≡ₚ m_acquired (ev ++ ev_close).
Proof.
  edestruct (OpenBasicFilter_balanced true true example_open_ok
               example_basic_env "denoise" example_format example_format)
    as [_ Hok]; [vm_compute; reflexivity |].
  destruct (Hok eq_refl) as (filter_sys & ev_close & Hsys & _ & Hclose & Hperm).
  injection Hsys as <-.
  eexists _, _, _, ev_close. split; [vm_compute; reflexivity |].
  split; [exact Hclose | exact Hperm].
Defined.

Lemma OpenDeinterlace_InitFilterParams_data (env : deint_params_env)
    (d d' : deint_data) (ret : Z)
    (p : option VAProcFilterParameterBufferDeinterlacing) (n : N)
    (ev : list event) :
  (x <- OpenDeinterlace_InitFilterParams env d ;; Ret (fst x))
  = Ret (ret, d', p, n, ev) ->
  d' = d.
Proof.
  unfold OpenDeinterlace_InitFilterParams. intros Hrun.
  destruct (negb _); [injection Hrun as <- <- <- <- <-; reflexivity |].
  destruct (OpenDeinterlace_GetMode _ _ _) as [[[r ty] msgs] | f];
    [| discriminate Hrun].
  cbn [bind] in Hrun.
  destruct (negb (r =? 0)%Z);
    [injection Hrun as <- <- <- <- <-; reflexivity |].
  destruct (deint_calloc_va_param_ok env); cbn [negb bind fst] in Hrun;
    injection Hrun as <- <- <- <- <-; reflexivity.
Qed.

Lemma OpenDeinterlace_InitHistory_blocks (env : deint_open_env)
    (caps : VAProcPipelineCaps) (ret : Z) (d : deint_data) (ev : list event) :
  OpenDeinterlace_InitHistory env deint_data_calloc caps = Ret (ret, d, ev) ->
  omap frees ev = []
  /\ omap allocates ev
     = (if bool_decide (is_Some (pp_pics (history d)))
        then [Blk_history_pics] else [])
       ++ (if bool_decide (is_Some (ref_block d)) then [Blk_ref_surfaces] else [])
  /\ (ret = VLC_SUCCESS ->
      exists pics, pp_pics (history d) = Some pics /\ num_pics (history d) = 0%N).
Proof.
  unfold OpenDeinterlace_InitHistory. intros Hrun.
  destruct (calloc_pp_pics_ok env); cbn [negb] in Hrun.
  2: { injection Hrun as <- <- <-. repeat split; discriminate. }
  destruct (negb _).
  - destruct (malloc_surfaces env) as [junk |]; injection Hrun as <- <- <-.
    + split; [reflexivity |]. split; [reflexivity |].
      intros _. eexists. split; reflexivity.
    + split; [reflexivity |]. split; [reflexivity |]. discriminate.
  - injection Hrun as <- <- <-.
    split; [reflexivity |]. split; [reflexivity |].
    intros _. eexists. split; reflexivity.
Qed.

(** X12.  [OpenDeinterlace] and [CloseDeinterlace] balance the heap blocks:
    a failing [OpenDeinterlace] has freed every block allocated, among them
    the blocks of the history that [OpenDeinterlace_InitHistory] had obtained
    before it failed; after a successful one [CloseDeinterlace] returns and
    frees exactly the blocks that are still allocated.  After a failure
    [filter->p_sys] is unset exactly when no block was allocated for
    [filter_sys]; otherwise it is left pointing to that block, which has been
    freed. *)
Theorem OpenDeinterlace_balanced (calloc_p_data_ok : bool) (o : open_oracle)
    (env : deint_params_env) (env_history : deint_open_env)
    (fmt_in fmt_out : video_format_t)
    (ret : Z) (p_sys : option (filter_sys_t deint_data))
    (p : option VAProcFilterParameterBufferDeinterlacing)
    (ev : list module_event) :
  OpenDeinterlace calloc_p_data_ok o env env_history fmt_in fmt_out
  = Ret (ret, p_sys, p, ev) ->
  (ret <> VLC_SUCCESS ->
   (p_sys = None <-> ~ In (Ev (E_calloc Blk_filter_sys true)) ev)
   /\ (is_Some p_sys -> In (Ev (E_free Blk_filter_sys)) ev)
   /\ m_released ev ≡ₚ m_acquired ev)
  /\ (ret = VLC_SUCCESS ->
      exists filter_sys ev_close,
        p_sys = Some filter_sys
        /\ CloseDeinterlace filter_sys = Ret ev_close
        /\ m_released (ev ++ ev_close) ≡ₚ m_acquired (ev ++ ev_close)).
Proof.
  unfold OpenDeinterlace. intros Hrun.
  destruct calloc_p_data_ok; cbn [negb] in Hrun.
  2: { injection Hrun as <- <- <- <-.
       split; [intros _; entry_unset | discriminate]. }
  destruct (Open _ _ _ _ _ _ _) as [[[[[r sys] d] m] ev_open] | f] eqn:Eopen;
    [| discriminate Hrun].
  cbn [bind] in Hrun.
  destruct (Open_blocks _ _ _ _ _ _ _ _ _ _ _ _
              (OpenDeinterlace_InitFilterParams_allocates env) Eopen)
    as (ev_use & Huse & Hsys & Hperm).
  assert (Hd : omap frees ev_use = []
               /\ omap allocates ev_use
                  = (if bool_decide (is_Some (pp_pics (history d)))
                     then [Blk_history_pics] else [])
                    ++ (if bool_decide (is_Some (ref_block d))
                        then [Blk_ref_surfaces] else [])
               /\ (r = VLC_SUCCESS ->
                   exists pics, pp_pics (history d) = Some pics
                                /\ num_pics (history d) = 0%N)).
  { destruct Huse as [(-> & Hno & Hd) | (u & r1 & d1 & p1 & n1 & ev1 & r2 & Hu & Hi & Hrun2 & Hr2)].
    - assert (d = deint_data_calloc) as ->.
      { destruct Hd as [-> | (r1 & p1 & n1 & ev1 & Hinit)]; [reflexivity |].
        exact (OpenDeinterlace_InitFilterParams_data _ _ _ _ _ _ _ Hinit). }
      split; [reflexivity |]. split; [reflexivity |].
      intros Hr. specialize (Hno Hr). discriminate Hno.
    - injection Hu as <-.
      apply OpenDeinterlace_InitFilterParams_data in Hi. subst d1.
      destruct (OpenDeinterlace_InitHistory_blocks _ _ _ _ _ Hrun2)
        as (Hf & Ha & Hok).
      split; [exact Hf |]. split; [exact Ha |].
      intros Hr. apply Hok. apply Hr2. exact Hr. }
  destruct Hd as (Hf2 & Ha2 & Hok).
  specialize (Hperm Hf2). rewrite Ha2 in Hperm.
  destruct (r =? 0)%Z eqn:Er; cbn [negb] in Hrun; injection Hrun as <- <- <- <-.
  - apply Z.eqb_eq in Er. subst r. split; [intros C; contradiction C; reflexivity |].
    intros _.
    destruct (Hsys eq_refl) as (filter_sys & pool & i & -> & Hpool & Hi & Hdata).
    destruct (Hok eq_refl) as (pics & Hpics & Hnum).
    destruct (Close_frees filter_sys pool i Hpool Hi) as (ev_close & Hclose & Hca & Hcf).
    exists filter_sys.
    unfold CloseDeinterlace. rewrite Hdata, Hpics, Hnum.
    cbn [N.to_nat CloseDeinterlace_release bind map app].
    rewrite Hclose. cbn [bind].
    eexists. split; [reflexivity |]. split; [reflexivity |].
    rewrite Hpics in Hperm.
    destruct (bool_decide (is_Some (ref_block d)));
      m_normalize; rewrite Hca, Hcf, Hperm; m_normalize; solve_Permutation.
  - split; [| discriminate].
    intros _. apply Z.eqb_neq in Er.
    destruct (Open_p_sys_module _ _ _ _ _ _ _ _ _ _ _ _
                [E_calloc_p_data true] (OpenDeinterlace_error d)
                Eopen Er) as [Hunset Hdangling]; [not_in_entry | |].
    { unfold OpenDeinterlace_error.
      destruct (bool_decide (is_Some (ref_block d))),
               (bool_decide (is_Some (pp_pics (history d)))); not_in_entry. }
    split; [exact Hunset |]. split; [exact Hdangling |].
    unfold OpenDeinterlace_error.
    destruct (bool_decide (is_Some (ref_block d))),
             (bool_decide (is_Some (pp_pics (history d))));
      m_normalize; rewrite Hperm; m_normalize; solve_Permutation.
Qed.

(** The allocation of the reference surfaces fails, after that of the history
    succeeded. *)
Lemma OpenDeinterlace_balanced_witness :
  exists filter_sys ev,
    OpenDeinterlace true example_open_ok example_deint_params_env
      (mk_deint_open_env true None) example_format example_format
    = Ret (VLC_EGENERIC, Some filter_sys, None, ev)
    /\ In (Ev (E_calloc Blk_history_pics true)) ev
    /\ In (Ev (E_free Blk_filter_sys)) ev
    /\ m_released ev ≡ₚ m_acquired ev.
Proof.
  edestruct (OpenDeinterlace_balanced true example_open_ok
               example_deint_params_env (mk_deint_open_env true None)
               example_format example_format)
    as [Hfail _]; [vm_compute; reflexivity |].
  destruct Hfail as (_ & Hfreed & Hperm); [discriminate |].
  eexists _, _. split; [vm_compute; reflexivity |].
  split; [vm_compute; auto 20 |].
  split; [apply Hfreed; eexists; reflexivity | exact Hperm].
Defined.

(** ** Closing a Deinterlace session *)

Lemma CloseDeinterlace_release_loop (w : list picture_t)
    (pad : list (option picture_t)) (k : nat) :
  forall fuel : nat,
    (k <= length w)%nat -> (k <= fuel)%nat -> (N.of_nat k < 2 ^ 32)%N ->
    CloseDeinterlace_release fuel (map Some w ++ pad) (N.of_nat k)
    = Ret (map E_picture_Release (rev (take k w))).
Proof.
  induction k as [| k IH]; intros fuel Hk Hfuel Hlt.
  - destruct fuel; reflexivity.
  - destruct fuel as [| fuel]; [lia |].
    cbn [CloseDeinterlace_release].
    destruct (N.eqb_spec (N.of_nat (Datatypes.S k)) 0) as [C | _]; [lia |].
    rewrite u32_sub_small by lia.
    replace (N.of_nat (Datatypes.S k) - 1)%N with (N.of_nat k) by lia.
    destruct (lookup_lt_is_Some_2 w k) as [x Hx]; [lia |].
    rewrite (tab_get_lookup _ _ (Some x)).
    2: { rewrite Nat2N.id, lookup_app_l by (rewrite length_map; lia).
         rewrite list_lookup_fmap, Hx. reflexivity. }
    cbn [bind deref]. rewrite IH by lia. cbn [bind].
    rewrite (take_S_r _ _ _ Hx), rev_app_distr. reflexivity.
Qed.

(** X13.  In a session opened with [b] backward and [f] forward references,
    after any sequence of submissions, [CloseDeinterlace] returns.  It frees
    the reference block if there is one, releases exactly the frames the
    history still holds (the last [min n sz] submitted, the newest first, each
    once), frees the history and [p_data], and closes the session. *)
Theorem CloseDeinterlace_releases_window (env : deint_open_env)
    (caps : VAProcPipelineCaps) (d0 : deint_data) (ev0 : list event)
    (frames : list picture_t) (filter_sys : filter_sys_t deint_data)
    (pool : picture_pool_t) (i : vlc_vaapi_instance) :
  let b := caps_num_backward_references caps in
  let f := caps_num_forward_references caps in
  let sz := N.to_nat (b + 1 + f) in
  let n := length frames in
  (b + 1 + f < 2 ^ 32)%N ->
  OpenDeinterlace_InitHistory env deint_data_calloc caps
    = Ret (VLC_SUCCESS, d0, ev0) ->
  deint_reachable d0 frames (p_data filter_sys) ->
  dest_pics filter_sys = Some pool ->
  inst (va filter_sys) = Some i ->
  exists ev_close,
    Close filter_sys = Ret ev_close
    /\ CloseDeinterlace filter_sys
       = Ret ((if bool_decide (is_Some (ref_block (p_data filter_sys)))
               then [Ev (E_free Blk_ref_surfaces)] else [])
              ++ map (fun pic => Ev (E_picture_Release pic))
                   (rev (drop (n - sz) frames))
              ++ [Ev (E_free Blk_history_pics); E_free_p_data]
              ++ map Ev ev_close).
Proof.
  intros b f sz n Hsz Hinit Hreach Hpool Hi.
  pose proof (deint_reachable_inv env caps d0 ev0 frames _ Hsz Hinit Hreach)
    as (Hh & _).
  fold b f sz in Hh. subst n.
  destruct (Close_frees filter_sys pool i Hpool Hi) as (ev_close & Hclose & _).
  exists ev_close. split; [exact Hclose |].
  unfold CloseDeinterlace. rewrite Hh. cbn [pp_pics num_pics].
  unfold window_of.
  assert (Hk : min (length frames) sz
               = length (drop (length frames - sz) frames)).
  { rewrite length_drop. lia. }
  rewrite Hk.
  rewrite CloseDeinterlace_release_loop.
  - cbn [bind]. rewrite Hclose. cbn [bind].
    rewrite take_ge by lia. rewrite map_map, <- !app_assoc. reflexivity.
  - lia.
  - lia.
  - rewrite <- Hk. unfold sz. lia.
Qed.

(** The session with one reference on each side, closed after one frame was
    submitted. *)
Lemma CloseDeinterlace_releases_window_witness :
  exists filter_sys ev_close,
    Deinterlace example_oracle_ok example_deint_sys tt (example_frame 1%N true)
    = Ret (None, filter_sys, tt, [])
    /\ Close filter_sys = Ret ev_close
    /\ CloseDeinterlace filter_sys
       = Ret ([ Ev (E_free Blk_ref_surfaces);
                Ev (E_picture_Release (example_frame 1%N true));
                Ev (E_free Blk_history_pics); E_free_p_data ]
              ++ map Ev ev_close).
Proof.
  assert (Hsz : (caps_num_backward_references example_caps_1_1 + 1
                 + caps_num_forward_references example_caps_1_1 < 2 ^ 32)%N)
    by reflexivity.
  assert (Hinit : OpenDeinterlace_InitHistory example_deint_env
                    deint_data_calloc example_caps_1_1
                  = Ret (VLC_SUCCESS, example_deint_d0,
                         [E_calloc Blk_history_pics true;
                          E_malloc Blk_ref_surfaces true]))
    by reflexivity.
  eassert (Hrun : Deinterlace example_oracle_ok example_deint_sys tt
                    (example_frame 1%N true) = Ret (None, _, tt, []))
    by (vm_compute; reflexivity).
  pose proof (deint_reach_step example_deint_d0 unit [] example_deint_d0
                example_oracle_ok example_deint_sys tt (example_frame 1%N true)
                _ _ _ _ (deint_reach_init _) eq_refl Hrun) as Hreach.
  destruct (CloseDeinterlace_releases_window example_deint_env example_caps_1_1
              example_deint_d0 _ _ _ 6%N 1%N Hsz Hinit Hreach eq_refl eq_refl)
    as (ev_close & Hclose & Hcd).
  eexists _, ev_close. split; [exact Hrun |]. split; [exact Hclose |].
  exact Hcd.
Defined.

(** ** What a successful open leaves *)

Ltac open_not_success Hrun := exfalso; discriminate Hrun.

(** A successful [Open]: every step succeeded, [filter_sys] holds valid
    handles, and [p_data] and the parameter blob are what the callbacks
    left. *)
Lemma Open_success {D P : Type} (o : open_oracle)
    (fmt_in fmt_out : video_format_t) (filter_type : VAProcFilterType)
    (data : D)
    (pf_init_filter_params : D -> res (init_result D P))
    (pf_use_pipeline_caps :
       option (D -> VAProcPipelineCaps -> res (Z * D * list event)))
    (p_sys : option (filter_sys_t D)) (d : D) (p : option P)
    (ev : list event) :
  Open o fmt_in fmt_out filter_type data pf_init_filter_params
    pf_use_pipeline_caps = Ret (VLC_SUCCESS, p_sys, d, p, ev) ->
  exists d1 n1 ev1 filter_sys i pool,
    pf_init_filter_params data = Ret (VLC_SUCCESS, d1, p, n1, ev1)
    /\ match pf_use_pipeline_caps with
       | None => d = d1
       | Some use_caps =>
           exists ev2, use_caps d1 (o_pipeline_caps o) = Ret (VLC_SUCCESS, d, ev2)
       end
    /\ p_sys = Some filter_sys
    /\ p_data filter_sys = d
    /\ inst (va filter_sys) = Some i
    /\ dest_pics filter_sys = Some pool
    /\ conf (va filter_sys) <> VA_INVALID_ID
    /\ ctx (va filter_sys) <> VA_INVALID_ID
    /\ buf (va filter_sys) <> VA_INVALID_ID
    /\ b_pipeline_fast filter_sys
       = negb (N.land (caps_pipeline_flags (o_pipeline_caps o))
                 VA_PROC_PIPELINE_FAST =? 0)%N.
Proof.
  intros Hrun. unfold Open in Hrun.
  destruct (_ || _)%bool; [open_not_success Hrun |].
  destruct (o_calloc_filter_sys o) eqn:Ecalloc; cbn [negb] in Hrun;
    [| open_not_success Hrun].
  cbn zeta in Hrun.
  cbn [inst dpy conf ctx buf surface_ids va dest_pics set_va] in Hrun.
  destruct (o_FilterHoldInstance o) as [[i dpy] |];
    cbn [option_map from_option fst snd] in Hrun.
  2: { cbn in Hrun. open_not_success Hrun. }
  destruct (o_PoolNew o) as [[pool sids] |];
    cbn [option_map from_option fst snd] in Hrun.
  2: { cbn in Hrun. open_not_success Hrun. }
  change (bool_decide (is_Some (Some i))) with true in Hrun.
  change (bool_decide (is_Some (Some pool))) with true in Hrun.
  cbn [negb] in Hrun.
  open_step Hrun; [open_not_success Hrun |].
  open_step Hrun; [open_not_success Hrun |].
  open_step Hrun; [| open_not_success Hrun].
  destruct (pf_init_filter_params data) as [[[[[ret1 d1] p1] n1] ev1] | f] eqn:Einit;
    [| discriminate Hrun].
  cbn [bind] in Hrun.
  open_step Hrun; [| open_not_success Hrun].
  open_step Hrun; [open_not_success Hrun |].
  open_step Hrun; [| open_not_success Hrun].
  apply Z.eqb_eq in Heqb2. subst ret1.
  apply N.eqb_neq in Heqb, Heqb0, Heqb3.
  destruct pf_use_pipeline_caps as [use_caps |].
  - destruct (use_caps d1 (o_pipeline_caps o)) as [[[ret2 d2] ev2] | f] eqn:Euse;
      [| discriminate Hrun].
    cbn [bind] in Hrun.
    open_step Hrun; [| open_not_success Hrun].
    apply Z.eqb_eq in Heqb2. subst ret2.
    injection Hrun as <- <- <- <-.
    eexists d1, n1, ev1, _, i, pool. split; [first [exact Einit | reflexivity] |].
    split; [exists ev2; exact Euse |].
    split; [reflexivity |]. cbn.
    repeat split; assumption.
  - injection Hrun as <- <- <- <-.
    eexists d1, n1, ev1, _, i, pool. split; [first [exact Einit | reflexivity] |].
    split; [reflexivity |].
    split; [reflexivity |]. cbn.
    repeat split; assumption.
Qed.

Lemma OpenAdjust_InitFilterParams_blob (env : adjust_open_env) (d0 d : adjust_data)
    (p : option (list VAProcFilterParameterBufferColorBalance)) (n : N)
    (ev : list event) :
  OpenAdjust_InitFilterParams env d0 = Ret (VLC_SUCCESS, d, p, n, ev) ->
  exists m, p = Some m.
Proof.
  unfold OpenAdjust_InitFilterParams. intros Hrun.
  destruct (negb _); [discriminate Hrun |].
  destruct (for_range 0 _ _ d0) as [[d1 | []] | f]; [| discriminate Hrun].
  cbn [bind] in Hrun.
  destruct (calloc_va_params_ok env); cbn [negb] in Hrun; [| discriminate Hrun].
  destruct (for_range 0 _ _ _) as [[[m k] | []] | f]; [| discriminate Hrun].
  cbn [bind] in Hrun. injection Hrun as <- <- <- <-. exists m. reflexivity.
Qed.

Lemma callbacks_added_Ev (ev : list event) : callbacks_added (map Ev ev) = [].
Proof. induction ev as [| e ev IH]; [reflexivity | exact IH]. Qed.

Lemma callbacks_added_app (ev1 ev2 : list module_event) :
  callbacks_added (ev1 ++ ev2) = callbacks_added ev1 ++ callbacks_added ev2.
Proof. apply omap_app. Qed.

(** X14.  A successful [OpenAdjust] leaves a session in its opening state,
    with the parameter blob [OpenAdjust_InitFilterParams] built, and attaches
    [FilterCallback] to exactly the four adjust variables, in the order of the
    table, each time with a [p_data] the callback is well typed on. *)
Theorem OpenAdjust_session (calloc_p_data_ok : bool) (o : open_oracle)
    (env : adjust_open_env) (fmt_in fmt_out : video_format_t)
    (p_sys : option (filter_sys_t adjust_data))
    (p : option (list VAProcFilterParameterBufferColorBalance))
    (ev : list module_event) :
  OpenAdjust calloc_p_data_ok o env fmt_in fmt_out
  = Ret (VLC_SUCCESS, p_sys, p, ev) ->
  exists filter_sys m,
    p_sys = Some filter_sys
    /\ p = Some m
    /\ adjust_reachable (p_data filter_sys) m
    /\ callbacks_added ev = adjust_params_names
    /\ forall name, In name (callbacks_added ev) ->
         cb_well_typed name (AdjustData (p_data filter_sys)).
Proof.
  unfold OpenAdjust. intros Hrun.
  destruct calloc_p_data_ok; cbn [negb] in Hrun; [| discriminate Hrun].
  rewrite for_adjust_names_calls in Hrun. cbn [bind] in Hrun.
  destruct (Open _ _ _ _ _ _ _) as [[[[[r sys] d] m] ev_open] | f] eqn:Eopen;
    [| discriminate Hrun].
  cbn [bind] in Hrun. rewrite for_adjust_names_calls in Hrun. cbn [bind] in Hrun.
  destruct (r =? 0)%Z eqn:Er; cbn [negb] in Hrun; [| discriminate Hrun].
  apply Z.eqb_eq in Er. subst r. injection Hrun as <- <- <-.
  destruct (Open_success _ _ _ _ _ _ _ _ _ _ _ Eopen)
    as (d1 & n1 & ev1 & filter_sys & i & pool & Hinit & <- & -> & Hdata & _).
  destruct (OpenAdjust_InitFilterParams_blob _ _ _ _ _ _ Hinit) as [blob ->].
  exists filter_sys, blob. split; [reflexivity |]. split; [reflexivity |].
  rewrite Hdata.
  split; [exact (adjust_reach_open env d blob n1 ev1 Hinit) |].
  assert (Hcb : callbacks_added
                  (E_calloc_p_data true
                   :: E_var_Create "contrast" :: E_var_Create "brightness"
                   :: E_var_Create "hue" :: E_var_Create "saturation"
                   :: map Ev ev_open
                      ++ [ E_var_AddCallback "contrast";
                           E_var_AddCallback "brightness";
                           E_var_AddCallback "hue";
                           E_var_AddCallback "saturation" ])
                = adjust_params_names).
  { change (callbacks_added
              (map Ev ev_open
               ++ [ E_var_AddCallback "contrast"; E_var_AddCallback "brightness";
                    E_var_AddCallback "hue"; E_var_AddCallback "saturation" ])
            = adjust_params_names).
    rewrite callbacks_added_app, callbacks_added_Ev. reflexivity. }
  split; [exact Hcb |].
  rewrite Hcb. intros name Hin.
  destruct (OpenAdjust_establishes_inv env d blob n1 ev1 Hinit) as [(Hlen & _) _].
  split; [exact Hlen |].
  cbn in Hin. intros [C | C]; subst name;
    destruct Hin as [H | [H | [H | [H | []]]]]; discriminate H.
Qed.

(** A session on a driver on which every call succeeds. *)
Lemma OpenAdjust_session_witness :
  exists filter_sys m ev,
    OpenAdjust true example_open_ok example_env_three_caps
      example_format example_format
    = Ret (VLC_SUCCESS, Some filter_sys, Some m, ev)
    /\ adjust_reachable (p_data filter_sys) m
    /\ callbacks_added ev = adjust_params_names.
Proof.
  edestruct (OpenAdjust_session true example_open_ok example_env_three_caps
               example_format example_format)
    as (filter_sys & m & Hsys & Hp & Hreach & Hcb & _); [vm_compute; reflexivity |].
  injection Hsys as <-. injection Hp as <-.
  eexists _, _, _. split; [vm_compute; reflexivity |].
  split; [exact Hreach | exact Hcb].
Defined.

(** What a successful [OpenBasicFilter] leaves in [p_data], and its calls. *)
Lemma OpenBasicFilter_success (calloc_p_data_ok calloc_psz_name_ok : bool)
    (o : open_oracle) (env : basic_open_env) (filter_psz_name : string)
    (fmt_in fmt_out : video_format_t)
    (p_sys : option (filter_sys_t basic_filter_data))
    (p : option VAProcFilterParameterBuffer) (ev : list module_event) :
  OpenBasicFilter calloc_p_data_ok calloc_psz_name_ok o env filter_psz_name
    fmt_in fmt_out = Ret (VLC_SUCCESS, p_sys, p, ev) ->
  exists filter_sys ty r ev_open,
    let name := String.append filter_psz_name "-sigma" in
    p_sys = Some filter_sys
    /\ ((filter_psz_name = "denoise" /\ ty = VAProcFilterNoiseReduction
         /\ r = vlc_denoise_sigma_range)
        \/ (filter_psz_name = "sharpen" /\ ty = VAProcFilterSharpening
            /\ r = vlc_sharpen_sigma_range))
    /\ p_data filter_sys
       = mk_basic_filter_data
           (mk_basic_sigma
              (GET_DRV_SIGMA
                 (VLC_CLIP (basic_var_InheritFloat env name)
                    (min_value r) (max_value r))
                 r (basic_query_range env))
              (basic_query_range env) (Some r) name)
           ty
    /\ p = Some (mk_filter_param ty 0)
    /\ ev = [E_calloc_p_data true; E_calloc_psz_name true; E_var_Create name]
            ++ map Ev ev_open ++ [E_var_AddCallback name].
Proof.
  unfold OpenBasicFilter. intros Hrun.
  destruct calloc_p_data_ok; cbn [negb] in Hrun; [| discriminate Hrun].
  destruct calloc_psz_name_ok; cbn [negb] in Hrun; [| discriminate Hrun].
  assert (Hshape : exists ty rg,
            (if String.eqb filter_psz_name "denoise"
             then (VAProcFilterNoiseReduction, Some vlc_denoise_sigma_range)
             else if String.eqb filter_psz_name "sharpen"
                  then (VAProcFilterSharpening, Some vlc_sharpen_sigma_range)
                  else (VAProcFilterNone, None)) = (ty, rg)
            /\ (rg = None
                \/ exists r, rg = Some r
                   /\ ((filter_psz_name = "denoise"
                        /\ ty = VAProcFilterNoiseReduction
                        /\ r = vlc_denoise_sigma_range)
                       \/ (filter_psz_name = "sharpen"
                           /\ ty = VAProcFilterSharpening
                           /\ r = vlc_sharpen_sigma_range)))).
  { destruct (String.eqb_spec filter_psz_name "denoise") as [E | _].
    - eexists _, _. split; [reflexivity |]. right. eexists. split; [reflexivity |].
      left. auto.
    - destruct (String.eqb_spec filter_psz_name "sharpen") as [E | _].
      + eexists _, _. split; [reflexivity |]. right. eexists.
        split; [reflexivity |]. right. auto.
      + eexists _, _. split; [reflexivity |]. left. reflexivity. }
  destruct Hshape as (ty & rg & Echoice & Hrg). rewrite Echoice in Hrun.
  destruct (Open _ _ _ _ _ _ _) as [[[[[ret sys] d] m] ev_open] | f] eqn:Eopen;
    [| discriminate Hrun].
  cbn [bind] in Hrun.
  destruct (ret =? 0)%Z eqn:Er; cbn [negb] in Hrun; [| discriminate Hrun].
  apply Z.eqb_eq in Er. subst ret. injection Hrun as <- <- <-.
  destruct (Open_success _ _ _ _ _ _ _ _ _ _ _ Eopen)
    as (d1 & n1 & ev1 & filter_sys & i & pool & Hinit & <- & -> & Hdata & _).
  unfold OpenBasicFilter_InitFilterParams in Hinit.
  cbn [basic_sigma_of p_vlc_range psz_name filter_type] in Hinit.
  destruct (_ || _)%bool; [discriminate Hinit |].
  destruct Hrg as [-> | (r & -> & Hcase)]; [discriminate Hinit |].
  cbn [deref bind] in Hinit.
  destruct (basic_calloc_va_param_ok env); cbn [negb] in Hinit;
    [| discriminate Hinit].
  injection Hinit as <- <- _ _.
  exists filter_sys, ty, r, ev_open. cbn zeta.
  split; [reflexivity |]. split; [exact Hcase |]. split; [exact Hdata |].
  split; reflexivity.
Qed.

(** X15.  [OpenBasicFilter] succeeds only under the shortcuts ["denoise"]
    and ["sharpen"].  It then leaves the filter type and the VLC range of that
    shortcut in [p_data], the driver range [[dlo, dhi]] the query reported,
    and as driver value the inherited value clamped to the VLC range
    [[lo, hi]] and mapped by [(x - lo) * (dhi - dlo) / (hi - lo) + dlo]; the
    parameter blob carries the filter type; and
    [FilterCallback] is attached to the one variable [<shortcut>-sigma], with
    a [p_data] the callback is well typed on. *)
Theorem OpenBasicFilter_session (calloc_p_data_ok calloc_psz_name_ok : bool)
    (o : open_oracle) (env : basic_open_env) (filter_psz_name : string)
    (fmt_in fmt_out : video_format_t)
    (p_sys : option (filter_sys_t basic_filter_data))
    (p : option VAProcFilterParameterBuffer) (ev : list module_event) :
  OpenBasicFilter calloc_p_data_ok calloc_psz_name_ok o env filter_psz_name
    fmt_in fmt_out = Ret (VLC_SUCCESS, p_sys, p, ev) ->
  exists filter_sys ty r,
    let name := String.append filter_psz_name "-sigma" in
    let s := basic_sigma_of (p_data filter_sys) in
    p_sys = Some filter_sys
    /\ ((filter_psz_name = "denoise" /\ ty = VAProcFilterNoiseReduction
         /\ r = vlc_denoise_sigma_range)
        \/ (filter_psz_name = "sharpen" /\ ty = VAProcFilterSharpening
            /\ r = vlc_sharpen_sigma_range))
    /\ filter_type (p_data filter_sys) = ty
    /\ p = Some (mk_filter_param ty 0)
    /\ s = mk_basic_sigma
             (let lo := range_min_value r in
              let hi := range_max_value r in
              let dlo := va_min_value (basic_query_range env) in
              let dhi := va_max_value (basic_query_range env) in
              let v := basic_var_InheritFloat env name in
              let m := if Qle_bool v lo then lo else v in
              let x := if Qle_bool hi m then hi else m in
              (x - lo) * (dhi - dlo) / (hi - lo) + dlo)
             (basic_query_range env) (Some r) name
    /\ callbacks_added ev = [name]
    /\ cb_well_typed name (BasicData (p_data filter_sys)).
Proof.
  intros Hrun.
  destruct (OpenBasicFilter_success _ _ _ _ _ _ _ _ _ _ Hrun)
    as (filter_sys & ty & r & ev_open & Hsys & Hcase & Hdata & Hp & Hev).
  cbn zeta in Hdata, Hev.
  exists filter_sys, ty, r. cbn zeta. rewrite Hdata.
  cbn [basic_sigma_of filter_type basic_drv_range basic_drv_value p_vlc_range].
  split; [exact Hsys |]. split; [exact Hcase |]. split; [reflexivity |].
  split; [exact Hp |]. split; [reflexivity |].
  split.
  { rewrite Hev, !callbacks_added_app, callbacks_added_Ev. reflexivity. }
  split.
  - destruct Hcase as [(-> & _) | (-> & _)]; cbn;
      intros [C | [C | [C | [C | []]]]]; discriminate C.
  - intros _. cbn. eexists. reflexivity.
Qed.

(** The denoise filter on a driver on which every call succeeds. *)
Lemma OpenBasicFilter_session_witness :
  exists filter_sys p ev,
    OpenBasicFilter true true example_open_ok example_basic_env "denoise"
      example_format example_format
    = Ret (VLC_SUCCESS, Some filter_sys, p, ev)
    /\ callbacks_added ev = ["denoise-sigma"]
    /\ cb_well_typed "denoise-sigma" (BasicData (p_data filter_sys)).
Proof.
  edestruct (OpenBasicFilter_session true true example_open_ok example_basic_env
               "denoise" example_format example_format)
    as (filter_sys & ty & r & Hsys & _ & _ & _ & _ & Hcb & Hwt);
    [vm_compute; reflexivity |].
  injection Hsys as <-.
  eexists _, _, _. split; [vm_compute; reflexivity |].
  split; [exact Hcb | exact Hwt].
Defined.

(** ** The error path of [Filter] before the pipeline buffer exists *)

Ltac early_failure Hrun :=
  injection Hrun as <- <- <- <-;
  split; [reflexivity |];
  split;
  [ let c := fresh "c" in let b := fresh "b" in let Hin := fresh "Hin" in
    intros c b Hin; in_cases Hin |];
  split;
  [ let Hne := fresh "Hne" in
    intros Hne;
    repeat first [ apply Filter_error_destroys; exact Hne
                 | apply in_or_app; right
                 | right ] |];
  let b := fresh "b" in let Hin := fresh "Hin" in
  intros b Hin; in_cases Hin;
  injection Hin as ->; split; [reflexivity | assumption].

(** X16.  When a picture was obtained from the pool and mapping or unmapping
    the filter parameter buffer or [vlc_vaapi_BeginPicture] fails, [Filter]
    returns [NULL] without having created a pipeline buffer; its error path
    nevertheless reads [pipeline_buf], which the jump left uninitialised, and
    calls [vlc_vaapi_DestroyBuffer] on that value unless it happens to be
    [VA_INVALID_ID].  No other buffer is destroyed. *)
Theorem Filter_destroys_unset_buffer {D P : Type} (o : filter_oracle)
    (sys : filter_sys_t D) (mem : P) (src dest : picture_t)
    (pf1 : option (D -> P -> res P)) (pf2 : option (D -> res D))
    (pf3 : option (D -> VAProcPipelineParameterBuffer
                   -> res VAProcPipelineParameterBuffer))
    (out : option picture_t) (sys' : filter_sys_t D) (mem' : P)
    (ev : list event) :
  o_picture_pool_Wait o = Some dest ->
  (o_MapBuffer_params o <> 0 \/ o_UnmapBuffer_params o <> 0
   \/ o_BeginPicture o <> 0)%Z ->
  Filter o sys mem (Some src) pf1 pf2 pf3 = Ret (out, sys', mem', ev) ->
  out = None
  /\ (forall c b, ~ In (E_vlc_vaapi_CreateBuffer c b) ev)
  /\ (o_pipeline_buf_uninit o <> VA_INVALID_ID ->
      In (E_vlc_vaapi_DestroyBuffer (o_pipeline_buf_uninit o)) ev)
  /\ (forall b, In (E_vlc_vaapi_DestroyBuffer b) ev ->
        b = o_pipeline_buf_uninit o /\ b <> VA_INVALID_ID).
Proof.
  intros Hpool Hfail Hrun. unfold Filter in Hrun. rewrite Hpool in Hrun.
  cbn [deref bind] in Hrun.
  zero_or_not E1 (o_MapBuffer_params o); cbn [negb] in Hrun;
    [| early_failure Hrun].
  destruct (call_opt _ mem) as [mem1 | f]; [| discriminate Hrun].
  cbn [bind] in Hrun.
  zero_or_not E2 (o_UnmapBuffer_params o); cbn [negb] in Hrun;
    [| early_failure Hrun].
  zero_or_not E3 (o_BeginPicture o); cbn [negb] in Hrun;
    [| early_failure Hrun].
  exfalso. tauto.
Qed.

(** Mapping the filter parameter buffer fails. *)
Lemma Filter_destroys_unset_buffer_witness :
  exists sys' ev,
    Filter example_oracle_map_fails
      (mk_filter_sys example_va (Some 6%N) false tt) tt
      (Some (example_frame 1%N true)) None None None
    = Ret (None, sys', tt, ev)
    /\ (forall c b, ~ In (E_vlc_vaapi_CreateBuffer c b) ev)
    /\ In (E_vlc_vaapi_DestroyBuffer 12345%N) ev.
Proof.
  eexists _, _. split; [vm_compute; reflexivity |].
  edestruct (Filter_destroys_unset_buffer example_oracle_map_fails
               (mk_filter_sys example_va (Some 6%N) false tt) tt
               (example_frame 1%N true) (example_frame 10%N true)
               None None None)
    as (_ & Hnone & Hdestroy & _).
  - reflexivity.
  - left. discriminate.
  - vm_compute. reflexivity.
  - split; [exact Hnone |]. apply Hdestroy. discriminate.
Defined.

(** ** The parameters of the deinterlace filter *)

Lemma OpenDeinterlace_GetMode_type (psz_deint_mode : option string)
    (caps : list VAProcDeinterlacingType) (num_caps : N) :
  (N.to_nat num_caps <= length caps)%nat ->
  (exists m msgs,
     In m deint_modes /\ deint_type m ∈ reported caps num_caps
     /\ OpenDeinterlace_GetMode psz_deint_mode caps num_caps
        = Ret (VLC_SUCCESS, Some (deint_type m), msgs))
  \/ ((forall m, In m deint_modes -> deint_type m ∉ reported caps num_caps)
      /\ OpenDeinterlace_GetMode psz_deint_mode caps num_caps
         = Ret (VLC_EGENERIC, None, [Msg_Err_no_algorithm])).
Proof.
  intros Hnum. rewrite (OpenDeinterlace_GetMode_searches caps num_caps Hnum).
  destruct (if names_algorithm psz_deint_mode then _ else None) as [m |] eqn:En.
  { left. exists m. eexists. 
    destruct (names_algorithm psz_deint_mode); [| discriminate En].
    apply List.find_some in En as [Hin Hp].
    apply andb_prop in Hp as [_ Hp]. apply bool_decide_eq_true in Hp.
    split; [exact Hin |]. split; [exact Hp | reflexivity]. }
  clear En.
  destruct (List.find (is_reported caps num_caps) deint_modes) as [m |] eqn:Ef.
  - left. exists m. eexists.
    apply List.find_some in Ef as [Hin Hp]. apply bool_decide_eq_true in Hp.
    split; [exact Hin |]. split; [exact Hp | reflexivity].
  - right. split; [| reflexivity].
    intros m Hin. pose proof (List.find_none _ _ Ef _ Hin) as Hp.
    apply bool_decide_eq_false in Hp. exact Hp.
Qed.

(** X17.  When [num_caps] does not exceed the size of [caps],
    [OpenDeinterlace_InitFilterParams] returns and leaves [p_data] as it was.
    It succeeds exactly when the capability query succeeds, the driver
    reported the type of some entry of [deint_modes], and the parameter block
    can be allocated; the one parameter it then describes has the type
    [VAProcFilterDeinterlacing] and an algorithm of the table that the driver
    reported. *)
Theorem OpenDeinterlace_InitFilterParams_outcome (env : deint_params_env)
    (d : deint_data) :
  (N.to_nat (deint_query_num_caps env) <= length (deint_query_caps env))%nat ->
  exists ret p n ev msgs,
    OpenDeinterlace_InitFilterParams env d = Ret ((ret, d, p, n, ev), msgs)
    /\ (ret = VLC_SUCCESS
        <-> deint_query_ret env = 0%Z
            /\ (exists m, In m deint_modes
                          /\ deint_type m
                             ∈ reported (deint_query_caps env)
                                 (deint_query_num_caps env))
            /\ deint_calloc_va_param_ok env = true)
    /\ (ret = VLC_SUCCESS ->
        n = 1%N
        /\ exists m, In m deint_modes
                     /\ deint_type m
                        ∈ reported (deint_query_caps env)
                            (deint_query_num_caps env)
                     /\ p = Some (mk_deint_param VAProcFilterDeinterlacing
                                    (Some (deint_type m))))
    /\ (ret <> VLC_SUCCESS -> p = None).
Proof.
  intros Hnum. unfold OpenDeinterlace_InitFilterParams.
  destruct (Z.eqb_spec (deint_query_ret env) 0) as [Eq | Eq]; cbn [negb].
  2: { eexists _, _, _, _, _. split; [reflexivity |].
       split; [split; [discriminate | intros (C & _); contradiction] |].
       split; [discriminate | reflexivity]. }
  destruct (OpenDeinterlace_GetMode_type (deint_var_InheritString env) _ _ Hnum)
    as [(m & msgs & Hin & Hrep & ->) | (Hnone & ->)]; cbn [bind Z.eqb negb].
  2: { eexists _, _, _, _, _. split; [reflexivity |].
       split; [split; [discriminate |] |].
       { intros (_ & (m & Hin & Hrep) & _). exfalso. exact (Hnone m Hin Hrep). }
       split; [discriminate | reflexivity]. }
  destruct (deint_calloc_va_param_ok env) eqn:Ec; cbn [negb].
  - eexists _, _, _, _, _. split; [reflexivity |].
    split.
    { split; [intros _ | reflexivity]. split; [exact Eq |].
      split; [exists m; split; assumption | reflexivity]. }
    split.
    { intros _. split; [reflexivity |]. exists m.
      split; [exact Hin |]. split; [exact Hrep | reflexivity]. }
    intros C. contradiction C. reflexivity.
  - eexists _, _, _, _, _. split; [reflexivity |].
    split; [split; [discriminate | intros (_ & _ & C); discriminate C] |].
    split; [discriminate | reflexivity].
Qed.

(** The example report, with no [deinterlace-mode] set. *)
Lemma OpenDeinterlace_InitFilterParams_outcome_witness :
  exists ret p n ev msgs,
    OpenDeinterlace_InitFilterParams example_deint_params_env deint_data_calloc
    = Ret ((ret, deint_data_calloc, p, n, ev), msgs)
    /\ (ret <> VLC_SUCCESS -> p = None).
Proof.
  assert (Hnum : (N.to_nat (deint_query_num_caps example_deint_params_env)
                  <= length (deint_query_caps example_deint_params_env))%nat)
    by (cbn; lia).
  destruct (OpenDeinterlace_InitFilterParams_outcome example_deint_params_env
              deint_data_calloc Hnum)
    as (ret & p & n & ev & msgs & Hrun & _ & _ & Hfail).
  exists ret, p, n, ev, msgs. split; [exact Hrun | exact Hfail].
Defined.

(** ** Reference counts that wrap around *)

Lemma history_sz_wraps (b f : N) :
  (b + 1 + f = 2 ^ 32)%N -> u32 (u32 (b + 1) + f) = 0%N.
Proof.
  intros H. unfold u32. rewrite N.Div0.add_mod_idemp_l, H.
  apply N.Div0.mod_same.
Qed.

(** X19.  [OpenDeinterlace_InitHistory] does not check the reference counts
    the driver reports.  When [num_backward_references + 1 +
    num_forward_references] is [2^32], the size of the history wraps to zero:
    if both allocations succeed the callback returns [VLC_SUCCESS] with a
    history of no slot, and the first picture submitted to [Deinterlace] makes
    [Deinterlace_UpdateHistory] read [pp_pics[0]], outside the block. *)
Theorem Deinterlace_history_size_wraps {P : Type} (env : deint_open_env)
    (caps : VAProcPipelineCaps) (o : filter_oracle) (mem : P) (src : picture_t) :
  (caps_num_backward_references caps + 1 + caps_num_forward_references caps
   = 2 ^ 32)%N ->
  calloc_pp_pics_ok env = true ->
  is_Some (malloc_surfaces env) ->
  exists d0 ev0,
    OpenDeinterlace_InitHistory env deint_data_calloc caps
    = Ret (VLC_SUCCESS, d0, ev0)
    /\ pp_pics (history d0) = Some []
    /\ history_sz (history d0) = 0%N
    /\ forall filter_sys : filter_sys_t deint_data,
         p_data filter_sys = d0 ->
         Deinterlace o filter_sys mem src = Fault (OutOfBounds 0).
Proof.
  intros Hwrap Hcalloc [junk Hmalloc].
  unfold OpenDeinterlace_InitHistory.
  rewrite (history_sz_wraps _ _ Hwrap), Hcalloc, Hmalloc. cbn [negb].
  assert (E : (u32_sub 0 1 =? 0)%N = false) by (vm_compute; reflexivity).
  rewrite E. cbn [negb].
  eexists _, _. split; [reflexivity |].
  split; [reflexivity |]. split; [reflexivity |].
  intros filter_sys Hd.
  unfold Deinterlace, Deinterlace_UpdateHistory. rewrite Hd.
  reflexivity.
Qed.

(** A driver that reports [2^32 - 1] backward references and no forward
    reference. *)
Lemma Deinterlace_history_size_wraps_witness :
  exists d0 ev0,
    OpenDeinterlace_InitHistory example_deint_env deint_data_calloc
      (mk_pipeline_caps 0 0 4294967295)
    = Ret (VLC_SUCCESS, d0, ev0)
    /\ history_sz (history d0) = 0%N
    /\ Deinterlace example_oracle_ok
         (mk_filter_sys example_va (Some 6%N) false d0) tt
         (example_frame 1%N true)
       = Fault (OutOfBounds 0).
Proof.
  destruct (Deinterlace_history_size_wraps (P := unit) example_deint_env
              (mk_pipeline_caps 0 0 4294967295) example_oracle_ok tt
              (example_frame 1%N true))
    as (d0 & ev0 & Hinit & _ & Hsz & Hrun).
  - reflexivity.
  - reflexivity.
  - eexists. reflexivity.
  - exists d0, ev0. split; [exact Hinit |]. split; [exact Hsz |].
    apply Hrun. reflexivity.
Defined.

(** ** A frame of a basic filter *)

Lemma FilterCallback_basic_run (psz_var : string) (newval : Q)
    (b : basic_filter_data) (r : range) :
  ~ In psz_var adjust_params_names ->
  is_basic_sigma_name psz_var ->
  p_vlc_range (basic_sigma_of b) = Some r ->
  FilterCallback psz_var newval (BasicData b)
  = Ret (VLC_SUCCESS,
         BasicData
           (mk_basic_filter_data
              (mk_basic_sigma
                 (GET_DRV_SIGMA (VLC_CLIP newval (min_value r) (max_value r)) r
                    (basic_drv_range (basic_sigma_of b)))
                 (basic_drv_range (basic_sigma_of b))
                 (p_vlc_range (basic_sigma_of b))
                 (psz_name (basic_sigma_of b)))
              (filter_type b))).
Proof.
  intros Hn Hb Hr. destruct b as [[v dr pr nm] ft]. cbn in Hr. subst pr.
  unfold FilterCallback. rewrite FilterCallback_scan_other by exact Hn.
  cbn [bind]. unfold FilterCallback_basic_step. cbn [negb b_found cb_locals_init].
  assert (Eb : ((psz_var =? "denoise-sigma") || (psz_var =? "sharpen-sigma"))%bool
               = true).
  { destruct Hb as [-> | ->]; reflexivity. }
  rewrite Eb. reflexivity.
Qed.

(** X20.  From the variable to the driver, for a basic filter: in a session
    [OpenBasicFilter] opened, a value set through the variable
    [<shortcut>-sigma] is clamped to the VLC range [0, 2] and mapped into the
    driver range [[dlo, dhi]] the query reported, by
    [(x - 0) * (dhi - dlo) / (2 - 0) + dlo]; on the next frame on which the
    pool and the driver succeed, [BasicFilter] writes that value into the
    parameter buffer under the filter type of the session, renders the source
    surface through the
    session's filter buffer with no reference frame, returns the pool picture
    with the properties of the source, and releases the source last. *)
Theorem BasicFilter_session_frame (calloc_p_data_ok calloc_psz_name_ok : bool)
    (oo : open_oracle) (env : basic_open_env) (filter_psz_name : string)
    (fmt_in fmt_out : video_format_t)
    (filter_sys : filter_sys_t basic_filter_data)
    (m : VAProcFilterParameterBuffer) (ev : list module_event)
    (o : filter_oracle) (dest src : picture_t) (newval : Q) :
  OpenBasicFilter calloc_p_data_ok calloc_psz_name_ok oo env filter_psz_name
    fmt_in fmt_out = Ret (VLC_SUCCESS, Some filter_sys, Some m, ev) ->
  filter_oracle_ok o ->
  o_picture_pool_Wait o = Some dest ->
  exists b' m' ev_f,
    FilterCallback (String.append filter_psz_name "-sigma") newval
      (BasicData (p_data filter_sys))
    = Ret (VLC_SUCCESS, BasicData b')
    /\ BasicFilter o (set_p_data filter_sys b') m src
       = Ret (Some (picture_CopyProperties dest src), set_p_data filter_sys b',
              m', ev_f ++ [E_picture_Release src])
    /\ fp_type m' = filter_type (p_data filter_sys)
    /\ fp_value m'
       = (let dlo := va_min_value (basic_query_range env) in
          let dhi := va_max_value (basic_query_range env) in
          let m := if Qle_bool newval 0 then 0 else newval in
          let x := if Qle_bool 2 m then 2 else m in
          (x - 0) * (dhi - dlo) / (2 - 0) + dlo)
    /\ In (E_vlc_vaapi_RenderPicture (ctx (va filter_sys))
             (o_CreateBuffer_pipeline o)
             (mk_pipeline_params (vlc_vaapi_PicGetSurface src)
                [buf (va filter_sys)] 1
                (if b_pipeline_fast filter_sys then VA_PROC_PIPELINE_FAST else 0%N)
                0 [] 0 [] 0)
             0) ev_f.
Proof.
  intros Hopen Hok Hpool.
  destruct (OpenBasicFilter_success _ _ _ _ _ _ _ _ _ _ Hopen)
    as (sys0 & ty & r & ev_open & Hsys & Hcase & Hdata & Hm & _).
  cbn zeta in Hdata. injection Hsys as <-. injection Hm as ->.
  assert (Hty : filter_type (p_data filter_sys) = ty)
    by (rewrite Hdata; reflexivity).
  assert (Hsig : basic_sigma_of (p_data filter_sys)
                 = mk_basic_sigma
                     (GET_DRV_SIGMA
                        (VLC_CLIP
                           (basic_var_InheritFloat env
                              (String.append filter_psz_name "-sigma"))
                           (min_value r) (max_value r))
                        r (basic_query_range env))
                     (basic_query_range env) (Some r)
                     (String.append filter_psz_name "-sigma"))
    by (rewrite Hdata; reflexivity).
  assert (Hn : ~ In (String.append filter_psz_name "-sigma") adjust_params_names).
  { destruct Hcase as [(-> & _) | (-> & _)]; cbn;
      intros [C | [C | [C | [C | []]]]]; discriminate C. }
  assert (Hr : r = mk_range 0 2).
  { destruct Hcase as [(_ & _ & ->) | (_ & _ & ->)]; reflexivity. }
  assert (Hb : is_basic_sigma_name (String.append filter_psz_name "-sigma")).
  { destruct Hcase as [(-> & _) | (-> & _)]; [left | right]; reflexivity. }
  assert (Hpr : p_vlc_range (basic_sigma_of (p_data filter_sys)) = Some r)
    by (rewrite Hsig; reflexivity).
  rewrite (FilterCallback_basic_run _ newval _ r Hn Hb Hpr).
  eexists _, _, _. split; [reflexivity |].
  unfold BasicFilter.
  erewrite (Filter_success o _ _ src dest _ None None _ _ _ Hok Hpool);
    [| reflexivity | reflexivity | reflexivity].
  cbn [bind]. rewrite set_p_data_same.
  split; [reflexivity |].
  cbn [fp_type fp_value p_data set_p_data basic_sigma_of basic_drv_value].
  split; [exact (eq_sym Hty) |].
  rewrite Hsig. cbn [basic_drv_range]. subst r.
  split; [reflexivity |].
  cbn. tauto.
Qed.

(** The denoise filter on a driver on which every call succeeds. *)
Lemma BasicFilter_session_frame_witness :
  exists filter_sys m ev b' m' ev_f,
    OpenBasicFilter true true example_open_ok example_basic_env "denoise"
      example_format example_format
    = Ret (VLC_SUCCESS, Some filter_sys, Some m, ev)
    /\ FilterCallback "denoise-sigma" 1 (BasicData (p_data filter_sys))
       = Ret (VLC_SUCCESS, BasicData b')
    /\ BasicFilter example_oracle_ok (set_p_data filter_sys b') m
         (example_frame 1%N true)
       = Ret (Some (picture_CopyProperties (example_frame 10%N true)
                      (example_frame 1%N true)),
              set_p_data filter_sys b', m',
              ev_f ++ [E_picture_Release (example_frame 1%N true)])
    /\ fp_value m' == 32.
Proof.
  eassert (Hopen : OpenBasicFilter true true example_open_ok example_basic_env
                     "denoise" example_format example_format
                   = Ret (VLC_SUCCESS, Some _, Some _, _))
    by (vm_compute; reflexivity).
  assert (Hok : filter_oracle_ok example_oracle_ok).
  { unfold filter_oracle_ok. cbn. repeat split; discriminate. }
  destruct (BasicFilter_session_frame _ _ _ _ _ _ _ _ _ _ example_oracle_ok
              (example_frame 10%N true) (example_frame 1%N true) 1
              Hopen Hok eq_refl)
    as (b' & m' & ev_f & Hcb & Hrun & _ & Hval & _).
  eexists _, _, _, b', m', ev_f. split; [exact Hopen |].
  split; [exact Hcb |]. split; [exact Hrun |].
  rewrite Hval. vm_compute. reflexivity.
Defined.

(** ** A frame of the adjust filter *)

(** X21.  A frame in an Adjust session.  In every state of the session and
    whatever the pool and the driver answer, [Adjust] returns, releases the
    source last, and leaves a state of the session.  When the pool has no
    free picture it returns [NULL] and leaves the parameter buffer as it was.
    When the pool and every driver step succeed it returns the pool picture
    with the properties of the source, having rewritten the parameter buffer
    by [Adjust_UpdateVAFilterParams] (one entry per available channel, in
    table order, carrying the stored driver value) and rendered the source
    surface through the session's filter buffer with no reference frame; the
    session continues with that buffer.  When the pool gives a picture and a
    driver step fails it returns [NULL]; nothing is released or destroyed up
    to the failing step, then [pipeline_buf] is destroyed unless it is
    [VA_INVALID_ID], the pool picture is released, and the source. *)
Theorem Adjust_session_frame (d : adjust_data)
    (m : list VAProcFilterParameterBufferColorBalance)
    (filter_sys : filter_sys_t adjust_data) (o : filter_oracle)
    (src : picture_t) :
  adjust_reachable d m ->
  p_data filter_sys = d ->
  (exists out m' ev,
     Adjust o filter_sys m src
     = Ret (out, filter_sys, m', ev ++ [E_picture_Release src])
     /\ adjust_reachable d m')
  /\ (o_picture_pool_Wait o = None ->
      Adjust o filter_sys m src
      = Ret (None, filter_sys, m,
             [E_picture_pool_Wait (dest_pics filter_sys) None;
              E_picture_Release src]))
  /\ (forall dest, o_picture_pool_Wait o = Some dest -> filter_oracle_ok o ->
      exists m' ev_f,
        Adjust o filter_sys m src
        = Ret (Some (picture_CopyProperties dest src), filter_sys, m',
               ev_f ++ [E_picture_Release src])
        /\ Adjust_UpdateVAFilterParams d m
           = Ret (m', N.of_nat (length (available_channels d)))
        /\ map cb_attrib m' = map fst (available_channels d)
        /\ map cb_value m'
           = map (fun p => drv_value (snd p)) (available_channels d)
        /\ adjust_reachable d m'
        /\ In (E_vlc_vaapi_RenderPicture (ctx (va filter_sys))
                 (o_CreateBuffer_pipeline o)
                 (mk_pipeline_params (vlc_vaapi_PicGetSurface src)
                    [buf (va filter_sys)] 1
                    (if b_pipeline_fast filter_sys
                     then VA_PROC_PIPELINE_FAST else 0%N)
                    0 [] 0 [] 0)
                 0) ev_f)
  /\ (forall dest, o_picture_pool_Wait o = Some dest -> ~ filter_oracle_ok o ->
      exists m' ev_steps pipeline_buf,
        Adjust o filter_sys m src
        = Ret (None, filter_sys, m',
               ev_steps
               ++ (if (pipeline_buf =? VA_INVALID_ID)%N then []
                   else [E_vlc_vaapi_DestroyBuffer pipeline_buf])
               ++ [E_picture_Release (picture_CopyProperties dest src);
                   E_picture_Release src])
        /\ (forall p, ~ In (E_picture_Release p) ev_steps)
        /\ (forall b, ~ In (E_vlc_vaapi_DestroyBuffer b) ev_steps)
        /\ (forall c b, In (E_vlc_vaapi_CreateBuffer c b) ev_steps ->
              b = pipeline_buf)
        /\ ((forall c b, ~ In (E_vlc_vaapi_CreateBuffer c b) ev_steps) ->
            pipeline_buf = o_pipeline_buf_uninit o)
        /\ adjust_reachable d m').
Proof.
  intros Hreach Hd.
  pose proof (adjust_reachable_inv d m Hreach) as Hinv.
  destruct (Adjust_UpdateVAFilterParams_inv d m Hinv)
    as (m1 & Hrun & _ & Hattr & Hval).
  destruct Hinv as (_ & _ & _ & Hattr0).
  assert (Hcb : call_opt
                  (option_map (fun f => f (p_data filter_sys))
                     (Some (fun d m => x <- Adjust_UpdateVAFilterParams d m ;;
                                       Ret (fst x)))) m = Ret m1).
  { cbn [call_opt option_map]. rewrite Hd, Hrun. reflexivity. }
  assert (Hnone : o_picture_pool_Wait o = None ->
                  Adjust o filter_sys m src
                  = Ret (None, filter_sys, m,
                         [E_picture_pool_Wait (dest_pics filter_sys) None;
                          E_picture_Release src])).
  { intros Hpool. unfold Adjust, Filter. rewrite Hpool. reflexivity. }
  assert (Hsucc : forall dest, o_picture_pool_Wait o = Some dest ->
                  filter_oracle_ok o ->
                  exists ev_f,
                    Adjust o filter_sys m src
                    = Ret (Some (picture_CopyProperties dest src), filter_sys, m1,
                           ev_f ++ [E_picture_Release src])
                    /\ In (E_vlc_vaapi_RenderPicture (ctx (va filter_sys))
                             (o_CreateBuffer_pipeline o)
                             (mk_pipeline_params (vlc_vaapi_PicGetSurface src)
                                [buf (va filter_sys)] 1
                                (if b_pipeline_fast filter_sys
                                 then VA_PROC_PIPELINE_FAST else 0%N)
                                0 [] 0 [] 0)
                             0) ev_f).
  { intros dest Hpool Hok. eexists. unfold Adjust.
    erewrite (Filter_success o filter_sys m src dest _ None None m1 _ _
                Hok Hpool Hcb); [| reflexivity | reflexivity].
    cbn [bind]. rewrite set_p_data_same.
    split; [reflexivity |]. cbn. tauto. }
  assert (Hfail : forall dest, o_picture_pool_Wait o = Some dest ->
                  ~ filter_oracle_ok o ->
                  exists m' ev_steps pipeline_buf,
                    Adjust o filter_sys m src
                    = Ret (None, filter_sys, m',
                           ev_steps
                           ++ (if (pipeline_buf =? VA_INVALID_ID)%N then []
                               else [E_vlc_vaapi_DestroyBuffer pipeline_buf])
                           ++ [E_picture_Release (picture_CopyProperties dest src);
                               E_picture_Release src])
                    /\ (forall p, ~ In (E_picture_Release p) ev_steps)
                    /\ (forall b, ~ In (E_vlc_vaapi_DestroyBuffer b) ev_steps)
                    /\ (forall c b, In (E_vlc_vaapi_CreateBuffer c b) ev_steps ->
                          b = pipeline_buf)
                    /\ ((forall c b,
                           ~ In (E_vlc_vaapi_CreateBuffer c b) ev_steps) ->
                        pipeline_buf = o_pipeline_buf_uninit o)
                    /\ adjust_reachable d m').
  { intros dest Hpool Hno.
    destruct (Filter_failure o filter_sys m src dest _ None None m1
                (p_data filter_sys) _ Hpool Hcb eq_refl eq_refl Hno)
      as (sys' & m' & ev_steps & pipeline_buf & HrunF & Hsys & Hmem
          & Hrel & Hdes & Hcre & Huninit).
    rewrite set_p_data_same in Hsys.
    assert (sys' = filter_sys) as -> by (destruct Hsys; assumption).
    exists m', ev_steps, pipeline_buf. unfold Adjust. rewrite HrunF.
    cbn [bind]. split.
    { unfold Filter_error. destruct (pipeline_buf =? VA_INVALID_ID)%N;
        cbn [negb]; rewrite <- !app_assoc; reflexivity. }
    split; [exact Hrel |]. split; [exact Hdes |]. split; [exact Hcre |].
    split; [exact Huninit |].
    destruct Hmem as [-> | ->];
      [exact Hreach | exact (adjust_reach_frame d m m1 _ Hreach Hrun)]. }
  split.
  { destruct (o_picture_pool_Wait o) as [dest |] eqn:Hpool.
    - destruct (filter_oracle_ok_dec o) as [Hok | Hno].
      + destruct (Hsucc dest eq_refl Hok) as (ev_f & HrunA & _).
        eexists _, _, _. split; [exact HrunA |].
        exact (adjust_reach_frame d m m1 _ Hreach Hrun).
      + destruct (Hfail dest eq_refl Hno)
          as (m' & ev_steps & pb & HrunA & _ & _ & _ & _ & Hreach').
        exists None, m'.
        exists (ev_steps
                ++ (if (pb =? VA_INVALID_ID)%N then []
                    else [E_vlc_vaapi_DestroyBuffer pb])
                ++ [E_picture_Release (picture_CopyProperties dest src)]).
        split; [| exact Hreach'].
        rewrite HrunA. rewrite <- !app_assoc. reflexivity.
    - exists None, m, [E_picture_pool_Wait (dest_pics filter_sys) None].
      split; [exact (Hnone eq_refl) | exact Hreach]. }
  split; [exact Hnone |].
  split; [| exact Hfail].
  intros dest Hpool Hok. destruct (Hsucc dest Hpool Hok) as (ev_f & HrunA & Hin).
  exists m1, ev_f.
  split; [exact HrunA |]. split; [exact Hrun |].
  split; [rewrite Hattr; exact Hattr0 |]. split; [exact Hval |].
  split; [exact (adjust_reach_frame d m m1 _ Hreach Hrun) | exact Hin].
Qed.

(** The session opened on the three-entry report: a frame on a driver on
    which every call succeeds, and a frame on which rendering fails. *)
Lemma Adjust_session_frame_witness :
  exists d m m' ev_f m'' ev_steps,
    adjust_reachable d m
    /\ Adjust example_oracle_ok (mk_filter_sys example_va (Some 6%N) false d) m
         (example_frame 1%N true)
       = Ret (Some (picture_CopyProperties (example_frame 10%N true)
                      (example_frame 1%N true)),
              mk_filter_sys example_va (Some 6%N) false d, m',
              ev_f ++ [E_picture_Release (example_frame 1%N true)])
    /\ map cb_attrib m' = [VAProcColorBalanceContrast; VAProcColorBalanceHue]
    /\ Adjust example_oracle_render_fails
         (mk_filter_sys example_va (Some 6%N) false d) m
         (example_frame 1%N true)
       = Ret (None, mk_filter_sys example_va (Some 6%N) false d, m'',
              ev_steps ++ [E_picture_Release (example_frame 1%N true)])
    /\ adjust_reachable d m''.
Proof.
  eassert (Hopen : OpenAdjust_InitFilterParams example_env_three_caps
                     adjust_data_calloc
                   = Ret (VLC_SUCCESS, _, Some _, _, _))
    by (vm_compute; reflexivity).
  pose proof (adjust_reach_open _ _ _ _ _ Hopen) as Hreach.
  assert (Hok : filter_oracle_ok example_oracle_ok).
  { unfold filter_oracle_ok. cbn. repeat split; discriminate. }
  edestruct (Adjust_session_frame _ _
               (mk_filter_sys example_va (Some 6%N) false _) example_oracle_ok
               (example_frame 1%N true) Hreach eq_refl)
    as (_ & _ & Hframe & _).
  destruct (Hframe (example_frame 10%N true) eq_refl Hok)
    as (m' & ev_f & Hrun & _ & Hattr & _).
  edestruct (Adjust_session_frame _ _
               (mk_filter_sys example_va (Some 6%N) false _)
               example_oracle_render_fails
               (example_frame 1%N true) Hreach eq_refl)
    as ((out & m'' & ev_steps & Hrun' & Hreach') & _).
  assert (out = None) as ->.
  { revert Hrun'. vm_compute. intros E. injection E as <-. reflexivity. }
  eexists _, _, m', ev_f, m'', ev_steps. split; [exact Hreach |].
  split; [exact Hrun |]. split; [exact Hattr |].
  split; [exact Hrun' | exact Hreach'].
Defined.
